(** * ninja_extra.controllers.base: registration and permission pipeline

  A shallow embedding of [src/ninja_extra/controllers/base.py]:
  the [APIController] descriptor (tags, [__call__], [add_api_operation],
  [set_api_instance], [urls_paths]) and the [ControllerBase] permission
  chain, together with the theorems that settle the specification's
  claims about them. *)

From Stdlib Require Import Ascii String Bool Arith Lia.
From stdpp Require Import base option list.

Local Open Scope string_scope.
Local Set Warnings "-register-all".

(** ** Python [str] operations used by the controller code

  Class names and URL paths are modelled as [string]s of code points
  below 128. *)
Module PyStr.

(** [str.lower] on one ASCII code point. *)
Definition lower_char (c : ascii) : ascii :=
  let n := nat_of_ascii c in
  if ((65 <=? n)%nat && (n <=? 90)%nat)%bool then ascii_of_nat (n + 32) else c.

(** [s.lower()] *)
Fixpoint lower (s : string) : string :=
  match s with
  | EmptyString => EmptyString
  | String c s' => String (lower_char c) (lower s')
  end.

(** [s.startswith(p)] *)
Definition startswith (p s : string) : bool := String.prefix p s.

(** [sub in s] *)
Fixpoint contains (sub s : string) : bool :=
  match s with
  | EmptyString => startswith sub EmptyString
  | String _ s' => startswith sub s || contains sub s'
  end.

(** The scan of [str.replace]: occurrences of [old] are found left to
    right and do not overlap.  [skip] counts the characters of the
    occurrence just replaced that are still to be passed over. *)
Fixpoint replace_scan (old new : string) (skip : nat) (s : string) : string :=
  match s with
  | EmptyString => EmptyString
  | String c s' =>
      match skip with
      | S k => replace_scan old new k s'
      | O =>
          if startswith old s
          then new ++ replace_scan old new (String.length old - 1) s'
          else String c (replace_scan old new 0 s')
      end
  end.

(** With an empty [old], Python puts [new] before every character and
    at the end. *)
Fixpoint intersperse (new s : string) : string :=
  match s with
  | EmptyString => new
  | String c s' => new ++ String c (intersperse new s')
  end.

(** [s.replace(old, new)] *)
Definition replace (old new s : string) : string :=
  match old with
  | EmptyString => intersperse new s
  | _ => replace_scan old new 0 s
  end.

(** [s.lstrip(c)] for a one-character set [c]. *)
Fixpoint lstrip (c : ascii) (s : string) : string :=
  match s with
  | EmptyString => EmptyString
  | String d s' => if Ascii.eqb d c then lstrip c s' else s
  end.

(** [sep.join(parts)] *)
Fixpoint join (sep : string) (parts : list string) : string :=
  match parts with
  | [] => EmptyString
  | [p] => p
  | p :: rest => p ++ sep ++ join sep rest
  end.

(** Python truth value of a [str]. *)
Definition truthy (s : string) : bool :=
  match s with EmptyString => false | _ => true end.

(** [s.endswith(suf)] *)
Fixpoint endswith (suf s : string) : bool :=
  String.eqb suf s ||
  match s with
  | EmptyString => false
  | String _ s' => endswith suf s'
  end.

(** [s.removesuffix(suf)]: drop [suf] when [s] ends with it. *)
Definition removesuffix (suf s : string) : string :=
  if endswith suf s && truthy suf
  then String.substring 0 (String.length s - String.length suf) s
  else s.

End PyStr.

(** ** Python values

    Arguments typed [Any] in the source ([auth], [response], [tags],
    class attributes) range over this small universe.  Objects that the
    code only passes around are tokens. *)
Inductive PyVal : Type :=
| VNotSet                         (* ninja.constants.NOT_SET *)
| VNone
| VBool (b : bool)
| VStr (s : string)
| VList (l : list PyVal)
| VObj (o : nat)                  (* an auth callable, a schema, an API instance, ... *)
| VClass (c : nat)                (* a class object, by address *)
| VRouteFunction (rf : nat)       (* a RouteFunction instance, by address *)
| VAsView (rf : nat)              (* the bound method [rf.as_view] *)
| VController (a : nat).          (* an APIController instance, by address *)

(** Python truth value.  [NOT_SET] is a plain object: it defines neither
    [__bool__] nor [__len__], so it is true. *)
Definition truthy (v : PyVal) : bool :=
  match v with
  | VNone => false
  | VBool b => b
  | VStr s => PyStr.truthy s
  | VList [] => false
  | _ => true
  end.

(** [a or b] *)
Definition py_or (a b : PyVal) : PyVal := if truthy a then a else b.

(** [isinstance(v, str)] *)
Definition is_str (v : PyVal) : bool :=
  match v with VStr _ => true | _ => false end.

(** [isinstance(v, RouteFunction)] *)
Definition as_route_function (v : PyVal) : option nat :=
  match v with VRouteFunction rf => Some rf | _ => None end.

(** ** Exceptions and results *)
Inductive PyExc : Type :=
| TypeError
| AttributeError
| KeyError
| MissingAPIControllerDecoratorException
| PermissionDenied (message : option string)
| ControllerAlreadyRegistered.

Inductive Result (A : Type) : Type :=
| Returns (a : A)
| Raises (e : PyExc).
Arguments Returns {A} a.
Arguments Raises {A} e.

(** ** Insertion-ordered dictionaries with [str] keys *)
Definition Dict (V : Type) : Type := list (string * V).

Fixpoint dict_get {V} (k : string) (d : Dict V) : option V :=
  match d with
  | [] => None
  | (k', v) :: d' => if String.eqb k k' then Some v else dict_get k d'
  end.

(** [d[k] = v]: an existing key keeps its position, a new key goes last. *)
Fixpoint dict_set {V} (k : string) (v : V) (d : Dict V) : Dict V :=
  match d with
  | [] => [(k, v)]
  | (k', v') :: d' =>
      if String.eqb k k' then (k, v) :: d' else (k', v') :: dict_set k v d'
  end.

Definition dict_keys {V} (d : Dict V) : list string := map fst d.
Definition dict_values {V} (d : Dict V) : list V := map snd d.

(** [k in d] *)
Definition dict_mem {V} (k : string) (d : Dict V) : bool :=
  match dict_get k d with Some _ => true | None => false end.

(** ** Method resolution order

    [inspect.getmro(cls)] returns [cls.__mro__], which the interpreter
    computes when the class is created by C3 linearisation: the class
    itself, then the merge of its bases' orders and of the list of
    bases.  Class objects are named by their address. *)
Module MRO.

(** [c] occurs in [l] after its first element. *)
Definition in_tail (c : nat) (l : list nat) : bool :=
  match l with
  | [] => false
  | _ :: t => bool_decide (c ∈ t)
  end.

(** A head can be taken when it is in the tail of no list. *)
Definition good_head (ls : list (list nat)) (c : nat) : bool :=
  forallb (fun l => negb (in_tail c l)) ls.

(** The first list head, in order, that is a good head. *)
Fixpoint find_candidate (ls todo : list (list nat)) : option nat :=
  match todo with
  | [] => None
  | [] :: rest => find_candidate ls rest
  | (c :: _) :: rest =>
      if good_head ls c then Some c else find_candidate ls rest
  end.

Definition drop_head (c : nat) (l : list nat) : list nat :=
  match l with
  | h :: t => if Nat.eqb h c then t else l
  | [] => []
  end.

Definition is_nil (l : list nat) : bool :=
  match l with [] => true | _ => false end.

Fixpoint merge_fuel (fuel : nat) (ls : list (list nat)) : option (list nat) :=
  if forallb is_nil ls then Some []
  else
    match fuel with
    | O => None
    | S f =>
        match find_candidate ls ls with
        | None => None   (* inconsistent hierarchy: TypeError *)
        | Some c => option_map (cons c) (merge_fuel f (map (drop_head c) ls))
        end
    end.

Definition total_length (ls : list (list nat)) : nat :=
  fold_right (fun l n => length l + n) 0 ls.

(** Every round removes at least one element, so the total length of
    the lists bounds the number of rounds. *)
Definition merge (ls : list (list nat)) : option (list nat) :=
  merge_fuel (total_length ls) ls.

End MRO.

(** ** Objects of the registration pipeline *)

(** A class object: [__name__], [__bases__], [__mro__] and [__dict__]. *)
Record PyClass : Type := mkPyClass {
  cls_name : string;
  cls_bases : list nat;
  cls_mro : list nat;
  cls_dict : Dict PyVal
}.

(** The keyword arguments of a route, as [route_params.dict()] hands
    them to [add_api_operation]. *)
Record RouteParameter : Type := mkRouteParameter {
  rp_path : string;
  rp_methods : list string;
  rp_auth : PyVal;
  rp_response : PyVal;
  rp_operation_id : option string;
  rp_summary : option string;
  rp_description : option string;
  rp_tags : PyVal;
  rp_deprecated : option bool;
  rp_by_alias : bool;
  rp_exclude_unset : bool;
  rp_exclude_defaults : bool;
  rp_exclude_none : bool;
  rp_url_name : option string;
  rp_include_in_schema : bool
}.

Definition with_auth (v : PyVal) (p : RouteParameter) : RouteParameter :=
  mkRouteParameter (rp_path p) (rp_methods p) v (rp_response p)
    (rp_operation_id p) (rp_summary p) (rp_description p) (rp_tags p)
    (rp_deprecated p) (rp_by_alias p) (rp_exclude_unset p)
    (rp_exclude_defaults p) (rp_exclude_none p) (rp_url_name p)
    (rp_include_in_schema p).

Definition with_operation_id (i : option string) (p : RouteParameter) : RouteParameter :=
  mkRouteParameter (rp_path p) (rp_methods p) (rp_auth p) (rp_response p)
    i (rp_summary p) (rp_description p) (rp_tags p)
    (rp_deprecated p) (rp_by_alias p) (rp_exclude_unset p)
    (rp_exclude_defaults p) (rp_exclude_none p) (rp_url_name p)
    (rp_include_in_schema p).

(** A [RouteFunction]: the wrapped method's [__name__], its route
    parameters and the back-reference to the controller descriptor. *)
Record RouteFunction : Type := mkRouteFunction {
  rf_view_func_name : string;
  rf_route_params : RouteParameter;
  rf_api_controller : option nat
}.

(** Modelled from the spec: the framework's [Operation], of which only
    the registration arguments and the application it is bound to are
    kept ("HTTP methods, path, auth override, response schema,
    documentation fields"). *)
Record Operation : Type := mkOperation {
  op_view_func : PyVal;
  op_args : RouteParameter;
  op_api : PyVal
}.

(** Modelled from the spec: [ninja_extra.operation.PathView], "an
    ordered collection of operations" sharing one URL path;
    [add_operation] registers a new operation and [set_api_instance],
    defined once the descriptor is, rebinds every operation it holds to
    the application instance. *)
Record PathView : Type := mkPathView {
  operations : list Operation;
  pv_api : PyVal
}.

Definition PathView_new : PathView := mkPathView [] VNone.

Definition PathView_add_operation (pv : PathView) (view_func : PyVal)
    (args : RouteParameter) : Operation * PathView :=
  let op := mkOperation view_func args VNone in
  (op, mkPathView (operations pv ++ [op]) (pv_api pv)).

(** The [APIController] descriptor. *)
Record APIController : Type := mkAPIController {
  prefix : string;
  auth : PyVal;
  _tags : PyVal;
  auto_import : PyVal;
  permission_classes : PyVal;
  controller_class : option nat;
  _path_operations : Dict PathView;
  registered : bool
}.

(** [ninja_extra.permissions.AllowAny] *)
Definition AllowAny : PyVal := VObj 0.

(** The [tags] setter (lines 140-145). *)
Definition tags_setter (value : PyVal) : PyVal :=
  if truthy value && is_str value then VList [value] else value.

(** [APIController.__init__] *)
Definition APIController___init__ (prefix : string) (auth tags permissions
    auto_import : PyVal) : APIController :=
  {| prefix := prefix;
     auth := auth;
     _tags := tags_setter tags;
     auto_import := auto_import;
     permission_classes := py_or permissions (VList [AllowAny]);
     controller_class := None;
     _path_operations := [];
     registered := false |}.

Definition set_tags (v : PyVal) (a : APIController) : APIController :=
  mkAPIController (prefix a) (auth a) (tags_setter v) (auto_import a)
    (permission_classes a) (controller_class a) (_path_operations a)
    (registered a).

Definition set_auto_import (v : PyVal) (a : APIController) : APIController :=
  mkAPIController (prefix a) (auth a) (_tags a) v
    (permission_classes a) (controller_class a) (_path_operations a)
    (registered a).

Definition set_controller_class (c : option nat) (a : APIController) : APIController :=
  mkAPIController (prefix a) (auth a) (_tags a) (auto_import a)
    (permission_classes a) c (_path_operations a) (registered a).

Definition set_path_operations (d : Dict PathView) (a : APIController) : APIController :=
  mkAPIController (prefix a) (auth a) (_tags a) (auto_import a)
    (permission_classes a) (controller_class a) d (registered a).

(** How the framework resolves the declared arguments of an operation
    (its auth, its response schema and what else was deferred at
    declaration time) against the application instance and the
    controller it is bound with.  That code is not part of the source:
    the resolution is a parameter of the binding. *)
Definition Resolution : Type :=
  PyVal -> APIController -> RouteParameter -> RouteParameter.

(** Modelled from the spec: [PathView.set_api_instance(api, router)],
    by which "each PathView must rebind every operation it holds to
    resolve auth and response schema against the final application
    instance": the PathView and each of its operations are bound to
    [api], and the arguments of each operation are resolved against
    [api] and the controller [router]. *)
Definition PathView_set_api_instance (resolve : Resolution) (api : PyVal)
    (router : APIController) (pv : PathView) : PathView :=
  mkPathView
    (map (fun op =>
            mkOperation (op_view_func op) (resolve api router (op_args op)) api)
       (operations pv))
    api.

(** [add_api_operation] (lines 209-252) on the descriptor itself: the
    PathView of [path] is looked up or created, and asked to register
    the operation with [auth or self.auth]. *)
Definition add_api_operation (self : APIController) (view_func : PyVal)
    (args : RouteParameter) : Operation * APIController :=
  let path := rp_path args in
  let '(path_view, ops) :=
    if negb (dict_mem path (_path_operations self))
    then (PathView_new, dict_set path PathView_new (_path_operations self))
    else (default PathView_new (dict_get path (_path_operations self)),
          _path_operations self) in
  let '(operation, path_view') :=
    PathView_add_operation path_view view_func
      (with_auth (py_or (rp_auth args) (auth self)) args) in
  (* [path_view] is the object stored under [path]: its mutation is
     visible through the dictionary *)
  (operation, set_path_operations (dict_set path path_view' ops) self).

(** ** The interpreter state

    Class objects, route functions and controller descriptors are
    mutable and shared, so they live in stores indexed by address. *)
Record World : Type := mkWorld {
  classes : list PyClass;
  route_functions : list RouteFunction;
  controllers : list APIController;
  (* Modelled from the spec: the process-wide ControllerRegistry, which
     holds a controller class at most once; a second registration
     raises, or is ignored when [registry_silent] is set. *)
  registry : list nat;
  registry_silent : bool;
  (* [str(uuid.uuid4())] of the n-th call, and the calls made so far *)
  uuid4 : nat -> string;
  uuid_calls : nat
}.

Definition set_classes (cs : list PyClass) (w : World) : World :=
  mkWorld cs (route_functions w) (controllers w) (registry w)
    (registry_silent w) (uuid4 w) (uuid_calls w).

Definition set_route_functions (rs : list RouteFunction) (w : World) : World :=
  mkWorld (classes w) rs (controllers w) (registry w)
    (registry_silent w) (uuid4 w) (uuid_calls w).

Definition set_controllers (cs : list APIController) (w : World) : World :=
  mkWorld (classes w) (route_functions w) cs (registry w)
    (registry_silent w) (uuid4 w) (uuid_calls w).

Definition set_registry (r : list nat) (w : World) : World :=
  mkWorld (classes w) (route_functions w) (controllers w) r
    (registry_silent w) (uuid4 w) (uuid_calls w).

Definition set_uuid_calls (n : nat) (w : World) : World :=
  mkWorld (classes w) (route_functions w) (controllers w) (registry w)
    (registry_silent w) (uuid4 w) n.

(** Computations that read and write the state and may raise. *)
Definition M (A : Type) : Type := World -> Result (A * World).

Definition ret {A} (a : A) : M A := fun w => Returns (a, w).

Definition raise {A} (e : PyExc) : M A := fun _ => Raises e.

Definition bind {A B} (m : M A) (k : A -> M B) : M B :=
  fun w =>
    match m w with
    | Returns (a, w') => k a w'
    | Raises e => Raises e
    end.

Notation "'do' x <- m ; k" := (bind m (fun x => k))
  (at level 10, x name, m at level 100, k at level 200).
Notation "m ;; k" := (bind m (fun _ => k))
  (at level 100, k at level 200, right associativity).

(** [for x in xs: body(x)] *)
Fixpoint for_each {A} (xs : list A) (body : A -> M unit) : M unit :=
  match xs with
  | [] => ret tt
  | x :: rest => body x ;; for_each rest body
  end.

Definition when (b : bool) (m : M unit) : M unit := if b then m else ret tt.

Definition get_class (c : nat) : M PyClass :=
  fun w => match classes w !! c with
           | Some k => Returns (k, w)
           | None => Raises TypeError
           end.

Definition get_route_function (rf : nat) : M RouteFunction :=
  fun w => match route_functions w !! rf with
           | Some r => Returns (r, w)
           | None => Raises TypeError
           end.

Definition get_controller (a : nat) : M APIController :=
  fun w => match controllers w !! a with
           | Some x => Returns (x, w)
           | None => Raises TypeError
           end.

Definition put_class (c : nat) (k : PyClass) : M unit :=
  fun w => Returns (tt, set_classes (<[c := k]> (classes w)) w).

Definition put_route_function (rf : nat) (r : RouteFunction) : M unit :=
  fun w => Returns (tt, set_route_functions (<[rf := r]> (route_functions w)) w).

Definition put_controller (a : nat) (x : APIController) : M unit :=
  fun w => Returns (tt, set_controllers (<[a := x]> (controllers w)) w).

(** The classes that exist before any user code runs. *)
Definition object_ : nat := 0.
Definition ABC : nat := 1.
Definition ControllerBase : nat := 2.

(** [ControllerBase.__dict__] (lines 255-269): no route function. *)
Definition ControllerBase_dict : Dict PyVal :=
  [ ("_api_controller", VNone); ("api", VNone); ("context", VNone);
    ("Ok", VObj 1); ("Id", VObj 2); ("Detail", VObj 3);
    ("bad_request", VObj 4) ].

Definition builtin_classes : list PyClass :=
  [ mkPyClass "object" [] [object_] [];
    mkPyClass "ABC" [object_] [ABC; object_] [];
    mkPyClass "ControllerBase" [ABC] [ControllerBase; ABC; object_]
      ControllerBase_dict ].

Definition initial_world (silent : bool) (uuids : nat -> string) : World :=
  mkWorld builtin_classes [] [] [] silent uuids 0.

(** [issubclass(c, base)] *)
Definition issubclass (c base : nat) : M bool :=
  do k <- get_class c; ret (bool_decide (base ∈ cls_mro k)).

(** [inspect.getmro(cls)] *)
Definition getmro (c : nat) : M (list nat) :=
  do k <- get_class c; ret (cls_mro k).

(** Attribute lookup on a class: the first [__dict__] along the MRO
    that has the name. *)
Fixpoint lookup_along (cs : list PyClass) (order : list nat) (name : string)
    : option PyVal :=
  match order with
  | [] => None
  | c :: rest =>
      match (cs !! c) ≫= (fun k => dict_get name (cls_dict k)) with
      | Some v => Some v
      | None => lookup_along cs rest name
      end
  end.

(** [getattr(cls, name, dflt)] *)
Definition class_getattr_default (c : nat) (name : string) (dflt : PyVal) : M PyVal :=
  fun w =>
    match classes w !! c with
    | Some k => Returns (default dflt (lookup_along (classes w) (cls_mro k) name), w)
    | None => Raises TypeError
    end.

(** [cls.name] *)
Definition class_getattr (c : nat) (name : string) : M PyVal :=
  fun w =>
    match classes w !! c with
    | Some k =>
        match lookup_along (classes w) (cls_mro k) name with
        | Some v => Returns (v, w)
        | None => Raises AttributeError
        end
    | None => Raises TypeError
    end.

(** [cls.name = v] *)
Definition class_setattr (c : nat) (name : string) (v : PyVal) : M unit :=
  do k <- get_class c;
  put_class c (mkPyClass (cls_name k) (cls_bases k) (cls_mro k)
                 (dict_set name v (cls_dict k))).

(** [ControllerBaseModelMetaclass.__new__] (lines 91-98), applied to
    the namespace of a class under creation. *)
Definition ControllerBaseModelMetaclass___new__ (name : string)
    (bases : list nat) (namespace : Dict PyVal) : Dict PyVal :=
  if String.eqb name "ControllerBase" && bool_decide (ABC ∈ bases)
  then namespace
  else dict_set "_api_controller"
         (default VNone (dict_get "_api_controller" namespace)) namespace.

(** A class statement without bases derives from [object]. *)
Definition effective_bases (bases : list nat) : list nat :=
  match bases with [] => [object_] | _ => bases end.

(** [type(name, bases, namespace)]: the new class gets the next
    address and its C3 linearisation; the metaclass of [ControllerBase]
    is inherited by every class that has it among its ancestors. *)
Definition type_new (name : string) (bases : list nat) (namespace : Dict PyVal)
    : M nat :=
  fun w =>
    let bases := effective_bases bases in
    match mapM (fun b => cls_mro <$> (classes w !! b)) bases with
    | None => Raises TypeError
    | Some orders =>
        match MRO.merge (orders ++ [bases]) with
        | None => Raises TypeError
        | Some tl =>
            let c := length (classes w) in
            let d := if bool_decide (ControllerBase ∈ tl)
                     then ControllerBaseModelMetaclass___new__ name bases namespace
                     else namespace in
            Returns (c, set_classes (classes w ++ [mkPyClass name bases (c :: tl) d]) w)
        end
    end.

(** [get_route_functions] (lines 52-55) *)
Definition get_route_functions (c : nat) : M (list nat) :=
  do k <- get_class c;
  ret (omap as_route_function (dict_values (cls_dict k))).

(** [str(uuid.uuid4())] *)
Definition uuid_uuid4 : M string :=
  fun w => Returns (uuid4 w (uuid_calls w), set_uuid_calls (S (uuid_calls w)) w).

(** [APIController.add_api_operation] on the descriptor at address [self]. *)
Definition APIController_add_api_operation (self : nat) (view_func : PyVal)
    (args : RouteParameter) : M Operation :=
  do a <- get_controller self;
  let '(operation, a') := add_api_operation a view_func args in
  put_controller self a' ;;
  ret operation.

(** [add_operation_from_route_function] (lines 200-207) *)
Definition add_operation_from_route_function (self : nat) (route_function : nat)
    : M unit :=
  do r <- get_route_function route_function;
  do u <- uuid_uuid4;
  let operation_id :=
    String.substring 0 8 u ++ "_controller_" ++ rf_view_func_name r in
  let params := with_operation_id (Some operation_id) (rf_route_params r) in
  put_route_function route_function
    (mkRouteFunction (rf_view_func_name r) params (rf_api_controller r)) ;;
  do _ <- APIController_add_api_operation self (VAsView route_function) params;
  ret tt.

(** [compute_api_route_function] (lines 58-63) *)
Definition compute_api_route_function (base_cls : nat)
    (api_controller_instance : nat) : M unit :=
  do rfs <- get_route_functions base_cls;
  for_each rfs (fun cls_route_function =>
    do r <- get_route_function cls_route_function;
    put_route_function cls_route_function
      (mkRouteFunction (rf_view_func_name r) (rf_route_params r)
         (Some api_controller_instance)) ;;
    add_operation_from_route_function api_controller_instance cls_route_function).

(** Modelled from the spec: [ControllerRegistry().add_controller]. *)
Definition ControllerRegistry_add_controller (c : nat) : M unit :=
  fun w =>
    if bool_decide (c ∈ registry w)
    then if registry_silent w then Returns (tt, w)
         else Raises ControllerAlreadyRegistered
    else Returns (tt, set_registry (registry w ++ [c]) w).

(** The tag derived from a class name (line 155). *)
Definition default_tag (name : string) : string :=
  PyStr.replace "controller" "" (PyStr.lower name).

(** [APIController.__call__] (lines 147-168).  The injection wiring of
    lines 163-164 only touches [cls.__init__], which is not part of the
    state, and its failures are swallowed by [fail_silently]. *)
Definition APIController___call__ (self : nat) (cls : nat) : M nat :=
  do a <- get_controller self;
  do ai <- class_getattr_default cls "auto_import" (auto_import a);
  put_controller self (set_auto_import ai a) ;;
  do sub <- issubclass cls ControllerBase;
  do cls <- (if negb sub
             then do k <- get_class cls;
                  type_new (cls_name k) [ControllerBase; cls]
                    [("_api_controller", VController self)]
             else class_setattr cls "_api_controller" (VController self) ;;
                  ret cls);
  do a <- get_controller self;
  (when (negb (truthy (_tags a)))
     (do k <- get_class cls;
      put_controller self (set_tags (VList [VStr (default_tag (cls_name k))]) a))) ;;
  do bases <- getmro cls;
  for_each bases (fun base_cls =>
    when (negb (bool_decide (base_cls ∈ [ControllerBase; ABC; object_])))
      (compute_api_route_function base_cls self)) ;;
  do a <- get_controller self;
  put_controller self (set_controller_class (Some cls) a) ;;
  ControllerRegistry_add_controller cls ;;
  ret cls.

(** [APIController.set_api_instance] (lines 174-177); [resolve] is the
    framework's resolution, used by the PathViews. *)
Definition APIController_set_api_instance (resolve : Resolution) (self : nat)
    (api : PyVal) : M unit :=
  do a <- get_controller self;
  match controller_class a with
  | None => raise AttributeError
  | Some c =>
      class_setattr c "api" api ;;
      put_controller self
        (set_path_operations
           (map (fun kv =>
                   (fst kv, PathView_set_api_instance resolve api a (snd kv)))
              (_path_operations a)) a)
  end.

(** [APIController.build_routers] (lines 179-180) *)
Definition build_routers (self : nat) : M (list (string * nat)) :=
  do a <- get_controller self; ret [(prefix a, self)].

(** [ControllerBase.get_api_controller] (lines 271-278) *)
Definition get_api_controller (cls : nat) : M PyVal :=
  do v <- class_getattr cls "_api_controller";
  if negb (truthy v) then raise MissingAPIControllerDecoratorException
  else ret v.

(** ** URL generation *)

(** Modelled from the spec: [normalize_path] of the underlying
    framework ([ninja.utils], imported on line 26), which "collapses any
    accidental duplicate path separators": while the path contains a
    doubled separator, doubled separators are replaced by single ones.
    Every round shortens the path, so its length bounds the number of
    rounds. *)
Fixpoint normalize_path_loop (fuel : nat) (path : string) : string :=
  match fuel with
  | O => path
  | S f =>
      if PyStr.contains "//" path
      then normalize_path_loop f (PyStr.replace "//" "/" path)
      else path
  end.

Definition normalize_path (path : string) : string :=
  normalize_path_loop (String.length path) path.

(** The route computed for one path of the controller (lines 184-188). *)
Definition url_route (prefix path : string) : string :=
  let path := PyStr.replace "}" ">" (PyStr.replace "{" "<" path) in
  let route := PyStr.join "/" (List.filter PyStr.truthy [prefix; path]) in
  let route := normalize_path route in
  PyStr.lstrip "/" route.

(** [django.urls.path(route, view, name=...)] *)
Record URLPattern : Type := mkURLPattern {
  up_route : string;
  up_view : PathView;
  up_name : option string
}.

(** [APIController.urls_paths] (lines 182-192): the patterns in the
    order in which the generator yields them. *)
Definition urls_paths (self : APIController) (prefix : string) : list URLPattern :=
  flat_map
    (fun kv =>
       let route := url_route prefix (fst kv) in
       map (fun op => mkURLPattern route (snd kv) (rp_url_name (op_args op)))
         (operations (snd kv)))
    (_path_operations self).

(** The tag the specification describes: the lowercased class name
    with the suffix "controller" stripped. *)
Definition spec_default_tag (name : string) : string :=
  PyStr.removesuffix "controller" (PyStr.lower name).

(** ** The permission chain of a controller instance *)
Module Permissions.
Section Chain.

(** Requests and model objects are opaque; the absence of a request or
    of an object is [None].  A request comes from the framework and is
    true in a boolean test.  A model object is an instance of a class of
    the application, which may define [__bool__] or [__len__]:
    [obj_truthy] is what [bool(obj)] answers. *)
Context {Request Obj : Type}.
Variable obj_truthy : Obj -> bool.

(** [ninja_extra.shortcuts.get_object_or_none(klass, **kwargs)], the
    lookup collaborator: a query stands for the model or queryset and
    the filter arguments. *)
Context {Query : Type}.
Variable shortcuts_get_object_or_none : Query -> option Obj.

(** A permission class: what its instances answer, and their optional
    [message] attribute.  The [controller] argument of the checks is
    [self] throughout one chain. *)
Record PermissionClass : Type := mkPermissionClass {
  perm_id : nat;
  has_permission : Request -> bool;
  has_object_permission : Request -> Obj -> bool;
  message : option string
}.

(** [RouteContext] *)
Record RouteContext : Type := mkRouteContext {
  request : option Request;
  permission_classes : list PermissionClass
}.

(** A [ControllerBase] instance. *)
Record Controller : Type := mkController {
  context : option RouteContext
}.

(** What a run does to the permission classes, in order. *)
Inductive Event : Type :=
| Instantiated (p : PermissionClass)
| HasPermission (p : PermissionClass) (r : Request)
| HasObjectPermission (p : PermissionClass) (r : Request) (o : Obj).

Definition is_check (e : Event) : bool :=
  match e with
  | Instantiated _ => false
  | _ => true
  end.

(** A run: the events it performed and how it ended. *)
Definition Run (A : Type) : Type := list Event * Result A.

Definition done_ {A} (a : A) : Run A := ([], Returns a).

Definition emit (e : Event) : Run unit := ([e], Returns tt).

Definition and_then {A B} (m : Run A) (k : A -> Run B) : Run B :=
  match m with
  | (t, Returns a) => let '(t', r) := k a in ((t ++ t')%list, r)
  | (t, Raises e) => (t, Raises e)
  end.

(** [ControllerBase.permission_denied] (lines 280-283) *)
Definition permission_denied {A} (permission : PermissionClass) : Run A :=
  ([], Raises (PermissionDenied (message permission))).

(** [ControllerBase._get_permissions] (lines 306-315): the classes the
    generator instantiates, one each time the loop asks for the next
    permission. *)
Definition _get_permissions (self : Controller) : list PermissionClass :=
  match context self with
  | None => []
  | Some ctx => permission_classes ctx
  end.

(** The loop shared by the two checks: [check] evaluates
    [permission.has_permission(...)] or
    [permission.has_object_permission(...)] on the request. *)
Fixpoint check_loop (self : Controller)
    (check : PermissionClass -> Request -> Run bool)
    (perms : list PermissionClass) : Run unit :=
  match perms with
  | [] => done_ tt
  | permission :: rest =>
      and_then (emit (Instantiated permission)) (fun _ =>
      and_then
        (* self.context and self.context.request and not permission.has...() *)
        (match context self with
         | None => done_ false
         | Some ctx =>
             match request ctx with
             | None => done_ false
             | Some r => and_then (check permission r) (fun b => done_ (negb b))
             end
         end) (fun denied =>
      if denied : bool then permission_denied permission
      else check_loop self check rest))
  end.

(** [ControllerBase.check_permissions] (lines 317-330) *)
Definition check_permissions (self : Controller) : Run unit :=
  check_loop self
    (fun p r => and_then (emit (HasPermission p r)) (fun _ => done_ (has_permission p r)))
    (_get_permissions self).

(** [ControllerBase.check_object_permissions] (lines 332-345) *)
Definition check_object_permissions (self : Controller) (obj : Obj) : Run unit :=
  check_loop self
    (fun p r => and_then (emit (HasObjectPermission p r obj))
                  (fun _ => done_ (has_object_permission p r obj)))
    (_get_permissions self).

(** [ControllerBase.get_object_or_none] (lines 298-304); line 302,
    [if obj:], tests the truth of what the lookup returned. *)
Definition get_object_or_none (self : Controller) (query : Query)
    : Run (option Obj) :=
  let obj := shortcuts_get_object_or_none query in
  and_then
    (match obj with
     | Some o =>
         if obj_truthy o then check_object_permissions self o else done_ tt
     | None => done_ tt
     end) (fun _ => done_ obj).

(** [ninja_extra.shortcuts.get_object_or_exception(klass, error_message,
    exception, **kwargs)], the lookup collaborator that raises when it
    finds nothing: a fetch stands for the model or queryset, the error
    message, the exception type and the filter arguments. *)
Context {Fetch : Type}.
Variable shortcuts_get_object_or_exception : Fetch -> Result Obj.

(** [ControllerBase.get_object_or_exception] (lines 285-296) *)
Definition get_object_or_exception (self : Controller) (fetch : Fetch) : Run Obj :=
  and_then ([], shortcuts_get_object_or_exception fetch) (fun obj =>
  and_then (check_object_permissions self obj) (fun _ => done_ obj)).

(** The events of a loop in which every permission passes. *)
Definition passing_events (r : Request) (ps : list PermissionClass) : list Event :=
  flat_map (fun p => [Instantiated p; HasPermission p r]) ps.

Definition passing_object_events (r : Request) (o : Obj)
    (ps : list PermissionClass) : list Event :=
  flat_map (fun p => [Instantiated p; HasObjectPermission p r o]) ps.

End Chain.
End Permissions.

(** The auth the specification describes for [add_api_operation]: the
    route-level value unless it is the not-set sentinel, in which case
    the controller's own default. *)
Definition spec_operation_auth (route_auth controller_auth : PyVal) : PyVal :=
  match route_auth with
  | VNotSet => controller_auth
  | v => v
  end.

(** The route the specification describes, step by step. *)

(** Curly-brace parameters become angle-bracket parameters. *)
Definition translate_char (c : ascii) : ascii :=
  if Ascii.eqb c "{" then "<"%char
  else if Ascii.eqb c "}" then ">"%char else c.

Fixpoint translate_params (s : string) : string :=
  match s with
  | EmptyString => EmptyString
  | String c s' => String (translate_char c) (translate_params s')
  end.

(** The path joined to the prefix; an empty part is left out. *)
Definition join_prefix (prefix path : string) : string :=
  match prefix, path with
  | EmptyString, _ => path
  | _, EmptyString => prefix
  | _, _ => prefix ++ "/" ++ path
  end.

(** A separator followed by a separator is dropped. *)
Fixpoint collapse_separators (s : string) : string :=
  match s with
  | EmptyString => EmptyString
  | String c s' =>
      if Ascii.eqb c "/" && PyStr.startswith "/" s'
      then collapse_separators s'
      else String c (collapse_separators s')
  end.

(** One leading separator is dropped. *)
Definition strip_leading_separator (s : string) : string :=
  match s with
  | String c s' => if Ascii.eqb c "/" then s' else s
  | EmptyString => EmptyString
  end.

Definition spec_route (prefix path : string) : string :=
  strip_leading_separator
    (collapse_separators (join_prefix prefix (translate_params path))).

(** ** Observations on the state *)

(** The operation was made from the route function at address [rf]. *)
Definition is_view_of (rf : nat) (op : Operation) : bool :=
  match op_view_func op with
  | VAsView r => Nat.eqb r rf
  | _ => false
  end.

(** All the operations of a controller, path by path. *)
Definition all_operations (a : APIController) : list Operation :=
  flat_map (fun kv => operations (snd kv)) (_path_operations a).

(** How many operations of the controller were made from [rf]. *)
Definition conversions (rf : nat) (a : APIController) : nat :=
  length (List.filter (is_view_of rf) (all_operations a)).

(** The route functions a class declares: those in its own [__dict__]. *)
Definition declared (k : PyClass) : list nat :=
  omap as_route_function (dict_values (cls_dict k)).

Definition declared_at (cs : list PyClass) (c : nat) : list nat :=
  match cs !! c with
  | Some k => declared k
  | None => []
  end.

(** The classes [__call__] skips (line 160). *)
Definition skipped (c : nat) : bool :=
  bool_decide (c ∈ [ControllerBase; ABC; object_]).

(** Class objects as the interpreter builds them: a linearisation
    starts with the class itself, names existing classes and repeats
    none; the three classes that exist from the start declare no route
    function. *)
Record wf_world (w : World) : Prop := mk_wf_world {
  wf_builtins : 3 <= length (classes w);
  wf_mro_head : forall c k, classes w !! c = Some k ->
                  exists tl, cls_mro k = c :: tl;
  wf_mro_nodup : forall c k, classes w !! c = Some k -> NoDup (cls_mro k);
  wf_mro_bound : forall c k, classes w !! c = Some k ->
                   Forall (fun x => x < length (classes w)) (cls_mro k);
  wf_skipped : forall c k, skipped c = true -> classes w !! c = Some k ->
                 declared k = []
}.

(** A RouteFunction object is made by decorating one method: it sits in
    one slot of one class. *)
Record unshared (w : World) : Prop := mk_unshared {
  unshared_slots : forall c k, classes w !! c = Some k -> NoDup (declared k);
  unshared_classes : forall c1 c2 k1 k2 rf,
      classes w !! c1 = Some k1 -> classes w !! c2 = Some k2 ->
      rf ∈ declared k1 -> rf ∈ declared k2 -> c1 = c2
}.

(** The configuration of a descriptor, its operations apart. *)
Definition same_config (a a' : APIController) : Prop :=
  prefix a' = prefix a /\ auth a' = auth a /\ _tags a' = _tags a /\
  auto_import a' = auto_import a /\
  permission_classes a' = permission_classes a /\
  controller_class a' = controller_class a /\ registered a' = registered a.

(** From [w] to [w'] the classes and the registry stayed as they were
    and the descriptor at [self] gained one operation for each element
    of [converted], nothing else. *)
Definition grows (self : nat) (converted : list nat) (w w' : World) : Prop :=
  classes w' = classes w /\ registry w' = registry w /\
  registry_silent w' = registry_silent w /\
  forall a, controllers w !! self = Some a ->
    exists a', controllers w' !! self = Some a' /\ same_config a a' /\
      forall x, conversions x a' = conversions x a + count_occ Nat.eq_dec converted x.

(** What the class handed to the decorator becomes (lines 149-152):
    either it already was a controller class and only its
    [_api_controller] attribute is rebound, or a new class of the same
    name is made with the bases ControllerBase and the class. *)
Definition finalized_class (self cls : nat) (kc : PyClass) (R : nat)
    (kR : PyClass) (cs cs' : list PyClass) : Prop :=
  ((ControllerBase ∈ cls_mro kc) /\ R = cls /\
   kR = mkPyClass (cls_name kc) (cls_bases kc) (cls_mro kc)
          (dict_set "_api_controller" (VController self) (cls_dict kc)) /\
   cs' = <[cls := kR]> cs)
  \/
  ((ControllerBase ∉ cls_mro kc) /\ R = length cs /\
   cs' = (cs ++ [kR])%list /\
   cls_name kR = cls_name kc /\
   cls_bases kR = [ControllerBase; cls] /\
   declared kR = [] /\
   exists kb tl, cs !! ControllerBase = Some kb /\
     MRO.merge [cls_mro kb; cls_mro kc; [ControllerBase; cls]] = Some tl /\
     cls_mro kR = R :: tl).

(** ** A worked hierarchy

    A base controller class [A] with the route [list_items], two classes
    [B1] and [B2] deriving from it, [B2] adding the route [get_item],
    and the class handed to the decorator deriving from both: [A] is
    reached along two paths. *)
Definition example_route (path : string) : RouteParameter :=
  mkRouteParameter path ["GET"] VNotSet VNotSet None None None VNone None
    false false false false None true.

Definition example_start : World :=
  set_controllers [APIController___init__ "shop" VNotSet VNone VNone (VBool true)]
    (set_route_functions
       [mkRouteFunction "list_items" (example_route "/items") None;
        mkRouteFunction "get_item" (example_route "/items/{item_id}") None]
       (initial_world false (fun _ => "0123456789abcdef0123"))).

(** The class statements, on top of [root]; the last class is named [name]. *)
Definition example_classes (root : list nat) (name : string) : M nat :=
  do a <- type_new "A" root [("list_items", VRouteFunction 0)];
  do b1 <- type_new "B1" [a] [];
  do b2 <- type_new "B2" [a] [("get_item", VRouteFunction 1)];
  type_new name [b1; b2] [].

(** The state and the class once the class statements have run. *)
Definition example_declared (root : list nat) (name : string) : World :=
  match example_classes root name example_start with
  | Returns (_, w) => w
  | Raises _ => example_start
  end.

(** The state once the decorator has run on the last class. *)
Definition example_decorated (root : list nat) (name : string) : World :=
  match APIController___call__ 0 6 (example_declared root name) with
  | Returns (_, w) => w
  | Raises _ => example_start
  end.

(** A controller class whose body binds one RouteFunction object to two
    names: [list_items = route.get("/items")(...)] followed by
    [items = list_items]. *)
Definition example_aliased : World :=
  match type_new "AliasController" [ControllerBase]
          [("list_items", VRouteFunction 0); ("items", VRouteFunction 0)]
          example_start with
  | Returns (_, w) => w
  | Raises _ => example_start
  end.

(** The value stored in the [__dict__] of class [c] under [name]. *)
Definition class_attr (w : World) (c : nat) (name : string) : option PyVal :=
  (classes w !! c) ≫= (fun k => dict_get name (cls_dict k)).

(** Every PathView and every operation of the controller is bound to [api]. *)
Definition bound_to (api : PyVal) (a : APIController) : Prop :=
  Forall (fun kv => pv_api (snd kv) = api /\
                    Forall (fun op => op_api op = api) (operations (snd kv)))
    (_path_operations a).

(** A resolution for the examples: an auth left at the not-set sentinel
    becomes the controller's auth, and tags left at None become the
    controller's tags. *)
Definition example_resolve : Resolution :=
  fun _ router args =>
    let args :=
      match rp_auth args with
      | VNotSet => with_auth (auth router) args
      | _ => args
      end in
    match rp_tags args with
    | VNone =>
        mkRouteParameter (rp_path args) (rp_methods args) (rp_auth args)
          (rp_response args) (rp_operation_id args) (rp_summary args)
          (rp_description args) (_tags router) (rp_deprecated args)
          (rp_by_alias args) (rp_exclude_unset args) (rp_exclude_defaults args)
          (rp_exclude_none args) (rp_url_name args) (rp_include_in_schema args)
    | _ => args
    end.

(** The decorated example controller once bound to an application. *)
Definition example_bound (api : PyVal) : World :=
  match APIController_set_api_instance example_resolve 0 api
          (example_decorated [ControllerBase] "WidgetController") with
  | Returns (_, w) => w
  | Raises _ => example_start
  end.

(** ** A worked permission chain: requests and objects are numbers. *)
Definition example_denies : @Permissions.PermissionClass nat nat :=
  Permissions.mkPermissionClass 1 (fun _ => false) (fun _ _ => false)
    (Some "not allowed").

Definition example_allows : @Permissions.PermissionClass nat nat :=
  Permissions.mkPermissionClass 2 (fun _ => true) (fun _ _ => true) None.

(** The object with the number of the query, none for the query 0. *)
Definition example_lookup (query : nat) : option nat :=
  match query with O => None | S _ => Some query end.

(** The object 9 is an empty container, false in a boolean test; every
    other object is true. *)
Definition example_truth (obj : nat) : bool := negb (Nat.eqb obj 9).

Definition example_context (perms : list (@Permissions.PermissionClass nat nat))
    : @Permissions.RouteContext nat nat :=
  Permissions.mkRouteContext (Some 7) perms.

Definition example_controller (perms : list (@Permissions.PermissionClass nat nat))
    : @Permissions.Controller nat nat :=
  Permissions.mkController (Some (example_context perms)).

(** ** The rest of the descriptor *)

(** [APIController.__str__] (lines 197-198) *)
Definition APIController___str__ (self : nat) : M string :=
  do a <- get_controller self;
  match controller_class a with
  | None => raise AttributeError
  | Some c => do k <- get_class c; ret (cls_name k)
  end.

(** [APIController.__repr__] (lines 194-195) *)
Definition APIController___repr__ (self : nat) : M string :=
  do a <- get_controller self;
  match controller_class a with
  | None => raise AttributeError
  | Some c => do k <- get_class c; ret ("<controller - " ++ cls_name k ++ ">")
  end.

(** [APIController(...)]: a new descriptor at the next address. *)
Definition APIController_new (prefix : string) (auth tags permissions
    auto_import : PyVal) : M nat :=
  fun w =>
    Returns (length (controllers w),
             set_controllers
               (controllers w
                  ++ [APIController___init__ prefix auth tags permissions auto_import])
               w).

(** The first argument of [api_controller]: a prefix, or the class when
    the decorator is used bare. *)
Inductive PrefixOrClass : Type :=
| AsPrefix (prefix : string)
| AsClass (cls : nat).

(** [api_controller] (lines 373-384) *)
Definition api_controller (prefix : PrefixOrClass) (auth tags permissions
    auto_import : PyVal) : M PyVal :=
  match prefix with
  | AsClass cls =>
      do _api_controller <- APIController_new "" auth tags permissions auto_import;
      do r <- APIController___call__ _api_controller cls;
      ret (VClass r)
  | AsPrefix p =>
      do a <- APIController_new p auth tags permissions auto_import;
      ret (VController a)
  end.

(** The loop of lines 159-161, on its own. *)
Definition conversion_loop (self : nat) (bases : list nat) : M unit :=
  for_each bases (fun base_cls =>
    when (negb (bool_decide (base_cls ∈ [ControllerBase; ABC; object_])))
      (compute_api_route_function base_cls self)).

(** From [w] to [w'] the classes stayed as they were, the descriptor at
    [self] gained [n] operations and [n] uuids were drawn. *)
Definition counts (self n : nat) (w w' : World) : Prop :=
  classes w' = classes w /\
  uuid_calls w' = uuid_calls w + n /\
  forall a, controllers w !! self = Some a ->
    exists a', controllers w' !! self = Some a' /\
      length (all_operations a') = length (all_operations a) + n.

(** A state reached from [ws] by steps that only draw uuids. *)
Definition draws_from (ws w : World) : Prop :=
  uuid4 w = uuid4 ws /\ uuid_calls ws <= uuid_calls w.

(** In [w'] the route function at [rf] points back to the descriptor
    [self] and carries an operation id made of the first eight
    characters of a uuid drawn between [w] and [w'], "_controller_" and
    the name of the wrapped function. *)
Definition stamped (self rf : nat) (w w' : World) : Prop :=
  exists r n,
    route_functions w' !! rf = Some r /\
    rf_api_controller r = Some self /\
    uuid_calls w <= n < uuid_calls w' /\
    rp_operation_id (rf_route_params r)
      = Some (String.substring 0 8 (uuid4 w n)
                ++ "_controller_" ++ rf_view_func_name r).

(** The example hierarchy with one more class, deriving from the
    decorated one and left undecorated. *)
Definition example_subclassed : World :=
  match type_new "SpecialWidgetController" [6] []
          (example_decorated [ControllerBase] "WidgetController") with
  | Returns (_, w) => w
  | Raises _ => example_start
  end.

(** A lookup that finds the object with the number of the fetch and
    raises for the fetch 0. *)
Definition example_fetch (fetch : nat) : Result nat :=
  match fetch with O => Raises KeyError | S _ => Returns fetch end.

(** The state a computation leaves, the state it started in if it raises. *)
Definition state_after {A} (m : M A) (w : World) : World :=
  match m w with
  | Returns (_, w') => w'
  | Raises _ => w
  end.

(** The example hierarchy with a second descriptor and a route function
    that no class declares. *)
Definition example_crowded : World :=
  let w := example_declared [ControllerBase] "WidgetController" in
  set_controllers
    (controllers w ++ [APIController___init__ "other" (VObj 7) (VStr "misc") VNone VNone])
    (set_route_functions
       (route_functions w ++ [mkRouteFunction "ping" (example_route "/ping") None])
       w).

(** * Properties *)

(** ** The permission chain *)
Section ChainFacts.

Import Permissions.
Context {Request Obj Query : Type}.
Variable truth : Obj -> bool.
Variable lookup : Query -> option Obj.
Implicit Types (self : @Controller Request Obj) (p : @PermissionClass Request Obj).

Lemma check_loop_no_context self check ps :
  context self = None ->
  check_loop self check ps = (map Instantiated ps, Returns tt).
Proof.
  intros Hc. induction ps as [|p ps IH]; simpl; [reflexivity|].
  rewrite Hc. simpl. rewrite IH. reflexivity.
Qed.

Lemma check_loop_no_request self ctx check ps :
  context self = Some ctx -> request ctx = None ->
  check_loop self check ps = (map Instantiated ps, Returns tt).
Proof.
  intros Hc Hr. induction ps as [|p ps IH]; simpl; [reflexivity|].
  rewrite Hc, Hr. simpl. rewrite IH. reflexivity.
Qed.

Lemma is_check_instantiated (ps : list (@PermissionClass Request Obj)) :
  List.filter is_check (map Instantiated ps) = [].
Proof. induction ps; simpl; auto. Qed.

(** The loop stops at the first permission that refuses: the ones
    before it were asked and agreed, the ones after it are neither
    instantiated nor asked. *)
Lemma check_loop_first_refusal self ctx r check ev ans before p after :
  context self = Some ctx -> request ctx = Some r ->
  (forall q, check q r = ([ev q], Returns (ans q))) ->
  Forall (fun q => ans q = true) before ->
  ans p = false ->
  check_loop self check (before ++ p :: after) =
    ((flat_map (fun q => [Instantiated q; ev q]) before
        ++ [Instantiated p; ev p])%list,
     Raises (PermissionDenied (message p))).
Proof.
  intros Hc Hr Hcheck Hbefore Hp.
  induction Hbefore as [|q before Hq _ IH]; simpl.
  - rewrite Hc, Hr, Hcheck. simpl. rewrite Hp. reflexivity.
  - rewrite Hc, Hr, Hcheck. simpl. rewrite Hq. simpl. rewrite IH. reflexivity.
Qed.

Lemma check_loop_all_pass self ctx r check ev ans ps :
  context self = Some ctx -> request ctx = Some r ->
  (forall q, check q r = ([ev q], Returns (ans q))) ->
  Forall (fun q => ans q = true) ps ->
  check_loop self check ps =
    (flat_map (fun q => [Instantiated q; ev q]) ps, Returns tt).
Proof.
  intros Hc Hr Hcheck Hall.
  induction Hall as [|q ps Hq _ IH]; simpl; [reflexivity|].
  rewrite Hc, Hr, Hcheck. simpl. rewrite Hq. simpl. rewrite IH. reflexivity.
Qed.

Lemma check_permissions_first_refusal self ctx r before p after :
  context self = Some ctx -> request ctx = Some r ->
  permission_classes ctx = (before ++ p :: after)%list ->
  Forall (fun q => has_permission q r = true) before ->
  has_permission p r = false ->
  check_permissions self =
    ((passing_events r before ++ [Instantiated p; HasPermission p r])%list,
     Raises (PermissionDenied (message p))).
Proof.
  intros Hc Hr Hps Hbefore Hp. unfold check_permissions, _get_permissions.
  rewrite Hc, Hps.
  apply (check_loop_first_refusal self ctx r _ (fun q => HasPermission q r)
           (fun q => has_permission q r)); auto.
Qed.

Lemma check_permissions_all_pass self ctx r :
  context self = Some ctx -> request ctx = Some r ->
  Forall (fun q => has_permission q r = true) (permission_classes ctx) ->
  check_permissions self = (passing_events r (permission_classes ctx), Returns tt).
Proof.
  intros Hc Hr Hall. unfold check_permissions, _get_permissions. rewrite Hc.
  apply (check_loop_all_pass self ctx r _ (fun q => HasPermission q r)
           (fun q => has_permission q r)); auto.
Qed.

Lemma check_object_permissions_first_refusal self ctx r o before p after :
  context self = Some ctx -> request ctx = Some r ->
  permission_classes ctx = (before ++ p :: after)%list ->
  Forall (fun q => has_object_permission q r o = true) before ->
  has_object_permission p r o = false ->
  check_object_permissions self o =
    ((passing_object_events r o before
        ++ [Instantiated p; HasObjectPermission p r o])%list,
     Raises (PermissionDenied (message p))).
Proof.
  intros Hc Hr Hps Hbefore Hp. unfold check_object_permissions, _get_permissions.
  rewrite Hc, Hps.
  apply (check_loop_first_refusal self ctx r _ (fun q => HasObjectPermission q r o)
           (fun q => has_object_permission q r o)); auto.
Qed.

Lemma check_object_permissions_all_pass self ctx r o :
  context self = Some ctx -> request ctx = Some r ->
  Forall (fun q => has_object_permission q r o = true) (permission_classes ctx) ->
  check_object_permissions self o =
    (passing_object_events r o (permission_classes ctx), Returns tt).
Proof.
  intros Hc Hr Hall. unfold check_object_permissions, _get_permissions. rewrite Hc.
  apply (check_loop_all_pass self ctx r _ (fun q => HasObjectPermission q r o)
           (fun q => has_object_permission q r o)); auto.
Qed.

(** C3. Within a request, when the first permission class P1 of the
    declared list refuses, [check_permissions] raises the
    permission-denied error carrying P1's optional message, and the only
    events of the run are P1's instantiation and P1's [has_permission]
    call: no later permission class is instantiated or asked. *)
Theorem check_permissions_short_circuit self ctx r p1 rest :
  context self = Some ctx -> request ctx = Some r ->
  permission_classes ctx = p1 :: rest ->
  has_permission p1 r = false ->
  check_permissions self =
    ([Instantiated p1; HasPermission p1 r], Raises (PermissionDenied (message p1))).
Proof.
  intros Hc Hr Hps Hp.
  apply (check_permissions_first_refusal self ctx r [] p1 rest); auto.
Qed.

(** C7. When the controller instance has no RouteContext, or its context
    carries no request, [check_permissions] and
    [check_object_permissions] return normally and their runs contain no
    [has_permission] or [has_object_permission] call. *)
Theorem checks_skipped_outside_request self obj :
  (context self = None \/
   exists ctx, context self = Some ctx /\ request ctx = None) ->
  (exists t, check_permissions self = (t, Returns tt)
             /\ List.filter is_check t = []) /\
  (exists t, check_object_permissions self obj = (t, Returns tt)
             /\ List.filter is_check t = []).
Proof.
  intros [Hc | (ctx & Hc & Hr)]; split;
    exists (map Instantiated (_get_permissions self)); split;
    try apply is_check_instantiated.
  - apply check_loop_no_context; assumption.
  - apply check_loop_no_context; assumption.
  - apply (check_loop_no_request self ctx); assumption.
  - apply (check_loop_no_request self ctx); assumption.
Qed.

(** The run of [get_object_or_none] on a found object that is true is
    the run of the object-level chain. *)
Lemma get_object_or_none_found self query o :
  lookup query = Some o -> truth o = true ->
  get_object_or_none truth lookup self query =
    (fst (check_object_permissions self o),
     match snd (check_object_permissions self o) with
     | Returns _ => Returns (Some o)
     | Raises e => Raises e
     end).
Proof.
  unfold get_object_or_none. intros -> ->.
  destruct (check_object_permissions self o) as [t [[]|e]]; simpl;
    rewrite ?app_nil_r; reflexivity.
Qed.

(** [get_object_or_none] returns None with an empty run when the
    lookup found nothing.  When the lookup found an object that is true
    in a boolean test, the run is exactly the object-level permission
    chain on that object: the object is returned if the chain returns,
    and the chain's error is raised instead of returning the object if
    the chain raises. *)
Theorem get_object_or_none_checks_found_object self query :
  (lookup query = None ->
     get_object_or_none truth lookup self query = ([], Returns None)) /\
  forall o, lookup query = Some o -> truth o = true ->
    (forall t, check_object_permissions self o = (t, Returns tt) ->
               get_object_or_none truth lookup self query = (t, Returns (Some o))) /\
    (forall t e, check_object_permissions self o = (t, Raises e) ->
                 get_object_or_none truth lookup self query = (t, Raises e)).
Proof.
  split.
  - unfold get_object_or_none. intros ->. reflexivity.
  - intros o Ho Ht. split; intros;
      rewrite (get_object_or_none_found self query o Ho Ht); rewrite H; reflexivity.
Qed.

(** Within a request, a found object that is true is returned only
    after every permission class was asked about that very object, in
    declaration order. *)
Lemma get_object_or_none_permitted self ctx r query o :
  context self = Some ctx -> request ctx = Some r ->
  lookup query = Some o -> truth o = true ->
  Forall (fun q => has_object_permission q r o = true) (permission_classes ctx) ->
  get_object_or_none truth lookup self query =
    (passing_object_events r o (permission_classes ctx), Returns (Some o)).
Proof.
  intros Hc Hr Ho Ht Hall. rewrite (get_object_or_none_found self query o Ho Ht).
  rewrite (check_object_permissions_all_pass self ctx r o); auto.
Qed.

(** Within a request, a found object that is true and that some
    permission class refuses is not returned. *)
Lemma get_object_or_none_refused self ctx r query o before p after :
  context self = Some ctx -> request ctx = Some r ->
  lookup query = Some o -> truth o = true ->
  permission_classes ctx = (before ++ p :: after)%list ->
  Forall (fun q => has_object_permission q r o = true) before ->
  has_object_permission p r o = false ->
  snd (get_object_or_none truth lookup self query)
    = Raises (PermissionDenied (message p)).
Proof.
  intros Hc Hr Ho Ht Hps Hb Hp.
  rewrite (get_object_or_none_found self query o Ho Ht).
  rewrite (check_object_permissions_first_refusal self ctx r o before p after);
    auto.
Qed.

(** A found object that is false in a boolean test is returned without
    any permission class being instantiated or asked. *)
Lemma get_object_or_none_false_object self query o :
  lookup query = Some o -> truth o = false ->
  get_object_or_none truth lookup self query = ([], Returns (Some o)).
Proof. unfold get_object_or_none. intros -> ->. reflexivity. Qed.

End ChainFacts.

(** ** Dictionaries *)

Lemma dict_get_set {V} (k q : string) (v : V) (d : Dict V) :
  dict_get q (dict_set k v d) = if String.eqb q k then Some v else dict_get q d.
Proof.
  induction d as [|[k' v'] d IH]; simpl.
  - destruct (String.eqb_spec q k); reflexivity.
  - destruct (String.eqb_spec k k') as [->|Hk]; simpl.
    + destruct (String.eqb_spec q k'); reflexivity.
    + rewrite IH. destruct (String.eqb_spec q k') as [->|Hq];
        destruct (String.eqb_spec k' k); congruence.
Qed.

Lemma dict_get_set_eq {V} (k : string) (v : V) (d : Dict V) :
  dict_get k (dict_set k v d) = Some v.
Proof. rewrite dict_get_set, String.eqb_refl. reflexivity. Qed.

Lemma dict_get_set_ne {V} (k q : string) (v : V) (d : Dict V) :
  q <> k -> dict_get q (dict_set k v d) = dict_get q d.
Proof.
  intros H. rewrite dict_get_set. destruct (String.eqb_spec q k); congruence.
Qed.

Lemma dict_keys_set {V} (k : string) (v : V) (d : Dict V) :
  dict_keys (dict_set k v d) =
    (dict_keys d ++ if dict_mem k d then [] else [k])%list.
Proof.
  unfold dict_mem. induction d as [|[k' v'] d IH]; simpl; [reflexivity|].
  destruct (String.eqb_spec k k') as [->|Hk]; simpl.
  - rewrite app_nil_r. reflexivity.
  - rewrite IH. reflexivity.
Qed.

Lemma dict_mem_set {V} (k q : string) (v : V) (d : Dict V) :
  dict_mem q (dict_set k v d) = String.eqb q k || dict_mem q d.
Proof.
  unfold dict_mem. rewrite dict_get_set. destruct (String.eqb q k); reflexivity.
Qed.

Lemma dict_set_set {V} (k : string) (v v0 : V) (d : Dict V) :
  dict_set k v (dict_set k v0 d) = dict_set k v d.
Proof.
  induction d as [|[k' v'] d IH]; simpl.
  - rewrite String.eqb_refl. reflexivity.
  - destruct (String.eqb k k') eqn:E; simpl.
    + rewrite String.eqb_refl. reflexivity.
    + rewrite E, IH. reflexivity.
Qed.

(** ** Registration of one operation *)

(** What [add_api_operation] does to the path-operation map: the entry
    of the path is rewritten with one more operation, the operation
    returned. *)
Lemma add_api_operation_unfold (self : APIController) view_func args :
  let operation :=
    mkOperation view_func
      (with_auth (py_or (rp_auth args) (auth self)) args) VNone in
  let old := default PathView_new (dict_get (rp_path args) (_path_operations self)) in
  add_api_operation self view_func args =
    (operation,
     set_path_operations
       (dict_set (rp_path args)
          (mkPathView (operations old ++ [operation]) (pv_api old))
          (_path_operations self)) self).
Proof.
  unfold add_api_operation, dict_mem.
  destruct (dict_get (rp_path args) (_path_operations self)) as [pv|] eqn:E;
    simpl; [reflexivity|].
  rewrite dict_set_set. reflexivity.
Qed.

(** C5 as the code has it. The auth handed to the PathView is
    [auth or self.auth]: the route-level value whenever that value is
    true, which includes the not-set sentinel left by a caller who
    omitted auth, and the controller's own auth whenever the route-level
    value is false (None, an empty list). *)
Theorem add_api_operation_auth (self : APIController) view_func args :
  let passed := rp_auth (op_args (fst (add_api_operation self view_func args))) in
  passed = py_or (rp_auth args) (auth self) /\
  (truthy (rp_auth args) = true -> passed = rp_auth args) /\
  (truthy (rp_auth args) = false -> passed = auth self) /\
  (rp_auth args = VNotSet -> passed = VNotSet).
Proof.
  rewrite add_api_operation_unfold. simpl. unfold py_or.
  repeat split; intros H; rewrite H; reflexivity.
Qed.

(** C5 as the specification has it fails: a caller who omits auth (the
    sentinel) on a controller whose default auth is some scheme gets the
    sentinel passed on, not the controller's default; and a caller who
    sets auth to None explicitly gets the controller's default. *)
Lemma add_api_operation_auth_not_sentinel_based :
  let self := APIController___init__ "shop" (VObj 7) VNone VNone (VBool true) in
  let omitted :=
    mkRouteParameter "/items" ["GET"] VNotSet VNotSet None None None VNone None
      false false false false None true in
  let explicit_none := with_auth VNone omitted in
  rp_auth (op_args (fst (add_api_operation self (VObj 9) omitted)))
    <> spec_operation_auth (rp_auth omitted) (auth self) /\
  rp_auth (op_args (fst (add_api_operation self (VObj 9) explicit_none)))
    <> spec_operation_auth (rp_auth explicit_none) (auth self).
Proof. split; vm_compute; discriminate. Qed.

(** C10. [add_api_operation] with path p gives p a PathView holding
    just the new operation when p was not a key, and otherwise appends
    the new operation to the PathView p already had; the PathView of
    every other key is unchanged, every key stays a key, and the only
    key that can be added is p, at the end. *)
Theorem add_api_operation_frame (self : APIController) view_func args :
  let p := rp_path args in
  let operation := fst (add_api_operation self view_func args) in
  let self' := snd (add_api_operation self view_func args) in
  (dict_mem p (_path_operations self) = false ->
     dict_get p (_path_operations self')
       = Some (mkPathView [operation] (pv_api PathView_new))) /\
  (forall pv, dict_get p (_path_operations self) = Some pv ->
     dict_get p (_path_operations self')
       = Some (mkPathView (operations pv ++ [operation]) (pv_api pv))) /\
  (forall q, q <> p ->
     dict_get q (_path_operations self') = dict_get q (_path_operations self)) /\
  (forall q, dict_mem q (_path_operations self) = true ->
     dict_mem q (_path_operations self') = true) /\
  dict_keys (_path_operations self') =
    (dict_keys (_path_operations self)
       ++ if dict_mem p (_path_operations self) then [] else [p])%list.
Proof.
  rewrite add_api_operation_unfold. simpl. repeat split.
  - unfold dict_mem. intros H. rewrite dict_get_set_eq.
    destruct (dict_get (rp_path args) (_path_operations self)); [discriminate|].
    reflexivity.
  - intros pv H. rewrite dict_get_set_eq, H. reflexivity.
  - intros q H. apply dict_get_set_ne. assumption.
  - intros q H. rewrite dict_mem_set, H. apply orb_true_r.
  - apply dict_keys_set.
Qed.

(** ** Strings *)

Lemma string_ind2 (P : string -> Prop) :
  P EmptyString ->
  (forall c, P (String c EmptyString)) ->
  (forall c d s, P s -> P (String d s) -> P (String c (String d s))) ->
  forall s, P s.
Proof.
  intros H0 H1 H2.
  assert (H : forall s, P s /\ forall c, P (String c s)).
  { induction s as [|d s [IHa IHb]]; split; auto. }
  intros s. apply H.
Qed.

Lemma startswith_cons (a : ascii) (p : string) (c : ascii) (s : string) :
  PyStr.startswith (String a p) (String c s)
    = Ascii.eqb c a && PyStr.startswith p s.
Proof.
  unfold PyStr.startswith. simpl.
  destruct (ascii_dec a c) as [->|Hne].
  - rewrite Ascii.eqb_refl. reflexivity.
  - destruct (Ascii.eqb_spec c a); [congruence | reflexivity].
Qed.

Lemma startswith_empty (s : string) : PyStr.startswith "" s = true.
Proof. destruct s; reflexivity. Qed.

Lemma replace_scan_cons (old new : string) (c : ascii) (s : string) :
  PyStr.replace_scan old new 0 (String c s) =
    if PyStr.startswith old (String c s)
    then new ++ PyStr.replace_scan old new (String.length old - 1) s
    else String c (PyStr.replace_scan old new 0 s).
Proof. reflexivity. Qed.

(** Replacing one character by one character rewrites the string
    character by character. *)
Lemma replace_char (a b : ascii) (s : string) :
  PyStr.replace (String a "") (String b "") s
    = (fix go (s : string) : string :=
         match s with
         | EmptyString => EmptyString
         | String c s' => String (if Ascii.eqb c a then b else c) (go s')
         end) s.
Proof.
  unfold PyStr.replace. induction s as [|c s IH]; [reflexivity|].
  rewrite replace_scan_cons, startswith_cons, startswith_empty, andb_true_r.
  destruct (Ascii.eqb c a); simpl; rewrite IH; reflexivity.
Qed.

Lemma translate_params_replace (path : string) :
  PyStr.replace "}" ">" (PyStr.replace "{" "<" path) = translate_params path.
Proof.
  rewrite !replace_char. induction path as [|c s IH]; simpl; [reflexivity|].
  rewrite IH. f_equal. unfold translate_char.
  destruct (Ascii.eqb_spec c "{") as [->|H1]; [reflexivity|].
  reflexivity.
Qed.

Lemma join_prefix_join (prefix path : string) :
  PyStr.join "/" (List.filter PyStr.truthy [prefix; path]) = join_prefix prefix path.
Proof. destruct prefix, path; reflexivity. Qed.

(** One round of [replace("//", "/")]. *)
Lemma replace_double_pair (s : string) :
  PyStr.replace "//" "/" (String "/" (String "/" s))
    = String "/" (PyStr.replace "//" "/" s).
Proof.
  unfold PyStr.replace.
  rewrite replace_scan_cons, !startswith_cons, startswith_empty.
  reflexivity.
Qed.

Lemma replace_double_other (c : ascii) (s : string) :
  Ascii.eqb c "/" && PyStr.startswith "/" s = false ->
  PyStr.replace "//" "/" (String c s) = String c (PyStr.replace "//" "/" s).
Proof.
  intros H. unfold PyStr.replace.
  rewrite replace_scan_cons, startswith_cons, H. reflexivity.
Qed.

Lemma contains_double_cons (c : ascii) (s : string) :
  PyStr.contains "//" (String c s)
    = (Ascii.eqb c "/" && PyStr.startswith "/" s) || PyStr.contains "//" s.
Proof.
  change (PyStr.contains "//" (String c s))
    with (PyStr.startswith "//" (String c s) || PyStr.contains "//" s).
  rewrite startswith_cons. reflexivity.
Qed.

Lemma replace_double_length (s : string) :
  String.length (PyStr.replace "//" "/" s) <= String.length s /\
  (PyStr.contains "//" s = true ->
   String.length (PyStr.replace "//" "/" s) < String.length s).
Proof.
  induction s as [| c | c d s [IHle IHlt] [IHle' IHlt']] using string_ind2.
  - split; [reflexivity | discriminate].
  - rewrite replace_double_other by apply andb_false_r.
    split; [reflexivity|]. rewrite contains_double_cons.
    change (PyStr.startswith "/" "") with false.
    rewrite andb_false_r. discriminate.
  - destruct (Ascii.eqb c "/" && PyStr.startswith "/" (String d s)) eqn:E.
    + apply andb_prop in E as [Ec Ed].
      apply Ascii.eqb_eq in Ec. subst c.
      rewrite startswith_cons, startswith_empty, andb_true_r in Ed.
      apply Ascii.eqb_eq in Ed. subst d.
      rewrite replace_double_pair. cbn [String.length]. split; intros; lia.
    + rewrite replace_double_other by assumption.
      rewrite (contains_double_cons c), E. simpl orb.
      cbn [String.length] in *.
      split; [lia|]. intros H. specialize (IHlt' H). lia.
Qed.

Lemma collapse_separators_cons (c : ascii) (s : string) :
  collapse_separators (String c s) =
    if Ascii.eqb c "/" && PyStr.startswith "/" s
    then collapse_separators s
    else String c (collapse_separators s).
Proof. reflexivity. Qed.

Lemma replace_double_collapse (s : string) :
  collapse_separators (PyStr.replace "//" "/" s) = collapse_separators s /\
  PyStr.startswith "/" (PyStr.replace "//" "/" s) = PyStr.startswith "/" s.
Proof.
  induction s as [| c | c d s [IHc IHs] [IHc' IHs']] using string_ind2.
  - split; reflexivity.
  - rewrite replace_double_other by apply andb_false_r. split; reflexivity.
  - destruct (Ascii.eqb c "/" && PyStr.startswith "/" (String d s)) eqn:E.
    + apply andb_prop in E as [Ec Ed].
      apply Ascii.eqb_eq in Ec. subst c.
      rewrite startswith_cons, startswith_empty, andb_true_r in Ed.
      apply Ascii.eqb_eq in Ed. subst d.
      rewrite replace_double_pair. split.
      * rewrite (collapse_separators_cons "/" (String "/" s)).
        rewrite !startswith_cons, startswith_empty. cbn [Ascii.eqb andb].
        rewrite !collapse_separators_cons, IHs, IHc. reflexivity.
      * rewrite !startswith_cons, !startswith_empty. reflexivity.
    + rewrite replace_double_other by assumption. split.
      * rewrite !(collapse_separators_cons c), IHs', IHc'. reflexivity.
      * rewrite !startswith_cons, !startswith_empty. reflexivity.
Qed.

Lemma collapse_fixed (s : string) :
  PyStr.contains "//" s = false -> collapse_separators s = s.
Proof.
  induction s as [|c s IH]; [reflexivity|].
  rewrite contains_double_cons. intros H.
  apply orb_false_elim in H as [H1 H2].
  simpl. rewrite H1, IH by assumption. reflexivity.
Qed.

(** The loop of [normalize_path] has run to its end within the fuel it
    is given, and computes the collapse of separators. *)
Lemma normalize_path_loop_collapse (fuel : nat) (s : string) :
  String.length s <= fuel ->
  normalize_path_loop fuel s = collapse_separators s /\
  PyStr.contains "//" (normalize_path_loop fuel s) = false.
Proof.
  revert s. induction fuel as [|f IH]; intros s Hlen.
  - destruct s; [split; reflexivity | simpl in Hlen; lia].
  - cbn [normalize_path_loop]. destruct (PyStr.contains "//" s) eqn:E.
    + destruct (replace_double_length s) as [_ Hlt]. specialize (Hlt E).
      destruct (IH (PyStr.replace "//" "/" s)) as [H1 H2]; [lia|].
      rewrite H1, <- (proj1 (replace_double_collapse s)). split; [reflexivity|].
      rewrite <- H1. assumption.
    + split; [symmetry; apply collapse_fixed; assumption | assumption].
Qed.

Lemma normalize_path_collapse (s : string) :
  normalize_path s = collapse_separators s.
Proof. apply normalize_path_loop_collapse. reflexivity. Qed.

Lemma normalize_path_no_double (s : string) :
  PyStr.contains "//" (normalize_path s) = false.
Proof. apply normalize_path_loop_collapse. reflexivity. Qed.

Lemma lstrip_no_leading (s : string) :
  PyStr.startswith "/" (PyStr.lstrip "/" s) = false.
Proof.
  induction s as [|c s IH]; [reflexivity|]. simpl.
  destruct (Ascii.eqb c "/") eqn:E; [assumption|].
  rewrite startswith_cons, E. reflexivity.
Qed.

Lemma lstrip_no_double (s : string) :
  PyStr.contains "//" s = false -> PyStr.contains "//" (PyStr.lstrip "/" s) = false.
Proof.
  induction s as [|c s IH]; [auto|]. intros H. simpl PyStr.lstrip.
  destruct (Ascii.eqb c "/"); [|assumption].
  rewrite contains_double_cons in H. apply orb_false_elim in H as [_ H]. auto.
Qed.

Lemma lstrip_strip_leading (s : string) :
  PyStr.contains "//" s = false ->
  PyStr.lstrip "/" s = strip_leading_separator s.
Proof.
  destruct s as [|c s]; [reflexivity|]. rewrite contains_double_cons.
  intros H. apply orb_false_elim in H as [H _]. simpl.
  destruct (Ascii.eqb c "/"); [|reflexivity]. simpl in H.
  destruct s as [|d s]; [reflexivity|].
  rewrite startswith_cons in H. simpl. apply andb_false_iff in H as [H|H].
  - rewrite H. reflexivity.
  - rewrite startswith_empty in H. discriminate.
Qed.

Lemma url_route_spec (prefix path : string) :
  url_route prefix path = spec_route prefix path.
Proof.
  unfold url_route, spec_route.
  rewrite translate_params_replace, join_prefix_join.
  rewrite lstrip_strip_leading by apply normalize_path_no_double.
  rewrite normalize_path_collapse. reflexivity.
Qed.

(** C8. Every pattern that [urls_paths] yields belongs to a registered
    path and one of its operations, in order; its route is the path
    with curly braces turned into angle brackets, joined to the prefix,
    with doubled separators collapsed and the leading separator
    stripped, so it contains no doubled separator and does not start
    with one.  The path "/items/{item_id}" under the prefix "shop" gives
    "shop/items/<item_id>". *)
Theorem urls_paths_routes (self : APIController) (prefix : string) :
  map up_route (urls_paths self prefix) =
    flat_map (fun kv => map (fun _ => spec_route prefix (fst kv)) (operations (snd kv)))
      (_path_operations self) /\
  Forall (fun pat => PyStr.contains "//" (up_route pat) = false /\
                     PyStr.startswith "/" (up_route pat) = false)
    (urls_paths self prefix) /\
  url_route "shop" "/items/{item_id}" = "shop/items/<item_id>".
Proof.
  split; [|split; [|reflexivity]].
  - unfold urls_paths. induction (_path_operations self) as [|kv d IH];
      simpl; [reflexivity|].
    rewrite map_app, IH, map_map. simpl.
    f_equal. apply map_ext. intros. apply url_route_spec.
  - unfold urls_paths. apply Forall_flat_map, Forall_forall. intros kv _.
    apply Forall_map, Forall_forall. intros op _. simpl. split.
    + apply lstrip_no_double, normalize_path_no_double.
    + apply lstrip_no_leading.
Qed.

(** ** Stepping through computations *)

Lemma bind_returns {A B} (m : M A) (k : A -> M B) w b w' :
  bind m k w = Returns (b, w') ->
  exists a w1, m w = Returns (a, w1) /\ k a w1 = Returns (b, w').
Proof.
  unfold bind. destruct (m w) as [[a w1]|e]; [|discriminate]. eauto.
Qed.

Lemma ret_returns {A} (a b : A) w w' :
  ret a w = Returns (b, w') -> b = a /\ w' = w.
Proof. unfold ret. intros H. injection H as <- <-. auto. Qed.

Lemma get_class_returns c w k w' :
  get_class c w = Returns (k, w') -> w' = w /\ classes w !! c = Some k.
Proof.
  unfold get_class. destruct (classes w !! c); [|discriminate].
  intros H. injection H as <- <-. auto.
Qed.

Lemma get_route_function_returns rf w r w' :
  get_route_function rf w = Returns (r, w') ->
  w' = w /\ route_functions w !! rf = Some r.
Proof.
  unfold get_route_function. destruct (route_functions w !! rf); [|discriminate].
  intros H. injection H as <- <-. auto.
Qed.

Lemma get_controller_returns a w x w' :
  get_controller a w = Returns (x, w') -> w' = w /\ controllers w !! a = Some x.
Proof.
  unfold get_controller. destruct (controllers w !! a); [|discriminate].
  intros H. injection H as <- <-. auto.
Qed.

Lemma put_controller_returns a x w u w' :
  put_controller a x w = Returns (u, w') ->
  w' = set_controllers (<[a := x]> (controllers w)) w.
Proof. unfold put_controller. intros H. injection H as _ <-. reflexivity. Qed.

Lemma put_route_function_returns rf r w u w' :
  put_route_function rf r w = Returns (u, w') ->
  w' = set_route_functions (<[rf := r]> (route_functions w)) w.
Proof. unfold put_route_function. intros H. injection H as _ <-. reflexivity. Qed.

Lemma put_class_returns c k w u w' :
  put_class c k w = Returns (u, w') ->
  w' = set_classes (<[c := k]> (classes w)) w.
Proof. unfold put_class. intros H. injection H as _ <-. reflexivity. Qed.

(** ** Counting conversions *)

Lemma same_config_refl a : same_config a a.
Proof. repeat split. Qed.

Lemma same_config_trans a b c :
  same_config a b -> same_config b c -> same_config a c.
Proof. unfold same_config. intuition congruence. Qed.

Lemma grows_refl self w : grows self [] w w.
Proof.
  repeat split. intros a Ha. exists a. split; [assumption|].
  split; [apply same_config_refl|]. intros x. simpl. lia.
Qed.

Lemma grows_trans self l1 l2 w1 w2 w3 :
  grows self l1 w1 w2 -> grows self l2 w2 w3 -> grows self (l1 ++ l2) w1 w3.
Proof.
  intros (Hc1 & Hr1 & Hs1 & H1) (Hc2 & Hr2 & Hs2 & H2).
  repeat split; try congruence.
  intros a Ha. destruct (H1 a Ha) as (a' & Ha' & Hcfg & Hn).
  destruct (H2 a' Ha') as (a'' & Ha'' & Hcfg' & Hn').
  exists a''. split; [assumption|].
  split; [eapply same_config_trans; eassumption|].
  intros x. rewrite Hn', Hn, count_occ_app. lia.
Qed.

Lemma filter_length_app {A} (f : A -> bool) (l1 l2 : list A) :
  length (List.filter f (l1 ++ l2))
    = length (List.filter f l1) + length (List.filter f l2).
Proof. rewrite List.filter_app, length_app. reflexivity. Qed.

(** Rewriting the entry of a path with one more operation adds that
    operation to the operations of the controller and keeps the others. *)
Lemma conversions_dict_set (f : Operation -> bool) (p : string) (op : Operation)
    (d : Dict PathView) :
  let old := default PathView_new (dict_get p d) in
  length (List.filter f
            (flat_map (fun kv => operations (snd kv))
               (dict_set p (mkPathView (operations old ++ [op]) (pv_api old)) d)))
  = length (List.filter f (flat_map (fun kv => operations (snd kv)) d))
    + (if f op then 1 else 0).
Proof.
  induction d as [|[k v] d IH]; simpl.
  - destruct (f op); reflexivity.
  - destruct (String.eqb p k); simpl.
    + rewrite !filter_length_app. simpl. destruct (f op); simpl; lia.
    + rewrite !filter_length_app. simpl in IH. rewrite IH. lia.
Qed.

Lemma add_api_operation_conversions (a : APIController) view_func args x :
  conversions x (snd (add_api_operation a view_func args))
    = conversions x a
      + (if is_view_of x (mkOperation view_func args VNone) then 1 else 0).
Proof.
  rewrite add_api_operation_unfold. unfold conversions, all_operations. simpl.
  rewrite conversions_dict_set. reflexivity.
Qed.

Lemma add_api_operation_same_config (a : APIController) view_func args :
  same_config a (snd (add_api_operation a view_func args)).
Proof. rewrite add_api_operation_unfold. repeat split. Qed.

Lemma flat_map_singleton {A} (l : list A) : flat_map (fun x => [x]) l = l.
Proof. induction l; simpl; congruence. Qed.

Lemma flat_map_filter_skipped (cs : list PyClass) (bases : list nat) :
  flat_map (fun c => if skipped c then [] else declared_at cs c) bases
    = flat_map (declared_at cs) (List.filter (fun c => negb (skipped c)) bases).
Proof.
  induction bases as [|b bases IH]; simpl; [reflexivity|].
  destruct (skipped b); simpl; rewrite IH; reflexivity.
Qed.

Lemma grows_frame self w w' :
  classes w' = classes w -> registry w' = registry w ->
  registry_silent w' = registry_silent w ->
  controllers w' = controllers w ->
  grows self [] w w'.
Proof.
  intros Hc Hr Hs Ha. repeat split; try assumption.
  intros a H. exists a. rewrite Ha. split; [assumption|].
  split; [apply same_config_refl|]. intros x. simpl. lia.
Qed.

Lemma APIController_add_api_operation_grows self rf args w op w' :
  APIController_add_api_operation self (VAsView rf) args w = Returns (op, w') ->
  grows self [rf] w w'.
Proof.
  unfold APIController_add_api_operation. intros H.
  apply bind_returns in H as (a & w1 & Ha & H).
  apply get_controller_returns in Ha as [-> Ha].
  destruct (add_api_operation a (VAsView rf) args) as [operation a'] eqn:E.
  apply bind_returns in H as (u & w2 & Hput & H).
  apply put_controller_returns in Hput. apply ret_returns in H as [_ ->].
  subst w2. repeat split. intros a0 Ha0. rewrite Ha in Ha0. injection Ha0 as <-.
  exists a'. simpl. split.
  - apply list_lookup_insert_eq. eapply lookup_lt_Some. eassumption.
  - replace a' with (snd (add_api_operation a (VAsView rf) args))
      by (rewrite E; reflexivity).
    split; [apply add_api_operation_same_config|].
    intros x. rewrite add_api_operation_conversions.
    unfold is_view_of. simpl.
    destruct (Nat.eq_dec rf x) as [->|Hne].
    + rewrite Nat.eqb_refl. reflexivity.
    + destruct (Nat.eqb_spec rf x); [contradiction | reflexivity].
Qed.

Lemma add_operation_from_route_function_grows self rf w u w' :
  add_operation_from_route_function self rf w = Returns (u, w') ->
  grows self [rf] w w'.
Proof.
  unfold add_operation_from_route_function. intros H.
  apply bind_returns in H as (r & w1 & Hr & H).
  apply get_route_function_returns in Hr as [-> Hr].
  apply bind_returns in H as (uu & w2 & Hu & H).
  unfold uuid_uuid4 in Hu. injection Hu as <- <-.
  apply bind_returns in H as (u1 & w3 & Hput & H).
  apply put_route_function_returns in Hput. subst w3.
  apply bind_returns in H as (op & w4 & Hadd & H).
  apply ret_returns in H as [_ ->].
  apply APIController_add_api_operation_grows in Hadd.
  change [rf] with ([] ++ [rf])%list.
  eapply grows_trans; [|exact Hadd]. apply grows_frame; reflexivity.
Qed.

Lemma for_each_grows {A} self (cs : list PyClass) (g : A -> list nat)
    (body : A -> M unit) (xs : list A) :
  (forall x w u w', classes w = cs -> body x w = Returns (u, w') ->
                    grows self (g x) w w') ->
  forall w u w', classes w = cs -> for_each xs body w = Returns (u, w') ->
                 grows self (flat_map g xs) w w'.
Proof.
  intros Hbody. induction xs as [|x xs IH]; intros w u w' Hcs H; simpl in *.
  - apply ret_returns in H as [_ ->]. apply grows_refl.
  - apply bind_returns in H as (u1 & w1 & Hx & H).
    pose proof (Hbody _ _ _ _ Hcs Hx) as Hg.
    eapply grows_trans; [exact Hg|].
    eapply IH; [|exact H]. destruct Hg as [-> _]. assumption.
Qed.

Lemma compute_api_route_function_grows self base_cls w u w' :
  compute_api_route_function base_cls self w = Returns (u, w') ->
  grows self (declared_at (classes w) base_cls) w w'.
Proof.
  unfold compute_api_route_function. intros H.
  apply bind_returns in H as (rfs & w1 & Hrfs & H).
  unfold get_route_functions in Hrfs.
  apply bind_returns in Hrfs as (k & w2 & Hk & Hrfs).
  apply get_class_returns in Hk as [-> Hk].
  apply ret_returns in Hrfs as [-> ->].
  unfold declared_at. rewrite Hk. fold (declared k).
  rewrite <- (flat_map_singleton (declared k)).
  eapply (for_each_grows self (classes w) (fun x => [x])); [|reflexivity|exact H].
  intros x w0 u0 w0' _ Hx.
  apply bind_returns in Hx as (r & w3 & Hr & Hx).
  apply get_route_function_returns in Hr as [-> Hr].
  apply bind_returns in Hx as (u1 & w4 & Hput & Hx).
  apply put_route_function_returns in Hput. subst w4.
  apply add_operation_from_route_function_grows in Hx.
  change [x] with ([] ++ [x])%list.
  eapply grows_trans; [|exact Hx]. apply grows_frame; reflexivity.
Qed.

(** The loop of lines 159-161 over a linearisation. *)
Lemma mro_loop_grows self (bases : list nat) w u w' :
  for_each bases (fun base_cls =>
    when (negb (bool_decide (base_cls ∈ [ControllerBase; ABC; object_])))
      (compute_api_route_function base_cls self)) w = Returns (u, w') ->
  grows self
    (flat_map (declared_at (classes w))
       (List.filter (fun c => negb (skipped c)) bases)) w w'.
Proof.
  intros H.
  rewrite <- (flat_map_filter_skipped (classes w) bases).
  eapply (for_each_grows self (classes w)); [|reflexivity|exact H].
  intros x w0 u0 w0' Hcs Hx. cbv beta in Hx.
  change (bool_decide (x ∈ [ControllerBase; ABC; object_])) with (skipped x) in Hx.
  destruct (skipped x); simpl in *.
  - apply ret_returns in Hx as [_ ->]. apply grows_refl.
  - rewrite <- Hcs. eapply compute_api_route_function_grows. exact Hx.
Qed.

(** ** The C3 merge *)

Lemma good_head_not_in_tail ls c l :
  MRO.good_head ls c = true -> l ∈ ls -> MRO.in_tail c l = false.
Proof.
  unfold MRO.good_head. intros H Hl.
  rewrite forallb_forall in H. apply list_elem_of_In in Hl.
  specialize (H l Hl). apply negb_true_iff in H. assumption.
Qed.

Lemma find_candidate_good ls todo c :
  MRO.find_candidate ls todo = Some c -> MRO.good_head ls c = true.
Proof.
  induction todo as [|[|h t] todo IH]; simpl; intros H; try discriminate; auto.
  destruct (MRO.good_head ls h) eqn:E; auto. injection H as <-. assumption.
Qed.

Lemma find_candidate_head ls todo c :
  MRO.find_candidate ls todo = Some c -> exists l, l ∈ todo /\ exists t, l = c :: t.
Proof.
  induction todo as [|[|h t] todo IH]; simpl; intros H; try discriminate.
  - destruct (IH H) as (l & Hl & Ht). exists l. split; [|assumption].
    apply list_elem_of_further. assumption.
  - destruct (MRO.good_head ls h).
    + injection H as <-. exists (h :: t). split; [apply list_elem_of_here | eauto].
    + destruct (IH H) as (l & Hl & Ht). exists l. split; [|assumption].
      apply list_elem_of_further. assumption.
Qed.

Lemma drop_head_subset c l x : x ∈ MRO.drop_head c l -> x ∈ l.
Proof.
  destruct l as [|h t]; simpl; [auto|].
  destruct (Nat.eqb h c); [apply list_elem_of_further | auto].
Qed.

Lemma drop_head_keeps c l x : x ∈ l -> x = c \/ x ∈ MRO.drop_head c l.
Proof.
  destruct l as [|h t]; simpl; [auto|].
  destruct (Nat.eqb_spec h c) as [->|Hne]; [|auto].
  intros H. apply elem_of_cons in H as [->|H]; auto.
Qed.

Lemma drop_head_removes c l :
  MRO.in_tail c l = false -> c ∉ MRO.drop_head c l.
Proof.
  destruct l as [|h t]; simpl.
  - intros _ H. inversion H.
  - intros Ht. apply bool_decide_eq_false in Ht.
    destruct (Nat.eqb_spec h c) as [->|Hne]; [assumption|].
    intros H. apply elem_of_cons in H as [->|H]; [congruence | contradiction].
Qed.

Lemma drop_head_nodup c l : NoDup l -> NoDup (MRO.drop_head c l).
Proof.
  destruct l as [|h t]; simpl; [auto|].
  destruct (Nat.eqb h c); [|auto]. intros H.
  apply NoDup_cons in H as [_ H]. assumption.
Qed.

Lemma Forall_fmap_drop_head c (ls : list (list nat)) :
  Forall NoDup ls -> Forall NoDup (map (MRO.drop_head c) ls).
Proof.
  intros H. apply Forall_fmap. eapply Forall_impl; [exact H|].
  intros l. apply drop_head_nodup.
Qed.

(** The merge returns the elements of its lists and no other. *)
Lemma merge_fuel_elements fuel ls out :
  MRO.merge_fuel fuel ls = Some out ->
  forall x, x ∈ out <-> exists l, l ∈ ls /\ x ∈ l.
Proof.
  revert ls out. induction fuel as [|f IH]; intros ls out; simpl.
  - destruct (forallb MRO.is_nil ls) eqn:E; [|discriminate].
    intros H. injection H as <-. intros x. split.
    + intros Hx. inversion Hx.
    + intros (l & Hl & Hx). rewrite forallb_forall in E.
      apply list_elem_of_In in Hl. specialize (E l Hl).
      destruct l; [inversion Hx | discriminate].
  - destruct (forallb MRO.is_nil ls) eqn:E.
    + intros H. injection H as <-. intros x. split.
      * intros Hx. inversion Hx.
      * intros (l & Hl & Hx). rewrite forallb_forall in E.
        apply list_elem_of_In in Hl. specialize (E l Hl).
        destruct l; [inversion Hx | discriminate].
    + destruct (MRO.find_candidate ls ls) as [c|] eqn:Ec; [|discriminate].
      destruct (MRO.merge_fuel f (map (MRO.drop_head c) ls)) as [out'|] eqn:Em;
        [|discriminate].
      intros H. injection H as <-. intros x.
      specialize (IH _ _ Em x). rewrite elem_of_cons, IH. split.
      * intros [->|(l' & Hl' & Hx)].
        -- apply find_candidate_head in Ec as (l & Hl & t & ->).
           exists (c :: t). split; [assumption | apply list_elem_of_here].
        -- apply list_elem_of_fmap in Hl' as (l & -> & Hl).
           exists l. split; [assumption|]. eapply drop_head_subset; eassumption.
      * intros (l & Hl & Hx).
        destruct (drop_head_keeps c l x Hx) as [->|Hd]; [auto|].
        right. exists (MRO.drop_head c l). split; [|assumption].
        apply list_elem_of_fmap. eauto.
Qed.

(** Lists without repetition merge into a list without repetition. *)
Lemma merge_fuel_nodup fuel ls out :
  Forall NoDup ls -> MRO.merge_fuel fuel ls = Some out -> NoDup out.
Proof.
  revert ls out. induction fuel as [|f IH]; intros ls out Hnd; simpl.
  - destruct (forallb MRO.is_nil ls); [|discriminate].
    intros H. injection H as <-. constructor.
  - destruct (forallb MRO.is_nil ls).
    + intros H. injection H as <-. constructor.
    + destruct (MRO.find_candidate ls ls) as [c|] eqn:Ec; [|discriminate].
      destruct (MRO.merge_fuel f (map (MRO.drop_head c) ls)) as [out'|] eqn:Em;
        [|discriminate].
      intros H. injection H as <-. apply NoDup_cons. split.
      * intros Hc. apply (merge_fuel_elements _ _ _ Em) in Hc as (l' & Hl' & Hc).
        apply list_elem_of_fmap in Hl' as (l & -> & Hl).
        revert Hc. apply drop_head_removes.
        eapply good_head_not_in_tail; [|exact Hl].
        eapply find_candidate_good. exact Ec.
      * apply (IH _ _ (Forall_fmap_drop_head c ls Hnd) Em).
Qed.

Lemma drop_head_length c l : length (MRO.drop_head c l) <= length l.
Proof.
  destruct l as [|h t]; simpl; [lia|]. destruct (Nat.eqb h c); simpl; lia.
Qed.

Lemma total_length_drop_head c ls :
  MRO.total_length (map (MRO.drop_head c) ls) <= MRO.total_length ls.
Proof.
  induction ls as [|l ls IH]; simpl; [lia|].
  pose proof (drop_head_length c l). lia.
Qed.

Lemma total_length_drop_head_lt c t ls :
  (c :: t) ∈ ls ->
  MRO.total_length (map (MRO.drop_head c) ls) < MRO.total_length ls.
Proof.
  induction ls as [|l ls IH]; intros H; [inversion H|].
  apply elem_of_cons in H as [<-|H]; simpl.
  - rewrite Nat.eqb_refl. pose proof (total_length_drop_head c ls). lia.
  - specialize (IH H). pose proof (drop_head_length c l). lia.
Qed.

(** The fuel of the merge is never what makes it fail: beyond the total
    length of the lists, more fuel changes nothing. *)
Lemma merge_fuel_stable fuel ls :
  MRO.total_length ls <= fuel ->
  MRO.merge_fuel fuel ls = MRO.merge ls.
Proof.
  unfold MRO.merge. remember (MRO.total_length ls) as n eqn:En.
  revert fuel ls En. induction n as [n IH] using lt_wf_ind.
  intros fuel ls En Hle.
  destruct fuel as [|f], n as [|n']; simpl; try reflexivity; try lia.
  - destruct (forallb MRO.is_nil ls) eqn:E; [reflexivity|].
    exfalso. apply not_true_iff_false in E. apply E.
    apply forallb_forall. intros l Hl. destruct l as [|h t]; [reflexivity|].
    exfalso. apply list_elem_of_In in Hl.
    pose proof (total_length_drop_head_lt h t ls Hl). lia.
  - destruct (forallb MRO.is_nil ls); [reflexivity|].
    destruct (MRO.find_candidate ls ls) as [c|] eqn:Ec; [|reflexivity].
    destruct (find_candidate_head _ _ _ Ec) as (l & Hl & t & ->).
    pose proof (total_length_drop_head_lt c t ls Hl) as Hlt.
    f_equal.
    rewrite (IH (MRO.total_length (map (MRO.drop_head c) ls)))
      by (try reflexivity; lia).
    symmetry.
    apply (IH (MRO.total_length (map (MRO.drop_head c) ls)));
      try reflexivity; lia.
Qed.

(** A merge that succeeds had lists without repetition to start with:
    an element repeated in a list can never be taken as a head. *)
Lemma merge_fuel_inputs_nodup fuel ls out :
  MRO.merge_fuel fuel ls = Some out -> Forall NoDup ls.
Proof.
  revert ls out. induction fuel as [|f IH]; intros ls out; simpl.
  - destruct (forallb MRO.is_nil ls) eqn:E; [|discriminate]. intros _.
    apply Forall_forall. intros l Hl. rewrite forallb_forall in E.
    apply list_elem_of_In in Hl. specialize (E l Hl).
    destruct l; [constructor | discriminate].
  - destruct (forallb MRO.is_nil ls) eqn:E.
    + intros _. apply Forall_forall. intros l Hl. rewrite forallb_forall in E.
      apply list_elem_of_In in Hl. specialize (E l Hl).
      destruct l; [constructor | discriminate].
    + destruct (MRO.find_candidate ls ls) as [c|] eqn:Ec; [|discriminate].
      destruct (MRO.merge_fuel f (map (MRO.drop_head c) ls)) as [out'|] eqn:Em;
        [|discriminate].
      intros _. specialize (IH _ _ Em). rewrite Forall_fmap in IH.
      apply Forall_forall. intros l Hl.
      rewrite Forall_forall in IH. specialize (IH l Hl). simpl in IH.
      pose proof (good_head_not_in_tail ls c l (find_candidate_good _ _ _ Ec) Hl)
        as Ht.
      destruct l as [|h t]; [constructor|]. simpl in IH, Ht.
      apply bool_decide_eq_false in Ht.
      destruct (Nat.eqb_spec h c) as [->|Hne]; [|assumption].
      apply NoDup_cons. auto.
Qed.

Lemma merge_nodup ls out : MRO.merge ls = Some out -> NoDup out.
Proof.
  intros H. eapply merge_fuel_nodup; [|exact H].
  eapply merge_fuel_inputs_nodup. exact H.
Qed.

Lemma merge_elements ls out :
  MRO.merge ls = Some out -> forall x, x ∈ out <-> exists l, l ∈ ls /\ x ∈ l.
Proof. apply merge_fuel_elements. Qed.

(** ** Class creation *)

Lemma type_new_returns name bases namespace w c w' :
  type_new name bases namespace w = Returns (c, w') ->
  exists orders tl d,
    mapM (fun b => cls_mro <$> (classes w !! b)) (effective_bases bases)
      = Some orders /\
    MRO.merge (orders ++ [effective_bases bases]) = Some tl /\
    c = length (classes w) /\
    (d = namespace \/
     d = ControllerBaseModelMetaclass___new__ name (effective_bases bases)
           namespace) /\
    w' = set_classes
           (classes w ++ [mkPyClass name (effective_bases bases) (c :: tl) d]) w.
Proof.
  unfold type_new. intros H.
  destruct (mapM _ (effective_bases bases)) as [orders|] eqn:Eo; [|discriminate].
  destruct (MRO.merge (orders ++ [effective_bases bases])) as [tl|] eqn:Em;
    [|discriminate].
  injection H as <- <-. exists orders, tl.
  destruct (bool_decide (ControllerBase ∈ tl)); eexists; eauto 10.
Qed.

(** ** Well-formed class stores *)

Lemma skipped_small c : skipped c = true -> c < 3.
Proof.
  unfold skipped. intros H. apply bool_decide_eq_true in H.
  repeat (apply elem_of_cons in H as [->|H]);
    [unfold ControllerBase; lia | unfold ABC; lia | unfold object_; lia |].
  inversion H.
Qed.

Lemma initial_world_wf silent uuids : wf_world (initial_world silent uuids).
Proof.
  split; simpl.
  - lia.
  - intros [|[|[|c]]] k H; simpl in H; try discriminate;
      injection H as <-; simpl; eauto.
  - intros [|[|[|c]]] k H; simpl in H; try discriminate;
      injection H as <-; simpl;
      repeat (apply NoDup_cons; split;
              [rewrite ?elem_of_cons, elem_of_nil;
               unfold ControllerBase, ABC, object_; lia|]);
      constructor.
  - intros [|[|[|c]]] k H; simpl in H; try discriminate;
      injection H as <-; simpl;
      repeat (constructor; [unfold ControllerBase, ABC, object_; lia|]);
      constructor.
  - intros [|[|[|c]]] k _ H; simpl in H; try discriminate;
      injection H as <-; reflexivity.
Qed.

Lemma initial_world_unshared silent uuids : unshared (initial_world silent uuids).
Proof.
  split; simpl.
  - intros [|[|[|c]]] k H; simpl in H; try discriminate;
      injection H as <-; constructor.
  - intros [|[|[|c1]]] c2 k1 k2 rf H1 _ Hrf _; simpl in H1; try discriminate;
      injection H1 as <-; inversion Hrf.
Qed.

(** A class appended to the store with a sound linearisation. *)
Lemma wf_world_extend w w' k' tl :
  wf_world w ->
  classes w' = (classes w ++ [k'])%list ->
  cls_mro k' = length (classes w) :: tl ->
  NoDup tl -> Forall (fun x => x < length (classes w)) tl ->
  wf_world w'.
Proof.
  intros [Hb Hh Hn Hbd Hs] Hcs Hmro Htl Hlt.
  assert (Hlook : forall c k, classes w' !! c = Some k ->
            classes w !! c = Some k \/ (c = length (classes w) /\ k = k')).
  { intros c k. rewrite Hcs. intros H.
    apply lookup_app_Some in H as [H|[Hge H]]; [auto|]. right.
    destruct (c - length (classes w)) as [|n] eqn:E; simpl in H;
      [|discriminate].
    injection H as <-. split; [lia | reflexivity]. }
  split.
  - rewrite Hcs, length_app. simpl. lia.
  - intros c k H. destruct (Hlook c k H) as [H'|[-> ->]]; eauto.
  - intros c k H. destruct (Hlook c k H) as [H'|[-> ->]]; eauto.
    rewrite Hmro. apply NoDup_cons. split; [|assumption].
    intros Hin. rewrite Forall_forall in Hlt. specialize (Hlt _ Hin). lia.
  - intros c k H. rewrite Hcs, length_app. simpl.
    destruct (Hlook c k H) as [H'|[-> ->]].
    + eapply Forall_impl; [eapply Hbd; eassumption|]. simpl. intros; lia.
    + rewrite Hmro. constructor; [lia|].
      eapply Forall_impl; [exact Hlt|]. simpl. intros; lia.
  - intros c k Hc H. destruct (Hlook c k H) as [H'|[-> ->]]; eauto.
    apply skipped_small in Hc. lia.
Qed.

(** A class of the store updated in place, its linearisation kept and
    no route function added to it. *)
Lemma wf_world_update w w' c k k' :
  wf_world w ->
  classes w !! c = Some k ->
  classes w' = <[c := k']> (classes w) ->
  cls_mro k' = cls_mro k ->
  (declared k = [] -> declared k' = []) ->
  wf_world w'.
Proof.
  intros [Hb Hh Hn Hbd Hs] Hk Hcs Hmro Hdecl.
  assert (Hlook : forall c0 k0, classes w' !! c0 = Some k0 ->
            classes w !! c0 = Some k0 \/ (c0 = c /\ k0 = k')).
  { intros c0 k0. rewrite Hcs. intros H.
    apply list_lookup_insert_Some in H as [(-> & -> & _)|[_ H]]; auto. }
  split.
  - rewrite Hcs, length_insert. assumption.
  - intros c0 k0 H. destruct (Hlook c0 k0 H) as [H'|[-> ->]]; eauto.
    rewrite Hmro. eauto.
  - intros c0 k0 H. destruct (Hlook c0 k0 H) as [H'|[-> ->]]; eauto.
    rewrite Hmro. eauto.
  - intros c0 k0 H. rewrite Hcs, length_insert.
    destruct (Hlook c0 k0 H) as [H'|[-> ->]]; eauto.
    rewrite Hmro. eauto.
  - intros c0 k0 Hc H. destruct (Hlook c0 k0 H) as [H'|[-> ->]]; eauto.
Qed.

Lemma mapM_mro_orders (cs : list PyClass) (bases : list nat) orders :
  mapM (fun b => cls_mro <$> (cs !! b)) bases = Some orders ->
  Forall (fun b => b < length cs) bases /\
  Forall (fun l => exists b k, cs !! b = Some k /\ l = cls_mro k) orders.
Proof.
  intros H. apply mapM_Some in H.
  induction H as [|b l bases orders Hb _ [IH1 IH2]]; [split; constructor|].
  destruct (cs !! b) as [k|] eqn:E; [|discriminate]. injection Hb as <-.
  split; constructor; eauto. eapply lookup_lt_Some. eassumption.
Qed.

Lemma type_new_wf name bases namespace w c w' :
  wf_world w -> type_new name bases namespace w = Returns (c, w') -> wf_world w'.
Proof.
  intros Hwf H.
  apply type_new_returns in H as (orders & tl & d & Ho & Hm & -> & _ & ->).
  apply mapM_mro_orders in Ho as [Hbases Horders].
  eapply (wf_world_extend w _ _ tl); [assumption | reflexivity | reflexivity | |].
  - eapply merge_nodup. exact Hm.
  - apply Forall_forall. intros x Hx.
    apply (merge_elements _ _ Hm) in Hx as (l & Hl & Hx).
    apply elem_of_app in Hl as [Hl|Hl].
    + rewrite Forall_forall in Horders.
      destruct (Horders l Hl) as (b & k & Hk & ->).
      pose proof (wf_mro_bound w Hwf b k Hk) as Hbd.
      rewrite Forall_forall in Hbd. auto.
    + apply list_elem_of_singleton in Hl as ->.
      rewrite Forall_forall in Hbases. auto.
Qed.

Lemma declared_dict_set (k : string) (v : PyVal) (d : Dict PyVal) :
  as_route_function v = None ->
  omap as_route_function (dict_values (dict_set k v d))
    `sublist_of` omap as_route_function (dict_values d).
Proof.
  intros Hv. induction d as [|[k' v'] d IH]; simpl.
  - rewrite Hv. constructor.
  - destruct (String.eqb k k'); simpl.
    + rewrite Hv. destruct (as_route_function v'); [constructor|]; reflexivity.
    + destruct (as_route_function v'); [constructor|]; assumption.
Qed.

Lemma metaclass_namespace self name bases :
  let d := ControllerBaseModelMetaclass___new__ name bases
             [("_api_controller", VController self)] in
  dict_get "_api_controller" d = Some (VController self) /\
  omap as_route_function (dict_values d) = [].
Proof.
  unfold ControllerBaseModelMetaclass___new__.
  destruct (_ && _); split; reflexivity.
Qed.

Lemma ControllerRegistry_add_controller_returns c w u w' :
  ControllerRegistry_add_controller c w = Returns (u, w') ->
  classes w' = classes w /\ controllers w' = controllers w.
Proof.
  unfold ControllerRegistry_add_controller.
  destruct (bool_decide _); [destruct (registry_silent w)|]; intros H;
    try discriminate; injection H as _ <-; auto.
Qed.

Lemma class_getattr_default_returns c name dflt w v w' :
  class_getattr_default c name dflt w = Returns (v, w') ->
  w' = w /\ exists k, classes w !! c = Some k.
Proof.
  unfold class_getattr_default. destruct (classes w !! c) as [k|]; [|discriminate].
  intros H. injection H as _ <-. eauto.
Qed.

Lemma conversions_same_operations x a a' :
  _path_operations a' = _path_operations a -> conversions x a' = conversions x a.
Proof. unfold conversions, all_operations. intros ->. reflexivity. Qed.

(** ** The decorator, step by step *)

Lemma APIController___call___returns self cls w R w' :
  APIController___call__ self cls w = Returns (R, w') ->
  exists a kc kR a',
    controllers w !! self = Some a /\
    classes w !! cls = Some kc /\
    classes w' !! R = Some kR /\
    cls_name kR = cls_name kc /\
    dict_get "_api_controller" (cls_dict kR) = Some (VController self) /\
    finalized_class self cls kc R kR (classes w) (classes w') /\
    controllers w' !! self = Some a' /\
    _tags a' = (if truthy (_tags a) then _tags a
                else VList [VStr (default_tag (cls_name kc))]) /\
    controller_class a' = Some R /\
    forall x,
      conversions x a' =
        conversions x a
        + count_occ Nat.eq_dec
            (flat_map (declared_at (classes w'))
               (List.filter (fun c => negb (skipped c)) (cls_mro kR))) x.
Proof.
  unfold APIController___call__. intros H.
  apply bind_returns in H as (a & w0 & Ha & H).
  apply get_controller_returns in Ha as [-> Ha].
  apply bind_returns in H as (ai & w0 & Hai & H).
  apply class_getattr_default_returns in Hai as [-> [kc Hkc]].
  apply bind_returns in H as (u1 & w1 & Hput & H).
  apply put_controller_returns in Hput.
  apply bind_returns in H as (sub & w1' & Hsub & H).
  unfold issubclass in Hsub.
  apply bind_returns in Hsub as (kc' & w1'' & Hkc' & Hsub).
  apply get_class_returns in Hkc' as [-> Hkc'].
  apply ret_returns in Hsub as [-> ->].
  assert (Hcs1 : classes w1 = classes w) by (subst w1; reflexivity).
  assert (Ha1 : controllers w1 !! self = Some (set_auto_import ai a)).
  { subst w1. simpl. apply list_lookup_insert_eq. eapply lookup_lt_Some; eauto. }
  rewrite Hcs1, Hkc in Hkc'. injection Hkc' as <-.
  apply bind_returns in H as (R' & w2 & Hstep & H).
  assert (Hfin : exists kR,
            classes w2 !! R' = Some kR /\ cls_name kR = cls_name kc /\
            dict_get "_api_controller" (cls_dict kR) = Some (VController self) /\
            finalized_class self cls kc R' kR (classes w) (classes w2) /\
            controllers w2 = controllers w1).
  { destruct (bool_decide (ControllerBase ∈ cls_mro kc)) eqn:Esub; simpl in Hstep.
    - apply bool_decide_eq_true in Esub.
      apply bind_returns in Hstep as (u2 & w2' & Hset & Hstep).
      apply ret_returns in Hstep as [-> ->].
      unfold class_setattr in Hset.
      apply bind_returns in Hset as (k0 & w1' & Hk0 & Hset).
      apply get_class_returns in Hk0 as [-> Hk0].
      rewrite Hcs1, Hkc in Hk0. injection Hk0 as <-.
      apply put_class_returns in Hset. subst w2'. simpl. rewrite Hcs1.
      eexists. split; [apply list_lookup_insert_eq; eapply lookup_lt_Some; eauto|].
      split; [reflexivity|]. split; [apply dict_get_set_eq|].
      split; [|reflexivity]. left. auto.
    - apply bool_decide_eq_false in Esub.
      apply bind_returns in Hstep as (k0 & w1' & Hk0 & Hstep).
      apply get_class_returns in Hk0 as [-> Hk0].
      rewrite Hcs1, Hkc in Hk0. injection Hk0 as <-.
      apply type_new_returns in Hstep
        as (orders & tl & d & Ho & Hm & -> & Hd & ->).
      simpl in Ho. rewrite Hcs1 in *.
      destruct (classes w !! ControllerBase) as [kb|] eqn:Ekb; [|discriminate].
      rewrite Hkc in Ho. simpl in Ho. injection Ho as <-.
      assert (Hd' : dict_get "_api_controller" d = Some (VController self) /\
                    omap as_route_function (dict_values d) = []).
      { destruct Hd as [->| ->]; [split; reflexivity|].
        apply metaclass_namespace. }
      destruct Hd' as [Hd1 Hd2].
      eexists. simpl. split; [apply list_lookup_middle; reflexivity|].
      split; [reflexivity|]. split; [exact Hd1|]. split; [|reflexivity].
      right. repeat split; eauto. }
  destruct Hfin as (kR & HkR & Hname & Hattr & Hfin & Hctl2).
  apply bind_returns in H as (a2 & w2' & Ha2 & H).
  apply get_controller_returns in Ha2 as [-> Ha2].
  rewrite Hctl2, Ha1 in Ha2. injection Ha2 as <-.
  apply bind_returns in H as (u3 & w3 & Htags & H).
  assert (H3 : classes w3 = classes w2 /\
               exists a3, controllers w3 !! self = Some a3 /\
                 _path_operations a3 = _path_operations a /\
                 _tags a3 = (if truthy (_tags a) then _tags a
                             else VList [VStr (default_tag (cls_name kc))])).
  { simpl in Htags. destruct (truthy (_tags a)) eqn:Et; simpl in Htags.
    - apply ret_returns in Htags as [_ ->]. split; [reflexivity|].
      exists (set_auto_import ai a). rewrite Hctl2. auto.
    - apply bind_returns in Htags as (k0 & w2' & Hk0 & Htags).
      apply get_class_returns in Hk0 as [-> Hk0].
      rewrite HkR in Hk0. injection Hk0 as <-.
      apply put_controller_returns in Htags. subst w3. simpl.
      split; [reflexivity|]. eexists. split.
      + apply list_lookup_insert_eq. rewrite Hctl2.
        eapply lookup_lt_Some; eauto.
      + rewrite Hname. split; reflexivity. }
  destruct H3 as (Hcs3 & a3 & Ha3 & Hops3 & Htags3).
  apply bind_returns in H as (bases & w3' & Hmro & H).
  unfold getmro in Hmro.
  apply bind_returns in Hmro as (k0 & w3'' & Hk0 & Hmro).
  apply get_class_returns in Hk0 as [-> Hk0].
  apply ret_returns in Hmro as [-> ->].
  rewrite Hcs3, HkR in Hk0. injection Hk0 as <-.
  apply bind_returns in H as (u4 & w4 & Hloop & H).
  apply mro_loop_grows in Hloop. destruct Hloop as (Hcs4 & _ & _ & Hgrow).
  destruct (Hgrow a3 Ha3) as (a4 & Ha4 & Hcfg & Hconv).
  apply bind_returns in H as (a4' & w4' & Ha4' & H).
  apply get_controller_returns in Ha4' as [-> Ha4'].
  rewrite Ha4 in Ha4'. injection Ha4' as <-.
  apply bind_returns in H as (u5 & w5 & Hput5 & H).
  apply put_controller_returns in Hput5.
  apply bind_returns in H as (u6 & w6 & Hreg & H).
  apply ret_returns in H as [-> ->].
  apply ControllerRegistry_add_controller_returns in Hreg as [Hcs6 Hctl6].
  assert (Hcs' : classes w6 = classes w2).
  { rewrite Hcs6. subst w5. simpl. congruence. }
  exists a, kc, kR, (set_controller_class (Some R') a4).
  rewrite Hcs'. repeat split; try assumption.
  - rewrite Hctl6. subst w5. simpl. apply list_lookup_insert_eq.
    eapply lookup_lt_Some; eauto.
  - simpl. destruct Hcfg as (_ & _ & -> & _). assumption.
  - intros x. rewrite (conversions_same_operations x a4) by reflexivity.
    rewrite Hconv, (conversions_same_operations x a a3) by assumption.
    rewrite Hcs3. reflexivity.
Qed.

(** ** The finalized class keeps the store well formed *)

Lemma finalized_class_wf self cls kc R kR w w' :
  wf_world w -> classes w !! cls = Some kc ->
  finalized_class self cls kc R kR (classes w) (classes w') ->
  wf_world w'.
Proof.
  intros Hwf Hkc [(Hsub & -> & -> & Hcs)|(Hsub & -> & Hcs & _ & _ & _ & Hnew)].
  - eapply (wf_world_update w w' cls kc); eauto.
    unfold declared. simpl. intros Hd.
    pose proof (declared_dict_set "_api_controller" (VController self)
                  (cls_dict kc) eq_refl) as Hsl.
    rewrite Hd in Hsl. apply sublist_nil_r in Hsl. assumption.
  - destruct Hnew as (kb & tl & Hkb & Hm & Hmro).
    eapply (wf_world_extend w w' kR tl); eauto.
    + eapply merge_nodup. exact Hm.
    + apply Forall_forall. intros x Hx.
      apply (merge_elements _ _ Hm) in Hx as (l & Hl & Hx).
      assert (Hin : forall c k, classes w !! c = Some k -> x ∈ cls_mro k ->
                                x < length (classes w)).
      { intros c k Hk Hxk. pose proof (wf_mro_bound w Hwf c k Hk) as Hbd.
        rewrite Forall_forall in Hbd. auto. }
      repeat (apply elem_of_cons in Hl as [->|Hl]); eauto; [|inversion Hl].
      repeat (apply elem_of_cons in Hx as [->|Hx]);
        try (eapply lookup_lt_Some; eassumption). inversion Hx.
Qed.

Lemma finalized_class_unshared self cls kc R kR w w' :
  unshared w -> classes w !! cls = Some kc ->
  finalized_class self cls kc R kR (classes w) (classes w') ->
  unshared w'.
Proof.
  intros [Hslots Hcls] Hkc
    [(Hsub & -> & -> & Hcs)|(Hsub & -> & Hcs & _ & _ & Hdecl & _)].
  - pose proof (declared_dict_set "_api_controller" (VController self)
                  (cls_dict kc) eq_refl) as Hsl.
    assert (Hlook : forall c k, classes w' !! c = Some k ->
              exists k0, classes w !! c = Some k0 /\
                         declared k `sublist_of` declared k0).
    { intros c k. rewrite Hcs. intros H.
      apply list_lookup_insert_Some in H as [(-> & <- & _)|[_ H]]; eauto. }
    split.
    + intros c k H. destruct (Hlook c k H) as (k0 & Hk0 & Hs).
      eapply sublist_NoDup; eauto.
    + intros c1 c2 k1 k2 rf H1 H2 Hr1 Hr2.
      destruct (Hlook c1 k1 H1) as (k1' & Hk1 & Hs1).
      destruct (Hlook c2 k2 H2) as (k2' & Hk2 & Hs2).
      eapply (Hcls c1 c2 k1' k2' rf); eauto using elem_of_sublist.
  - assert (Hlook : forall c k, classes w' !! c = Some k ->
              classes w !! c = Some k \/ declared k = []).
    { intros c k. rewrite Hcs. intros H.
      apply lookup_app_Some in H as [H|[_ H]]; [auto|]. right.
      destruct (c - length (classes w)); simpl in H; [|discriminate].
      injection H as <-. assumption. }
    split.
    + intros c k H. destruct (Hlook c k H) as [H'| ->]; eauto. constructor.
    + intros c1 c2 k1 k2 rf H1 H2 Hr1 Hr2.
      destruct (Hlook c1 k1 H1) as [H1'|E1];
        [|rewrite E1 in Hr1; inversion Hr1].
      destruct (Hlook c2 k2 H2) as [H2'|E2];
        [|rewrite E2 in Hr2; inversion Hr2].
      eauto.
Qed.

Lemma count_occ_flat_map_once (g : nat -> list nat) (l : list nat) (A rf : nat) :
  NoDup l -> A ∈ l ->
  count_occ Nat.eq_dec (g A) rf = 1 ->
  (forall B, B ∈ l -> B <> A -> rf ∉ g B) ->
  count_occ Nat.eq_dec (flat_map g l) rf = 1.
Proof.
  intros Hnd. induction Hnd as [|b l Hb Hnd IH]; intros HA H1 Hothers.
  - inversion HA.
  - simpl. rewrite count_occ_app.
    assert (Hzero : forall l', (forall B, B ∈ l' -> B <> A -> rf ∉ g B) ->
              A ∉ l' -> count_occ Nat.eq_dec (flat_map g l') rf = 0).
    { induction l' as [|b' l' IH']; intros Ho Hn; [reflexivity|]. simpl.
      rewrite count_occ_app, IH'.
      - rewrite Nat.add_0_r. apply count_occ_not_In.
        rewrite <- list_elem_of_In. apply Ho; [apply list_elem_of_here|].
        intros ->. apply Hn. apply list_elem_of_here.
      - intros B HB. apply Ho. apply list_elem_of_further. assumption.
      - intros HA'. apply Hn. apply list_elem_of_further. assumption. }
    apply elem_of_cons in HA as [->|HA].
    + rewrite H1, Hzero; [reflexivity| |assumption].
      intros B HB. apply Hothers. apply list_elem_of_further. assumption.
    + rewrite IH; [| assumption | assumption |].
      * rewrite (proj1 (count_occ_not_In Nat.eq_dec (g b) rf)); [reflexivity|].
        rewrite <- list_elem_of_In. apply Hothers; [apply list_elem_of_here|].
        intros ->. contradiction.
      * intros B HB. apply Hothers. apply list_elem_of_further. assumption.
Qed.

Lemma nodup_declared_unshared w :
  NoDup (flat_map declared (classes w)) -> unshared w.
Proof.
  assert (H : forall cs, NoDup (flat_map declared cs) ->
              (forall c k, cs !! c = Some k -> NoDup (declared k)) /\
              (forall c1 c2 k1 k2 rf, cs !! c1 = Some k1 -> cs !! c2 = Some k2 ->
                 rf ∈ declared k1 -> rf ∈ declared k2 -> c1 = c2));
    [|intros Hnd; destruct (H _ Hnd); split; assumption].
  intros cs Hnd. induction cs as [|k0 cs IH]; simpl in Hnd.
  - split; intros; discriminate.
  - apply NoDup_app in Hnd as (Hk0 & Hdisj & Hrest).
    destruct (IH Hrest) as [IH1 IH2].
    assert (Hin : forall c k rf, cs !! c = Some k -> rf ∈ declared k ->
                    rf ∈ flat_map declared cs).
    { intros c k rf Hk Hrf. apply list_elem_of_In, in_flat_map.
      exists k. split; apply list_elem_of_In; [|assumption].
      eapply list_elem_of_lookup_2. eassumption. }
    split.
    + intros [|c] k H; simpl in H; [injection H as <-; assumption | eauto].
    + intros [|c1] [|c2] k1 k2 rf H1 H2 Hr1 Hr2; simpl in H1, H2.
      * reflexivity.
      * injection H1 as <-. exfalso. eapply Hdisj; eauto.
      * injection H2 as <-. exfalso. eapply Hdisj; eauto.
      * f_equal. eauto.
Qed.

(** ** The claims about the decorator *)

Lemma flat_map_declared_skipped (cs : list PyClass) (l : list nat) :
  (forall c k, skipped c = true -> cs !! c = Some k -> declared k = []) ->
  flat_map (declared_at cs) (List.filter (fun c => negb (skipped c)) l)
    = flat_map (declared_at cs) l.
Proof.
  intros Hs. induction l as [|c l IH]; simpl; [reflexivity|].
  destruct (skipped c) eqn:E; simpl; rewrite IH; [|reflexivity].
  unfold declared_at at 2. destruct (cs !! c) as [k|] eqn:Ek; [|reflexivity].
  rewrite (Hs c k E Ek). reflexivity.
Qed.

Lemma APIController___call___wf self cls w R w' :
  wf_world w -> APIController___call__ self cls w = Returns (R, w') -> wf_world w'.
Proof.
  intros Hwf Hcall.
  apply APIController___call___returns in Hcall
    as (a & kc & kR & a' & _ & Hkc & _ & _ & _ & Hfin & _).
  eapply finalized_class_wf; eassumption.
Qed.

(** C1 as the code has it. When the decorator returns, the method
    resolution order of the finalized class names every ancestor once,
    however many inheritance paths lead to it, and the call has added to
    the operations the controller already had, for every RouteFunction,
    as many operations as there are slots holding it in the classes of
    that order.  When no RouteFunction object sits in two slots of the
    classes that exist, a RouteFunction declared on an ancestor has been
    converted by the call into exactly one more operation. *)
Theorem route_functions_converted_once self cls w R w' a a' kR :
  wf_world w ->
  APIController___call__ self cls w = Returns (R, w') ->
  controllers w !! self = Some a ->
  controllers w' !! self = Some a' ->
  classes w' !! R = Some kR ->
  NoDup (cls_mro kR) /\
  (forall rf,
     conversions rf a' =
       conversions rf a
       + count_occ Nat.eq_dec
           (flat_map (declared_at (classes w')) (cls_mro kR)) rf) /\
  (NoDup (flat_map declared (classes w)) ->
   forall A kA rf,
     A ∈ cls_mro kR -> classes w' !! A = Some kA -> rf ∈ declared kA ->
     conversions rf a' = conversions rf a + 1).
Proof.
  intros Hwf Hcall Ha Ha' HkR.
  apply APIController___call___returns in Hcall
    as (a0 & kc & kR0 & a0' & Ha0 & Hkc & HkR0 & _ & _ & Hfin & Ha0' & _ & _ & Hconv).
  rewrite Ha in Ha0. injection Ha0 as <-.
  rewrite Ha' in Ha0'. injection Ha0' as <-.
  rewrite HkR in HkR0. injection HkR0 as <-.
  pose proof (finalized_class_wf _ _ _ _ _ _ _ Hwf Hkc Hfin) as Hwf'.
  pose proof (wf_mro_nodup w' Hwf' R kR HkR) as Hnodup.
  assert (Hall : forall rf,
            conversions rf a' =
              conversions rf a
              + count_occ Nat.eq_dec
                  (flat_map (declared_at (classes w')) (cls_mro kR)) rf).
  { intros rf. rewrite Hconv, flat_map_declared_skipped; [reflexivity|].
    apply (wf_skipped w' Hwf'). }
  split; [assumption|]. split; [assumption|].
  intros Hnd A kA rf HA HkA Hrf.
  apply nodup_declared_unshared in Hnd.
  pose proof (finalized_class_unshared _ _ _ _ _ _ _ Hnd Hkc Hfin) as Hun'.
  rewrite Hall. f_equal.
  apply (count_occ_flat_map_once _ _ A); try assumption.
  - unfold declared_at. rewrite HkA.
    apply NoDup_count_occ'.
    + apply NoDup_ListNoDup. eapply unshared_slots; eassumption.
    + apply list_elem_of_In. assumption.
  - intros B _ HBA. unfold declared_at.
    destruct (classes w' !! B) as [kB|] eqn:EB; [|apply not_elem_of_nil].
    intros HrfB. apply HBA.
    eapply (unshared_classes w' Hun' B A); eassumption.
Qed.

(** C4 as the code has it. When the decorator returns on a controller
    whose tags are empty, the tags become the one-element list holding
    the lowercased class name with every occurrence of "controller"
    removed. *)
Theorem default_tags_from_class_name self cls w R w' a kc :
  APIController___call__ self cls w = Returns (R, w') ->
  controllers w !! self = Some a ->
  classes w !! cls = Some kc ->
  truthy (_tags a) = false ->
  exists a', controllers w' !! self = Some a' /\
    _tags a' = VList [VStr (PyStr.replace "controller" "" (PyStr.lower (cls_name kc)))].
Proof.
  intros Hcall Ha Hkc Ht.
  apply APIController___call___returns in Hcall
    as (a0 & kc0 & kR & a' & Ha0 & Hkc0 & _ & _ & _ & _ & Ha' & Htags & _).
  rewrite Ha in Ha0. injection Ha0 as <-.
  rewrite Hkc in Hkc0. injection Hkc0 as <-.
  exists a'. split; [assumption|]. rewrite Htags, Ht. reflexivity.
Qed.

(** C9. When the decorator [self] returns the class R for the class C:
    [R.get_api_controller()] is [self], [self.controller_class] is R, R
    is a subclass of ControllerBase and of C; R is C itself when C was
    a ControllerBase subclass already, and otherwise a new class whose
    bases are ControllerBase and C. *)
Theorem decorator_round_trip self C w R w' :
  wf_world w ->
  APIController___call__ self C w = Returns (R, w') ->
  get_api_controller R w' = Returns (VController self, w') /\
  (exists a', controllers w' !! self = Some a' /\ controller_class a' = Some R) /\
  issubclass R ControllerBase w' = Returns (true, w') /\
  issubclass R C w' = Returns (true, w') /\
  (issubclass C ControllerBase w = Returns (true, w) -> R = C) /\
  (issubclass C ControllerBase w = Returns (false, w) ->
     R = length (classes w) /\
     exists kR, classes w' = (classes w ++ [kR])%list /\
                cls_bases kR = [ControllerBase; C]).
Proof.
  intros Hwf Hcall.
  apply APIController___call___returns in Hcall
    as (a & kc & kR & a' & Ha & Hkc & HkR & _ & Hattr & Hfin & Ha' & _ & Hcc & _).
  destruct (wf_mro_head w Hwf C kc Hkc) as [tlc Htlc].
  assert (Hmro : exists tl, cls_mro kR = R :: tl /\
                            ControllerBase ∈ cls_mro kR /\ C ∈ cls_mro kR).
  { destruct Hfin as [(Hsub & -> & -> & _)|(_ & _ & _ & _ & _ & _ & Hnew)].
    - simpl. exists tlc. rewrite Htlc in *. split; [reflexivity|].
      split; [assumption | apply list_elem_of_here].
    - destruct Hnew as (kb & tl & _ & Hm & ->). exists tl. split; [reflexivity|].
      split; apply list_elem_of_further, (merge_elements _ _ Hm);
        exists [ControllerBase; C]; split;
        repeat first [apply list_elem_of_here | apply list_elem_of_further]. }
  destruct Hmro as (tl & Hmro & HCB & HC).
  split; [|split; [|split; [|split; [|split]]]].
  - unfold get_api_controller, bind, class_getattr. rewrite HkR, Hmro. simpl.
    rewrite HkR. simpl. rewrite Hattr. reflexivity.
  - eauto.
  - unfold issubclass, bind, get_class. rewrite HkR. unfold ret.
    rewrite bool_decide_eq_true_2 by assumption. reflexivity.
  - unfold issubclass, bind, get_class. rewrite HkR. unfold ret.
    rewrite bool_decide_eq_true_2 by assumption. reflexivity.
  - unfold issubclass, bind, get_class. rewrite Hkc. unfold ret. intros H.
    injection H as H. apply bool_decide_eq_true in H.
    destruct Hfin as [(_ & -> & _)|(Hsub & _)]; [reflexivity | contradiction].
  - unfold issubclass, bind, get_class. rewrite Hkc. unfold ret. intros H.
    injection H as H. apply bool_decide_eq_false in H.
    destruct Hfin as [(Hsub & _)|(_ & -> & Hcs & _ & Hb & _)]; [contradiction|].
    split; [reflexivity|]. eauto.
Qed.

(** ** Binding to an application instance *)

Lemma set_api_instance_returns resolve self api w u w1 :
  APIController_set_api_instance resolve self api w = Returns (u, w1) ->
  exists a c k,
    controllers w !! self = Some a /\ controller_class a = Some c /\
    classes w !! c = Some k /\
    w1 = set_controllers
           (<[self := set_path_operations
                        (map (fun kv =>
                                (fst kv,
                                 PathView_set_api_instance resolve api a (snd kv)))
                           (_path_operations a)) a]> (controllers w))
           (set_classes
              (<[c := mkPyClass (cls_name k) (cls_bases k) (cls_mro k)
                        (dict_set "api" api (cls_dict k))]> (classes w)) w).
Proof.
  unfold APIController_set_api_instance. intros H.
  apply bind_returns in H as (a & w0 & Ha & H).
  apply get_controller_returns in Ha as [-> Ha].
  destruct (controller_class a) as [c|] eqn:Ec; [|discriminate].
  apply bind_returns in H as (u1 & w2 & Hset & H).
  unfold class_setattr in Hset.
  apply bind_returns in Hset as (k & w0 & Hk & Hset).
  apply get_class_returns in Hk as [-> Hk].
  apply put_class_returns in Hset. subst w2.
  apply put_controller_returns in H. subst w1.
  exists a, c, k. auto.
Qed.

Lemma set_api_instance_runs resolve self api w a c k :
  controllers w !! self = Some a -> controller_class a = Some c ->
  classes w !! c = Some k ->
  exists w1, APIController_set_api_instance resolve self api w = Returns (tt, w1).
Proof.
  intros Ha Hc Hk.
  unfold APIController_set_api_instance, bind, get_controller.
  rewrite Ha, Hc. unfold class_setattr, bind, get_class. rewrite Hk.
  unfold put_class, put_controller. eauto.
Qed.

Lemma bound_to_set_api_instance resolve api router (d : Dict PathView) a :
  _path_operations a
    = map (fun kv => (fst kv, PathView_set_api_instance resolve api router (snd kv)))
        d ->
  bound_to api a.
Proof.
  unfold bound_to. intros ->. apply Forall_map, Forall_forall. intros kv _.
  simpl. split; [reflexivity|]. apply Forall_map, Forall_forall. reflexivity.
Qed.

Lemma dict_keys_map_values {V W} (f : V -> W) (d : Dict V) :
  dict_keys (map (fun kv => (fst kv, f (snd kv))) d) = dict_keys d.
Proof. unfold dict_keys. rewrite map_map. reflexivity. Qed.

(** C2 as the code has it. [set_api_instance] checks nothing: after a
    call that returned, a second call with another application instance
    returns as well; it stores the new instance in the controller
    class's [api], rebinds every PathView and operation to it, and
    leaves the [registered] flag and the path keys of the controller as
    they were. *)
Theorem set_api_instance_rebinds resolve self api1 api2 w u w1 :
  APIController_set_api_instance resolve self api1 w = Returns (u, w1) ->
  exists w2 a1 a2 c,
    APIController_set_api_instance resolve self api2 w1 = Returns (tt, w2) /\
    controllers w1 !! self = Some a1 /\
    controllers w2 !! self = Some a2 /\
    controller_class a2 = Some c /\
    class_attr w2 c "api" = Some api2 /\
    bound_to api2 a2 /\
    registered a2 = registered a1 /\
    dict_keys (_path_operations a2) = dict_keys (_path_operations a1).
Proof.
  intros H1.
  apply set_api_instance_returns in H1 as (a & c & k & Ha & Hc & Hk & ->).
  pose proof (lookup_lt_Some _ _ _ Ha) as Hlt.
  pose proof (lookup_lt_Some _ _ _ Hk) as Hltc.
  match goal with |- context [set_controllers (<[self := ?x]> _) ?w0] =>
    set (a1 := x); set (wc := w0) end.
  assert (Ha1 : controllers (set_controllers (<[self := a1]> (controllers w)) wc)
                  !! self = Some a1)
    by (simpl; apply list_lookup_insert_eq; assumption).
  assert (Hk1 : exists k1,
            classes (set_controllers (<[self := a1]> (controllers w)) wc) !! c
              = Some k1)
    by (simpl; eexists; apply list_lookup_insert_eq; assumption).
  destruct Hk1 as [k1 Hk1].
  destruct (set_api_instance_runs resolve self api2 _ a1 c k1 Ha1 Hc Hk1)
    as [w2 H2].
  exists w2, a1. pose proof H2 as H2'.
  apply set_api_instance_returns in H2'
    as (a1' & c' & k1' & Ha1' & Hc' & Hk1' & Hw2).
  rewrite Ha1 in Ha1'. injection Ha1' as <-.
  assert (c' = c) as -> by (simpl in Hc'; congruence).
  rewrite Hk1 in Hk1'. injection Hk1' as <-.
  eexists. exists c. split; [exact H2|]. split; [exact Ha1|].
  split; [rewrite Hw2; simpl; apply list_lookup_insert_eq;
          rewrite length_insert; assumption|].
  split; [exact Hc|].
  split.
  { unfold class_attr. rewrite Hw2. simpl.
    rewrite list_lookup_insert_eq by (rewrite length_insert; assumption).
    simpl. apply dict_get_set_eq. }
  split; [eapply bound_to_set_api_instance; reflexivity|].
  split; [reflexivity|]. simpl. apply dict_keys_map_values.
Qed.

(** C2 as the specification has it fails: on the decorated example
    controller, a second [set_api_instance] with a different
    application instance is not rejected; it returns and the controller
    class is bound to the second instance. *)
Lemma set_api_instance_second_call_not_rejected :
  let w := example_decorated [ControllerBase] "WidgetController" in
  registered (APIController___init__ "shop" VNotSet VNone VNone (VBool true)) = false /\
  exists w1 w2,
    APIController_set_api_instance example_resolve 0 (VObj 100) w
      = Returns (tt, w1) /\
    class_attr w1 6 "api" = Some (VObj 100) /\
    APIController_set_api_instance example_resolve 0 (VObj 200) w1
      = Returns (tt, w2) /\
    class_attr w2 6 "api" = Some (VObj 200).
Proof.
  split; [reflexivity|]. eexists. eexists.
  split; [vm_compute; reflexivity|].
  split; [vm_compute; reflexivity|].
  split; vm_compute; reflexivity.
Qed.

(** C1 as the specification has it fails: the class AliasController
    holds the RouteFunction [list_items] under two names; its method
    resolution order names every class once, yet the decorator converts
    that RouteFunction into two operations of the controller, which had
    none. *)
Lemma route_function_in_two_slots_converted_twice :
  let w := example_aliased in
  exists R w' kR a a',
    APIController___call__ 0 3 w = Returns (R, w') /\
    classes w' !! R = Some kR /\
    cls_mro kR = [3; 2; 1; 0] /\
    declared kR = [0; 0] /\
    controllers w !! 0 = Some a /\
    controllers w' !! 0 = Some a' /\
    conversions 0 a = 0 /\
    conversions 0 a' = 2.
Proof.
  do 5 eexists.
  split; [vm_compute; reflexivity|].
  split; [vm_compute; reflexivity|].
  split; [reflexivity|].
  split; [reflexivity|].
  split; [vm_compute; reflexivity|].
  split; [vm_compute; reflexivity|].
  split; reflexivity.
Qed.

(** C4 as the specification has it fails: on a class named
    ControllerHelper the decorator assigns the tag "helper", whereas
    stripping the suffix "controller" from the lowercased name leaves
    "controllerhelper". *)
Lemma default_tag_removes_every_occurrence :
  let w := example_declared [ControllerBase] "ControllerHelper" in
  exists R w' a',
    APIController___call__ 0 6 w = Returns (R, w') /\
    controllers w' !! 0 = Some a' /\
    _tags a' = VList [VStr "helper"] /\
    _tags a' <> VList [VStr (spec_default_tag "ControllerHelper")].
Proof.
  eexists. eexists. eexists.
  split; [vm_compute; reflexivity|].
  split; [vm_compute; reflexivity|].
  split; [reflexivity|]. vm_compute. discriminate.
Qed.

(** C6 fails on the code.  The lookup finds the object 9, which is
    false in a boolean test, and the only permission class refuses
    every object: the object-level chain on 9 raises, and
    [get_object_or_exception] raises on it, yet [get_object_or_none]
    returns the object and its run is empty, no permission class was
    instantiated or asked. *)
Lemma get_object_or_none_skips_false_object :
  example_lookup 9 = Some 9 /\
  example_truth 9 = false /\
  Permissions.check_object_permissions (example_controller [example_denies]) 9
    = ([Permissions.Instantiated example_denies;
        Permissions.HasObjectPermission example_denies 7 9],
       Raises (PermissionDenied (Some "not allowed"))) /\
  Permissions.get_object_or_exception example_fetch
    (example_controller [example_denies]) 9
    = ([Permissions.Instantiated example_denies;
        Permissions.HasObjectPermission example_denies 7 9],
       Raises (PermissionDenied (Some "not allowed"))) /\
  Permissions.get_object_or_none example_truth example_lookup
    (example_controller [example_denies]) 9 = ([], Returns (Some 9)).
Proof. repeat split. Qed.

(** ** The theorems at work on the examples *)

Lemma example_classes_wf root name w c w' :
  wf_world w -> example_classes root name w = Returns (c, w') -> wf_world w'.
Proof.
  unfold example_classes. intros Hwf H.
  apply bind_returns in H as (a & w1 & H1 & H).
  apply bind_returns in H as (b1 & w2 & H2 & H).
  apply bind_returns in H as (b2 & w3 & H3 & H).
  eauto using type_new_wf.
Qed.

Lemma example_declared_wf root name : wf_world (example_declared root name).
Proof.
  assert (Hstart : wf_world example_start).
  { destruct (initial_world_wf false (fun _ => "0123456789abcdef0123")).
    split; assumption. }
  unfold example_declared.
  destruct (example_classes root name example_start) as [[c w]|e] eqn:E;
    [|assumption].
  eapply example_classes_wf; eassumption.
Qed.

Lemma check_permissions_short_circuit_witness :
  Permissions.has_permission example_denies 7 = false /\
  Permissions.check_permissions (example_controller [example_denies; example_allows])
    = ([Permissions.Instantiated example_denies;
        Permissions.HasPermission example_denies 7],
       Raises (PermissionDenied (Some "not allowed"))).
Proof.
  split; [reflexivity|].
  apply (check_permissions_short_circuit
           (example_controller [example_denies; example_allows])
           (example_context [example_denies; example_allows])
           7 example_denies [example_allows]); reflexivity.
Defined.

Lemma checks_skipped_outside_request_witness :
  (exists t, Permissions.check_permissions (@Permissions.mkController nat nat None)
               = (t, Returns tt)
             /\ List.filter Permissions.is_check t = []) /\
  (exists t, Permissions.check_object_permissions
               (@Permissions.mkController nat nat None) 5 = (t, Returns tt)
             /\ List.filter Permissions.is_check t = []).
Proof.
  apply (checks_skipped_outside_request (@Permissions.mkController nat nat None) 5).
  left. reflexivity.
Defined.

Lemma get_object_or_none_checks_found_object_witness :
  example_lookup 0 = None /\
  Permissions.get_object_or_none example_truth example_lookup
    (example_controller [example_allows]) 0 = ([], Returns None) /\
  example_lookup 5 = Some 5 /\ example_truth 5 = true /\
  Permissions.get_object_or_none example_truth example_lookup
    (example_controller [example_allows]) 5
    = ([Permissions.Instantiated example_allows;
        Permissions.HasObjectPermission example_allows 7 5],
       Returns (Some 5)) /\
  Permissions.get_object_or_none example_truth example_lookup
    (example_controller [example_denies]) 5
    = ([Permissions.Instantiated example_denies;
        Permissions.HasObjectPermission example_denies 7 5],
       Raises (PermissionDenied (Some "not allowed"))).
Proof.
  split; [reflexivity|]. split.
  { apply (proj1 (get_object_or_none_checks_found_object example_truth
                    example_lookup (example_controller [example_allows]) 0)).
    reflexivity. }
  split; [reflexivity|]. split; [reflexivity|]. split.
  - apply (proj1 (proj2 (get_object_or_none_checks_found_object example_truth
                           example_lookup (example_controller [example_allows]) 5)
                    5 eq_refl eq_refl)).
    reflexivity.
  - apply (proj2 (proj2 (get_object_or_none_checks_found_object example_truth
                           example_lookup (example_controller [example_denies]) 5)
                    5 eq_refl eq_refl)).
    reflexivity.
Defined.

Lemma add_api_operation_auth_witness :
  let self := APIController___init__ "shop" (VObj 7) VNone VNone (VBool true) in
  truthy VNotSet = true /\
  rp_auth (op_args (fst (add_api_operation self (VObj 9) (example_route "/items"))))
    = VNotSet /\
  truthy VNone = false /\
  rp_auth (op_args (fst (add_api_operation self (VObj 9)
                           (with_auth VNone (example_route "/items")))))
    = VObj 7.
Proof.
  intros self. split; [reflexivity|]. split.
  - apply (proj1 (proj2 (add_api_operation_auth self (VObj 9)
                           (example_route "/items")))).
    reflexivity.
  - split; [reflexivity|].
    apply (proj1 (proj2 (proj2 (add_api_operation_auth self (VObj 9)
                           (with_auth VNone (example_route "/items")))))).
    reflexivity.
Defined.

Lemma add_api_operation_frame_witness :
  let self :=
    snd (add_api_operation
           (APIController___init__ "shop" VNotSet VNone VNone (VBool true))
           (VObj 9) (example_route "/items")) in
  let self' := snd (add_api_operation self (VObj 10) (example_route "/orders")) in
  "/items" <> "/orders" /\
  dict_get "/items" (_path_operations self')
    = dict_get "/items" (_path_operations self) /\
  dict_mem "/items" (_path_operations self') = true.
Proof.
  intros self self'. split; [discriminate|]. split.
  - apply (proj1 (proj2 (proj2 (add_api_operation_frame self (VObj 10)
                                  (example_route "/orders"))))).
    discriminate.
  - apply (proj1 (proj2 (proj2 (proj2 (add_api_operation_frame self (VObj 10)
                                  (example_route "/orders")))))).
    reflexivity.
Defined.

Lemma route_functions_converted_once_witness :
  exists a a' kR,
    controllers (example_declared [ControllerBase] "WidgetController") !! 0 = Some a /\
    controllers (example_decorated [ControllerBase] "WidgetController") !! 0 = Some a' /\
    classes (example_decorated [ControllerBase] "WidgetController") !! 6 = Some kR /\
    cls_mro kR = [6; 4; 5; 3; 2; 1; 0] /\
    conversions 0 a = 0 /\ conversions 0 a' = conversions 0 a + 1.
Proof.
  eexists. eexists. eexists.
  split; [vm_compute; reflexivity|].
  split; [vm_compute; reflexivity|].
  split; [vm_compute; reflexivity|].
  split; [reflexivity|].
  split; [reflexivity|].
  unshelve eapply (proj2 (proj2 (route_functions_converted_once 0 6
            (example_declared [ControllerBase] "WidgetController") 6
            (example_decorated [ControllerBase] "WidgetController")
            _ _ _ _ _ _ _ _)) _ 3 _ 0).
  all: try (vm_compute; reflexivity).
  all: try apply example_declared_wf.
  all: apply (bool_decide_unpack _); vm_compute; exact I.
Defined.

Lemma default_tags_from_class_name_witness :
  exists a',
    controllers (example_decorated [ControllerBase] "WidgetController") !! 0 = Some a' /\
    _tags a' = VList [VStr "widget"].
Proof.
  apply (default_tags_from_class_name 0 6
           (example_declared [ControllerBase] "WidgetController") 6
           (example_decorated [ControllerBase] "WidgetController")
           (APIController___init__ "shop" VNotSet VNone VNone (VBool true))
           (mkPyClass "WidgetController" [4; 5] [6; 4; 5; 3; 2; 1; 0]
              [("_api_controller", VNone)])).
  - vm_compute. reflexivity.
  - vm_compute. reflexivity.
  - vm_compute. reflexivity.
  - reflexivity.
Defined.

Lemma decorator_round_trip_witness :
  get_api_controller 7 (example_decorated [] "WidgetController")
    = Returns (VController 0, example_decorated [] "WidgetController") /\
  get_api_controller 6 (example_decorated [ControllerBase] "WidgetController")
    = Returns (VController 0, example_decorated [ControllerBase] "WidgetController").
Proof.
  split.
  - apply (decorator_round_trip 0 6 (example_declared [] "WidgetController") 7
             (example_decorated [] "WidgetController")).
    + apply example_declared_wf.
    + vm_compute. reflexivity.
  - apply (decorator_round_trip 0 6
             (example_declared [ControllerBase] "WidgetController") 6
             (example_decorated [ControllerBase] "WidgetController")).
    + apply example_declared_wf.
    + vm_compute. reflexivity.
Defined.

Lemma set_api_instance_rebinds_witness :
  exists w2 a1 a2 c,
    APIController_set_api_instance example_resolve 0 (VObj 200)
      (example_bound (VObj 100)) = Returns (tt, w2) /\
    controllers (example_bound (VObj 100)) !! 0 = Some a1 /\
    controllers w2 !! 0 = Some a2 /\
    controller_class a2 = Some c /\
    class_attr w2 c "api" = Some (VObj 200) /\
    bound_to (VObj 200) a2 /\
    registered a2 = registered a1 /\
    dict_keys (_path_operations a2) = dict_keys (_path_operations a1).
Proof.
  apply (set_api_instance_rebinds example_resolve 0 (VObj 100) (VObj 200)
           (example_decorated [ControllerBase] "WidgetController") tt
           (example_bound (VObj 100))).
  vm_compute. reflexivity.
Defined.

(** * Further properties of the code *)

(** ** Construction of a descriptor *)

(** The [tags] setter turns a non-empty string into a one-element list
    and leaves every other value, one that is not a string or not true,
    as it is, so that a stored value is never a non-empty string and
    setting a stored value again changes nothing; this is what
    [__init__] stores. *)
Theorem tags_setter_normalises (v : PyVal) (c : ascii) (s : string)
    (prefix : string) (auth permissions auto_import : PyVal) :
  tags_setter (VStr (String c s)) = VList [VStr (String c s)] /\
  (is_str v && truthy v = false -> tags_setter v = v) /\
  is_str (tags_setter v) && truthy (tags_setter v) = false /\
  tags_setter (tags_setter v) = tags_setter v /\
  _tags (APIController___init__ prefix auth v permissions auto_import)
    = tags_setter v.
Proof.
  split; [reflexivity|]. split; [|split; [|split; [|reflexivity]]].
  - unfold tags_setter. rewrite andb_comm. intros ->. reflexivity.
  - unfold tags_setter. destruct v as [| |[|]|[|? ?]|[|? ?]| | | | |]; reflexivity.
  - unfold tags_setter. destruct v as [| |[|]|[|? ?]|[|? ?]| | | | |]; reflexivity.
Qed.

(** A descriptor fresh from [__init__] always has permission classes
    that count as true: the ones given when they do, the single
    always-allow class otherwise.  It has no URL pattern, no class and
    is not registered. *)
Theorem fresh_controller (prefix : string) (auth tags permissions auto_import : PyVal)
    (mount : string) :
  let a := APIController___init__ prefix auth tags permissions auto_import in
  truthy (permission_classes a) = true /\
  permission_classes a
    = (if truthy permissions then permissions else VList [AllowAny]) /\
  urls_paths a mount = [] /\
  controller_class a = None /\ registered a = false.
Proof.
  simpl. unfold py_or. repeat split.
  destruct (truthy permissions) eqn:E; [assumption | reflexivity].
Qed.

(** ** More on the permission chain *)
Section ChainMore.

Import Permissions.
Context {Request Obj Fetch : Type}.
Variable fetcher : Fetch -> Result Obj.
Implicit Types (self : @Controller Request Obj) (p : @PermissionClass Request Obj).

(** Within a request, [check_permissions] stops at the first permission
    class that refuses, wherever it stands in the list: the classes
    before it were instantiated and asked once each, in order, the error
    carries the refusing class's message, and no class after it is
    instantiated or asked. *)
Theorem check_permissions_stops_at_refusal self ctx r before p after :
  context self = Some ctx -> request ctx = Some r ->
  permission_classes ctx = (before ++ p :: after)%list ->
  Forall (fun q => has_permission q r = true) before ->
  has_permission p r = false ->
  check_permissions self =
    ((passing_events r before ++ [Instantiated p; HasPermission p r])%list,
     Raises (PermissionDenied (message p))).
Proof.
  intros Hc Hr Hps Hbefore Hp. unfold check_permissions, _get_permissions.
  rewrite Hc, Hps.
  apply (check_loop_first_refusal self ctx r _ (fun q => HasPermission q r)
           (fun q => has_permission q r)); auto.
Qed.

(** Within a request, [check_object_permissions] stops at the first
    permission class that refuses the object, wherever it stands in the
    list; every call it makes is about that object. *)
Theorem check_object_permissions_stops_at_refusal self ctx r o before p after :
  context self = Some ctx -> request ctx = Some r ->
  permission_classes ctx = (before ++ p :: after)%list ->
  Forall (fun q => has_object_permission q r o = true) before ->
  has_object_permission p r o = false ->
  check_object_permissions self o =
    ((passing_object_events r o before
        ++ [Instantiated p; HasObjectPermission p r o])%list,
     Raises (PermissionDenied (message p))).
Proof.
  intros Hc Hr Hps Hbefore Hp. unfold check_object_permissions, _get_permissions.
  rewrite Hc, Hps.
  apply (check_loop_first_refusal self ctx r _ (fun q => HasObjectPermission q r o)
           (fun q => has_object_permission q r o)); auto.
Qed.

(** Within a request, when every permission class agrees, both checks
    return normally after instantiating and asking each class exactly
    once, in declaration order. *)
Theorem checks_pass_when_all_agree self ctx r o :
  context self = Some ctx -> request ctx = Some r ->
  (Forall (fun q => has_permission q r = true) (permission_classes ctx) ->
   check_permissions self
     = (passing_events r (permission_classes ctx), Returns tt)) /\
  (Forall (fun q => has_object_permission q r o = true) (permission_classes ctx) ->
   check_object_permissions self o
     = (passing_object_events r o (permission_classes ctx), Returns tt)).
Proof.
  intros Hc Hr. split; intros Hall.
  - unfold check_permissions, _get_permissions. rewrite Hc.
    apply (check_loop_all_pass self ctx r _ (fun q => HasPermission q r)
             (fun q => has_permission q r)); auto.
  - unfold check_object_permissions, _get_permissions. rewrite Hc.
    apply (check_loop_all_pass self ctx r _ (fun q => HasObjectPermission q r o)
             (fun q => has_object_permission q r o)); auto.
Qed.

(** [get_object_or_exception] passes the lookup's error on untouched,
    without instantiating or asking any permission class; a found
    object is returned only after the object-level chain has run on it
    and agreed, and a refusal is raised instead of the object. *)
Theorem get_object_or_exception_checks_found_object self fetch :
  (forall e, fetcher fetch = Raises e ->
     get_object_or_exception fetcher self fetch = ([], Raises e)) /\
  (forall o t, fetcher fetch = Returns o ->
     check_object_permissions self o = (t, Returns tt) ->
     get_object_or_exception fetcher self fetch = (t, Returns o)) /\
  (forall o t e, fetcher fetch = Returns o ->
     check_object_permissions self o = (t, Raises e) ->
     get_object_or_exception fetcher self fetch = (t, Raises e)).
Proof.
  unfold get_object_or_exception. split; [|split].
  - intros e ->. reflexivity.
  - intros o t -> Ht. simpl. rewrite Ht. simpl. rewrite app_nil_r. reflexivity.
  - intros o t e -> Ht. simpl. rewrite Ht. reflexivity.
Qed.

End ChainMore.

(** ** The decorator, once more step by step *)

Lemma ControllerRegistry_add_controller_keeps c w u w' :
  ControllerRegistry_add_controller c w = Returns (u, w') ->
  route_functions w' = route_functions w.
Proof.
  unfold ControllerRegistry_add_controller.
  destruct (bool_decide _); [destruct (registry_silent w)|]; intros H;
    try discriminate; injection H as _ <-; reflexivity.
Qed.

Lemma ControllerRegistry_add_controller_keeps_uuid c w u w' :
  ControllerRegistry_add_controller c w = Returns (u, w') ->
  uuid_calls w' = uuid_calls w.
Proof.
  unfold ControllerRegistry_add_controller.
  destruct (bool_decide _); [destruct (registry_silent w)|]; intros H;
    try discriminate; injection H as _ <-; reflexivity.
Qed.

Lemma APIController___call___steps self cls w R w' :
  APIController___call__ self cls w = Returns (R, w') ->
  exists a ai kR w3 a3 w4 a4,
    controllers w !! self = Some a /\
    class_getattr_default cls "auto_import" (auto_import a) w = Returns (ai, w) /\
    classes w' !! R = Some kR /\
    classes w3 = classes w' /\
    route_functions w3 = route_functions w /\
    controllers w3 !! self = Some a3 /\
    _path_operations a3 = _path_operations a /\
    prefix a3 = prefix a /\ auth a3 = auth a /\
    permission_classes a3 = permission_classes a /\
    registered a3 = registered a /\ auto_import a3 = ai /\
    conversion_loop self (cls_mro kR) w3 = Returns (tt, w4) /\
    controllers w4 !! self = Some a4 /\
    controllers w' !! self = Some (set_controller_class (Some R) a4) /\
    route_functions w' = route_functions w4 /\
    (forall i, i <> self -> controllers w3 !! i = controllers w !! i) /\
    (forall i, i <> self -> controllers w' !! i = controllers w4 !! i) /\
    uuid_calls w3 = uuid_calls w /\ uuid_calls w' = uuid_calls w4 /\
    uuid4 w3 = uuid4 w.
Proof.
  unfold APIController___call__. intros H.
  apply bind_returns in H as (a & w0 & Ha & H).
  apply get_controller_returns in Ha as [-> Ha].
  apply bind_returns in H as (ai & w0 & Hai & H).
  pose proof Hai as Hai'.
  apply class_getattr_default_returns in Hai' as [-> [kc Hkc]].
  apply bind_returns in H as (u1 & w1 & Hput & H).
  apply put_controller_returns in Hput.
  apply bind_returns in H as (sub & w1' & Hsub & H).
  unfold issubclass in Hsub.
  apply bind_returns in Hsub as (kc' & w1'' & Hkc' & Hsub).
  apply get_class_returns in Hkc' as [-> Hkc'].
  apply ret_returns in Hsub as [-> ->].
  assert (Hcs1 : classes w1 = classes w) by (subst w1; reflexivity).
  assert (Hrf1 : route_functions w1 = route_functions w) by (subst w1; reflexivity).
  assert (Ha1 : controllers w1 !! self = Some (set_auto_import ai a)).
  { subst w1. simpl. apply list_lookup_insert_eq. eapply lookup_lt_Some; eauto. }
  rewrite Hcs1, Hkc in Hkc'. injection Hkc' as <-.
  apply bind_returns in H as (R' & w2 & Hstep & H).
  assert (Hu2 : uuid_calls w2 = uuid_calls w).
  { subst w1. destruct (bool_decide (ControllerBase ∈ cls_mro kc)); simpl in Hstep.
    - apply bind_returns in Hstep as (u2 & w2' & Hset & Hstep).
      apply ret_returns in Hstep as [-> ->].
      unfold class_setattr in Hset.
      apply bind_returns in Hset as (k0 & w1' & Hk0 & Hset).
      apply get_class_returns in Hk0 as [-> Hk0].
      apply put_class_returns in Hset. subst w2'. reflexivity.
    - apply bind_returns in Hstep as (k0 & w1' & Hk0 & Hstep).
      apply get_class_returns in Hk0 as [-> Hk0].
      apply type_new_returns in Hstep
        as (orders & tl & d & Ho & Hm & -> & Hd & ->).
      reflexivity. }
  assert (Huu2 : uuid4 w2 = uuid4 w).
  { subst w1. destruct (bool_decide (ControllerBase ∈ cls_mro kc)); simpl in Hstep.
    - apply bind_returns in Hstep as (u2 & w2' & Hset & Hstep).
      apply ret_returns in Hstep as [-> ->].
      unfold class_setattr in Hset.
      apply bind_returns in Hset as (k0 & w1' & Hk0 & Hset).
      apply get_class_returns in Hk0 as [-> Hk0].
      apply put_class_returns in Hset. subst w2'. reflexivity.
    - apply bind_returns in Hstep as (k0 & w1' & Hk0 & Hstep).
      apply get_class_returns in Hk0 as [-> Hk0].
      apply type_new_returns in Hstep
        as (orders & tl & d & Ho & Hm & -> & Hd & ->).
      reflexivity. }
  assert (Hfin : exists kR, classes w2 !! R' = Some kR /\
            controllers w2 = controllers w1 /\
            route_functions w2 = route_functions w1).
  { destruct (bool_decide (ControllerBase ∈ cls_mro kc)); simpl in Hstep.
    - apply bind_returns in Hstep as (u2 & w2' & Hset & Hstep).
      apply ret_returns in Hstep as [-> ->].
      unfold class_setattr in Hset.
      apply bind_returns in Hset as (k0 & w1' & Hk0 & Hset).
      apply get_class_returns in Hk0 as [-> Hk0].
      apply put_class_returns in Hset. subst w2'. simpl.
      eexists. split; [apply list_lookup_insert_eq; eapply lookup_lt_Some; eauto|].
      auto.
    - apply bind_returns in Hstep as (k0 & w1' & Hk0 & Hstep).
      apply get_class_returns in Hk0 as [-> Hk0].
      apply type_new_returns in Hstep
        as (orders & tl & d & Ho & Hm & -> & Hd & ->).
      eexists. simpl. split; [apply list_lookup_middle; reflexivity|]. auto. }
  destruct Hfin as (kR & HkR & Hctl2 & Hrf2).
  apply bind_returns in H as (a2 & w2' & Ha2 & H).
  apply get_controller_returns in Ha2 as [-> Ha2].
  rewrite Hctl2, Ha1 in Ha2. injection Ha2 as <-.
  apply bind_returns in H as (u3 & w3 & Htags & H).
  assert (Ho1 : forall i, i <> self -> controllers w1 !! i = controllers w !! i).
  { intros i Hi. subst w1. simpl. apply list_lookup_insert_ne. congruence. }
  assert (Hu3 : uuid_calls w3 = uuid_calls w2).
  { simpl in Htags. destruct (truthy (_tags a)); simpl in Htags.
    - apply ret_returns in Htags as [_ ->]. reflexivity.
    - apply bind_returns in Htags as (k0 & w2' & Hk0 & Htags).
      apply get_class_returns in Hk0 as [-> Hk0].
      apply put_controller_returns in Htags. subst w3. reflexivity. }
  assert (Huu3 : uuid4 w3 = uuid4 w2).
  { simpl in Htags. destruct (truthy (_tags a)); simpl in Htags.
    - apply ret_returns in Htags as [_ ->]. reflexivity.
    - apply bind_returns in Htags as (k0 & w2' & Hk0 & Htags).
      apply get_class_returns in Hk0 as [-> Hk0].
      apply put_controller_returns in Htags. subst w3. reflexivity. }
  assert (Ho3 : forall i, i <> self -> controllers w3 !! i = controllers w2 !! i).
  { intros i Hi. simpl in Htags. destruct (truthy (_tags a)); simpl in Htags.
    - apply ret_returns in Htags as [_ ->]. reflexivity.
    - apply bind_returns in Htags as (k0 & w2' & Hk0 & Htags).
      apply get_class_returns in Hk0 as [-> Hk0].
      apply put_controller_returns in Htags. subst w3. simpl.
      apply list_lookup_insert_ne. congruence. }
  assert (H3 : classes w3 = classes w2 /\ route_functions w3 = route_functions w2 /\
               exists a3, controllers w3 !! self = Some a3 /\
                 _path_operations a3 = _path_operations a /\
                 prefix a3 = prefix a /\ auth a3 = auth a /\
                 permission_classes a3 = permission_classes a /\
                 registered a3 = registered a /\ auto_import a3 = ai).
  { simpl in Htags. destruct (truthy (_tags a)); simpl in Htags.
    - apply ret_returns in Htags as [_ ->]. split; [reflexivity|].
      split; [reflexivity|].
      exists (set_auto_import ai a). rewrite Hctl2. repeat split. assumption.
    - apply bind_returns in Htags as (k0 & w2' & Hk0 & Htags).
      apply get_class_returns in Hk0 as [-> Hk0].
      apply put_controller_returns in Htags. subst w3. simpl.
      split; [reflexivity|]. split; [reflexivity|]. eexists. split.
      + apply list_lookup_insert_eq. rewrite Hctl2.
        eapply lookup_lt_Some; eauto.
      + repeat split. }
  destruct H3 as (Hcs3 & Hrf3 & a3 & Ha3 & Hops3 & Hp3 & Hau3 & Hpc3 & Hrg3 & Hai3).
  apply bind_returns in H as (bases & w3' & Hmro & H).
  unfold getmro in Hmro.
  apply bind_returns in Hmro as (k0 & w3'' & Hk0 & Hmro).
  apply get_class_returns in Hk0 as [-> Hk0].
  apply ret_returns in Hmro as [-> ->].
  rewrite Hcs3, HkR in Hk0. injection Hk0 as <-.
  apply bind_returns in H as (u4 & w4 & Hloop & H).
  pose proof Hloop as Hgrow.
  apply mro_loop_grows in Hgrow. destruct Hgrow as (Hcs4 & _ & _ & Hgrow).
  destruct (Hgrow a3 Ha3) as (a4 & Ha4 & _ & _).
  apply bind_returns in H as (a4' & w4' & Ha4' & H).
  apply get_controller_returns in Ha4' as [-> Ha4'].
  rewrite Ha4 in Ha4'. injection Ha4' as <-.
  apply bind_returns in H as (u5 & w5 & Hput5 & H).
  apply put_controller_returns in Hput5.
  apply bind_returns in H as (u6 & w6 & Hreg & H).
  apply ret_returns in H as [-> ->].
  pose proof Hreg as Hreg'.
  apply ControllerRegistry_add_controller_returns in Hreg' as [Hcs6 Hctl6].
  pose proof (ControllerRegistry_add_controller_keeps _ _ _ _ Hreg) as Hrf6.
  assert (Hcs' : classes w6 = classes w2).
  { rewrite Hcs6. subst w5. simpl. congruence. }
  destruct u4.
  exists a, ai, kR, w3, a3, w4, a4.
  rewrite Hcs'. repeat split; try assumption; try congruence.
  - rewrite Hctl6. subst w5. simpl. apply list_lookup_insert_eq.
    eapply lookup_lt_Some; eauto.
  - rewrite Hrf6. subst w5. reflexivity.
  - intros i Hi. rewrite (Ho3 i Hi), Hctl2. auto.
  - intros i Hi. rewrite Hctl6. subst w5. simpl.
    apply list_lookup_insert_ne. congruence.
  - rewrite (ControllerRegistry_add_controller_keeps_uuid _ _ _ _ Hreg).
    subst w5. reflexivity.
Qed.

Lemma APIController___call___config self cls w R w' a :
  APIController___call__ self cls w = Returns (R, w') ->
  controllers w !! self = Some a ->
  exists a',
    controllers w' !! self = Some a' /\
    prefix a' = prefix a /\ auth a' = auth a /\
    permission_classes a' = permission_classes a /\
    registered a' = registered a /\
    controller_class a' = Some R /\
    class_getattr_default cls "auto_import" (auto_import a) w
      = Returns (auto_import a', w).
Proof.
  intros Hcall Ha.
  apply APIController___call___steps in Hcall
    as (a0 & ai & kR & w3 & a3 & w4 & a4 & Ha0 & Hai & HkR & Hcs3 & Hrf3 & Ha3
        & Hops3 & Hp3 & Hau3 & Hpc3 & Hrg3 & Hai3 & Hloop & Ha4 & Ha' & Hrf' & _).
  rewrite Ha in Ha0. injection Ha0 as <-.
  unfold conversion_loop in Hloop. apply mro_loop_grows in Hloop.
  destruct Hloop as (_ & _ & _ & Hgrow).
  destruct (Hgrow a3 Ha3) as (a4' & Ha4' & Hcfg & _).
  rewrite Ha4 in Ha4'. injection Ha4' as <-.
  destruct Hcfg as (Hp & Hau & _ & Hai4 & Hpc & _ & Hrg).
  exists (set_controller_class (Some R) a4). simpl.
  split; [assumption|]. repeat split; congruence.
Qed.

(** ** What decoration keeps *)

(** The decorator never touches the prefix, the auth, the permission
    classes or the [registered] flag of the descriptor, and it keeps
    tags that were given: only empty tags are replaced.  Its
    [auto_import] becomes the class's [auto_import] attribute, looked up
    along the class's ancestors, or stays what it was when no class has
    one. *)
Theorem decoration_keeps_configuration self cls w R w' a :
  APIController___call__ self cls w = Returns (R, w') ->
  controllers w !! self = Some a ->
  exists a',
    controllers w' !! self = Some a' /\
    prefix a' = prefix a /\ auth a' = auth a /\
    permission_classes a' = permission_classes a /\
    registered a' = registered a /\
    (truthy (_tags a) = true -> _tags a' = _tags a) /\
    class_getattr_default cls "auto_import" (auto_import a) w
      = Returns (auto_import a', w).
Proof.
  intros Hcall Ha.
  destruct (APIController___call___config _ _ _ _ _ _ Hcall Ha)
    as (a' & Ha' & Hp & Hau & Hpc & Hrg & _ & Hai).
  apply APIController___call___returns in Hcall
    as (a0 & kc & kR & a0' & Ha0 & _ & _ & _ & _ & _ & Ha0' & Htags & _).
  rewrite Ha in Ha0. injection Ha0 as <-.
  rewrite Ha' in Ha0'. injection Ha0' as <-.
  exists a'. repeat split; try assumption.
  intros Ht. rewrite Htags, Ht. reflexivity.
Qed.

(** Once the decorator has returned the class R, [build_routers] gives
    exactly one pair, the descriptor's own prefix with the descriptor,
    and the descriptor's class is R. *)
Theorem build_routers_after_decoration self cls w R w' a :
  APIController___call__ self cls w = Returns (R, w') ->
  controllers w !! self = Some a ->
  build_routers self w' = Returns ([(prefix a, self)], w') /\
  exists a', controllers w' !! self = Some a' /\ controller_class a' = Some R.
Proof.
  intros Hcall Ha.
  destruct (APIController___call___config _ _ _ _ _ _ Hcall Ha)
    as (a' & Ha' & Hp & _ & _ & _ & Hcc & _).
  split; [|eauto].
  unfold build_routers, bind, get_controller. rewrite Ha'. unfold ret.
  rewrite Hp. reflexivity.
Qed.

(** Once it has decorated a class, a descriptor prints as the name of
    the class the user wrote, also when the decorator had to make a new
    class around it. *)
Theorem descriptor_prints_class_name self cls w R w' kc :
  APIController___call__ self cls w = Returns (R, w') ->
  classes w !! cls = Some kc ->
  APIController___str__ self w' = Returns (cls_name kc, w') /\
  APIController___repr__ self w'
    = Returns ("<controller - " ++ cls_name kc ++ ">", w').
Proof.
  intros Hcall Hkc.
  apply APIController___call___returns in Hcall
    as (a & kc0 & kR & a' & Ha & Hkc0 & HkR & Hname & _ & _ & Ha' & _ & Hcc & _).
  rewrite Hkc in Hkc0. injection Hkc0 as <-.
  unfold APIController___str__, APIController___repr__, bind, get_controller.
  rewrite Ha', Hcc. unfold get_class. rewrite HkR. unfold ret.
  rewrite Hname. split; reflexivity.
Qed.

(** A descriptor that has not decorated a class yet, such as one fresh
    from [api_controller] called with a prefix, cannot be printed or
    bound to an application: [__str__], [__repr__] and
    [set_api_instance] raise AttributeError; [build_routers] works. *)
Theorem undecorated_descriptor_raises resolve p auth tags permissions auto_import
    api w v w' :
  api_controller (AsPrefix p) auth tags permissions auto_import w
    = Returns (v, w') ->
  exists self,
    v = VController self /\
    APIController___str__ self w' = Raises AttributeError /\
    APIController___repr__ self w' = Raises AttributeError /\
    APIController_set_api_instance resolve self api w' = Raises AttributeError /\
    build_routers self w' = Returns ([(p, self)], w').
Proof.
  unfold api_controller. intros H.
  apply bind_returns in H as (self & w1 & Hnew & H).
  apply ret_returns in H as [-> ->].
  unfold APIController_new in Hnew. injection Hnew as <- <-.
  exists (length (controllers w)). split; [reflexivity|].
  unfold APIController___str__, APIController___repr__,
    APIController_set_api_instance, build_routers, bind, get_controller.
  simpl. rewrite list_lookup_middle by reflexivity. simpl. repeat split.
Qed.

(** A class made from a controller class is not a decorated class: the
    metaclass gives a new class its own [_api_controller], None unless
    the class body sets one, so [get_api_controller] raises the
    missing-decorator error on a subclass of a decorated class until
    the subclass is decorated itself.  The one class the metaclass
    leaves alone, and which this does not cover, is a class named
    ControllerBase that lists ABC among its bases. *)
Theorem subclass_needs_its_own_decorator name bases namespace w c w' b kb :
  type_new name bases namespace w = Returns (c, w') ->
  b ∈ bases -> classes w !! b = Some kb -> ControllerBase ∈ cls_mro kb ->
  dict_get "_api_controller" namespace = None ->
  String.eqb name "ControllerBase" && bool_decide (ABC ∈ bases) = false ->
  get_api_controller c w' = Raises MissingAPIControllerDecoratorException.
Proof.
  intros Hnew Hb Hkb HCB Hns Hname.
  unfold type_new in Hnew.
  assert (Heff : effective_bases bases = bases)
    by (destruct bases; [inversion Hb | reflexivity]).
  rewrite Heff in Hnew.
  destruct (mapM _ bases) as [orders|] eqn:Eo; [|discriminate].
  destruct (MRO.merge (orders ++ [bases])) as [tl|] eqn:Em; [|discriminate].
  assert (Hin : ControllerBase ∈ tl).
  { apply (merge_elements _ _ Em). exists (cls_mro kb). split; [|assumption].
    apply elem_of_app. left. apply mapM_Some in Eo.
    clear Em Hnew Heff Hname. induction Eo as [|x l xs ls Hx _ IH]; [inversion Hb|].
    apply elem_of_cons in Hb as [<-|Hb].
    - rewrite Hkb in Hx. injection Hx as <-. apply list_elem_of_here.
    - apply list_elem_of_further. auto. }
  rewrite bool_decide_eq_true_2 in Hnew by assumption.
  injection Hnew as <- <-.
  unfold get_api_controller, bind, class_getattr. simpl.
  rewrite list_lookup_middle by reflexivity. simpl.
  rewrite list_lookup_middle by reflexivity. simpl.
  unfold ControllerBaseModelMetaclass___new__. rewrite Hname. simpl.
  rewrite Hns. simpl. rewrite dict_get_set_eq. reflexivity.
Qed.

(** ** What decoration does to the route functions *)

Lemma for_each_accumulates {A} (S : nat -> World -> Prop)
    (Q : A -> World -> Prop) (Inv : World -> Prop)
    (body : A -> M unit) (xs : list A) :
  (forall x w w', Q x w -> (forall z, S z w -> S z w') -> Q x w') ->
  (forall x w u w', Inv w -> body x w = Returns (u, w') ->
     Inv w' /\ Q x w' /\ forall z, S z w -> S z w') ->
  forall w u w', Inv w -> for_each xs body w = Returns (u, w') ->
    Inv w' /\ (forall x, x ∈ xs -> Q x w') /\ (forall z, S z w -> S z w').
Proof.
  intros Hmono Hbody. induction xs as [|x xs IH]; intros w u w' Hinv H; simpl in H.
  - apply ret_returns in H as [_ ->]. split; [assumption|].
    split; [|auto]. intros x Hx. inversion Hx.
  - apply bind_returns in H as (u1 & w1 & Hx & H).
    destruct (Hbody _ _ _ _ Hinv Hx) as (Hinv1 & HQ & HS).
    destruct (IH _ _ _ Hinv1 H) as (Hinv' & HQs & HS').
    split; [assumption|]. split; [|auto].
    intros y Hy. apply elem_of_cons in Hy as [->|Hy]; [|auto].
    eapply Hmono; eauto.
Qed.

Lemma APIController_add_api_operation_keeps self view_func args w op w' :
  APIController_add_api_operation self view_func args w = Returns (op, w') ->
  route_functions w' = route_functions w /\ classes w' = classes w.
Proof.
  unfold APIController_add_api_operation. intros H.
  apply bind_returns in H as (a & w1 & Ha & H).
  apply get_controller_returns in Ha as [-> Ha].
  destruct (add_api_operation a view_func args) as [operation a'].
  apply bind_returns in H as (u & w2 & Hput & H).
  apply put_controller_returns in Hput. apply ret_returns in H as [_ ->].
  subst w2. split; reflexivity.
Qed.

Lemma APIController_add_api_operation_keeps_uuid self view_func args w op w' :
  APIController_add_api_operation self view_func args w = Returns (op, w') ->
  uuid4 w' = uuid4 w /\ uuid_calls w' = uuid_calls w.
Proof.
  unfold APIController_add_api_operation. intros H.
  apply bind_returns in H as (a & w1 & Ha & H).
  apply get_controller_returns in Ha as [-> Ha].
  destruct (add_api_operation a view_func args) as [operation a'].
  apply bind_returns in H as (u & w2 & Hput & H).
  apply put_controller_returns in Hput. apply ret_returns in H as [_ ->].
  subst w2. split; reflexivity.
Qed.

(** One round of the loop of [compute_api_route_function]. *)
Lemma conversion_round_stamps self x ws w u w' :
  (do r <- get_route_function x;
   put_route_function x
     (mkRouteFunction (rf_view_func_name r) (rf_route_params r) (Some self)) ;;
   add_operation_from_route_function self x) w = Returns (u, w') ->
  draws_from ws w ->
  classes w' = classes w /\ draws_from ws w' /\ stamped self x ws w' /\
  forall z, stamped self z ws w -> stamped self z ws w'.
Proof.
  intros H [Huu Hle].
  apply bind_returns in H as (r & w0 & Hr & H).
  apply get_route_function_returns in Hr as [-> Hr].
  apply bind_returns in H as (u1 & w1 & Hput & H).
  apply put_route_function_returns in Hput. subst w1.
  unfold add_operation_from_route_function in H.
  apply bind_returns in H as (r1 & w1 & Hr1 & H).
  apply get_route_function_returns in Hr1 as [-> Hr1].
  simpl in Hr1.
  rewrite list_lookup_insert_eq in Hr1 by (eapply lookup_lt_Some; eassumption).
  injection Hr1 as <-. simpl in H.
  apply bind_returns in H as (uu & w2 & Hu & H).
  unfold uuid_uuid4 in Hu. injection Hu as <- <-.
  apply bind_returns in H as (u2 & w3 & Hput & H).
  apply put_route_function_returns in Hput. subst w3.
  apply bind_returns in H as (op & w4 & Hadd & H).
  apply ret_returns in H as [_ ->].
  pose proof (APIController_add_api_operation_keeps_uuid _ _ _ _ _ _ Hadd)
    as [Huu4 Hn4].
  apply APIController_add_api_operation_keeps in Hadd as [Hrf Hcs].
  simpl in Hrf, Hcs, Huu4, Hn4. rewrite list_insert_insert_eq in Hrf.
  assert (Hx : stamped self x ws w4).
  { unfold stamped. rewrite Hrf, Hn4.
    eexists. exists (uuid_calls w). split.
    - apply list_lookup_insert_eq. eapply lookup_lt_Some; eassumption.
    - split; [reflexivity|]. split; [lia|]. simpl. rewrite Huu. reflexivity. }
  split; [assumption|]. split; [split; [congruence | lia]|].
  split; [assumption|].
  intros z Hz. destruct (Nat.eq_dec z x) as [->|Hne]; [assumption|].
  destruct Hz as (rz & n & Hrz & Hself & Hn & Hid).
  exists rz, n. rewrite Hrf, Hn4.
  rewrite list_lookup_insert_ne by congruence.
  split; [assumption|]. split; [assumption|]. split; [lia | assumption].
Qed.

Lemma compute_api_route_function_stamps self base_cls ws w u w' :
  compute_api_route_function base_cls self w = Returns (u, w') ->
  draws_from ws w ->
  classes w' = classes w /\ draws_from ws w' /\
  (forall rf, rf ∈ declared_at (classes w) base_cls -> stamped self rf ws w') /\
  forall z, stamped self z ws w -> stamped self z ws w'.
Proof.
  unfold compute_api_route_function. intros H Hd.
  apply bind_returns in H as (rfs & w1 & Hrfs & H).
  unfold get_route_functions in Hrfs.
  apply bind_returns in Hrfs as (k & w2 & Hk & Hrfs).
  apply get_class_returns in Hk as [-> Hk].
  apply ret_returns in Hrfs as [-> ->].
  unfold declared_at. rewrite Hk. fold (declared k).
  assert (Hres : (classes w' = classes w /\ draws_from ws w') /\
                 (forall x, x ∈ declared k -> stamped self x ws w') /\
                 (forall z, stamped self z ws w -> stamped self z ws w')).
  { eapply (for_each_accumulates (fun z w0 => stamped self z ws w0)
              (fun x w0 => stamped self x ws w0)
              (fun w0 => classes w0 = classes w /\ draws_from ws w0));
      [| |split; [reflexivity|exact Hd]|exact H].
    - intros x w0 w0' Hx Hs. auto.
    - intros x w0 u0 w0' [Hinv Hd0] Hx.
      apply conversion_round_stamps with (ws := ws) in Hx
        as (Hcs & Hd1 & Hsx & Hs); [|exact Hd0].
      split; [split; [congruence|assumption]|]. auto. }
  destruct Hres as ((Hcs & Hd') & Hq & Hs). auto.
Qed.

Lemma conversion_loop_stamps self bases w u w' :
  conversion_loop self bases w = Returns (u, w') ->
  forall A rf, A ∈ bases -> skipped A = false ->
    rf ∈ declared_at (classes w) A -> stamped self rf w w'.
Proof.
  unfold conversion_loop. intros H.
  set (Q := fun (A : nat) (w0 : World) =>
              skipped A = false ->
              forall rf, rf ∈ declared_at (classes w) A -> stamped self rf w w0).
  assert (Hres : (classes w' = classes w /\ draws_from w w') /\
                 (forall x, x ∈ bases -> Q x w') /\
                 (forall z, stamped self z w w -> stamped self z w w')).
  { eapply (for_each_accumulates (fun z w0 => stamped self z w w0) Q
              (fun w0 => classes w0 = classes w /\ draws_from w w0));
      [| |split; [reflexivity|split; [reflexivity|lia]]|exact H].
    - intros x w0 w0' Hx Hs Hsk rf Hrf. auto.
    - intros x w0 u0 w0' [Hinv Hd0] Hx. cbv beta in Hx.
      change (bool_decide (x ∈ [ControllerBase; ABC; object_]))
        with (skipped x) in Hx.
      unfold Q. destruct (skipped x) eqn:E; simpl in Hx.
      + apply ret_returns in Hx as [_ ->]. split; [split; assumption|].
        split; [discriminate | auto].
      + apply compute_api_route_function_stamps with (ws := w) in Hx
          as (Hcs & Hd1 & Hd & Hs); [|exact Hd0].
        split; [split; [congruence|assumption]|]. split; [|assumption].
        intros _ rf Hrf. apply Hd. rewrite Hinv. assumption. }
  destruct Hres as (_ & HQ & _).
  intros A rf HA Hsk Hrf. eapply HQ; eassumption.
Qed.

Lemma substring_prefix_length (n : nat) (s : string) :
  n <= String.length s -> String.length (String.substring 0 n s) = n.
Proof.
  revert s. induction n as [|n IH]; intros [|c s] Hn; simpl in *;
    try reflexivity; try lia.
  rewrite IH by lia. reflexivity.
Qed.

(** When the decorator returns, every route function declared on a
    class of the finalized class's method resolution order, the three
    skipped classes apart, points back to the descriptor and carries a
    generated operation id: the first eight characters of a uuid drawn
    during the call, "_controller_" and the name of the wrapped
    function.  These are eight characters whenever the uuid has at
    least eight, as the text of a uuid has. *)
Theorem decoration_stamps_route_functions self cls w R w' kR A kA rf :
  APIController___call__ self cls w = Returns (R, w') ->
  classes w' !! R = Some kR ->
  A ∈ cls_mro kR -> skipped A = false ->
  classes w' !! A = Some kA -> rf ∈ declared kA ->
  stamped self rf w w' /\
  forall n, 8 <= String.length (uuid4 w n) ->
            String.length (String.substring 0 8 (uuid4 w n)) = 8.
Proof.
  intros Hcall HkR HA Hsk HkA Hrf.
  split; [|intros n; apply substring_prefix_length].
  apply APIController___call___steps in Hcall
    as (a0 & ai & kR0 & w3 & a3 & w4 & a4 & _ & _ & HkR0 & Hcs3 & _ & _
        & _ & _ & _ & _ & _ & _ & Hloop & _ & _ & Hrf' & _ & _ & Hu3 & Hu' & Huu3).
  rewrite HkR in HkR0. injection HkR0 as <-.
  assert (Hs : stamped self rf w3 w4).
  { eapply conversion_loop_stamps; [exact Hloop | exact HA | exact Hsk |].
    unfold declared_at. rewrite Hcs3, HkA. assumption. }
  unfold stamped in *. rewrite Hrf', Hu', <- Hu3, <- Huu3. assumption.
Qed.

(** [add_operation_from_route_function] draws one uuid and stamps the
    same operation id on the route function and on the operation it
    registers, which becomes the last operation of the route's path and
    has the route function's [as_view] as its view. *)
Theorem operation_id_shared self rf w u w' r :
  add_operation_from_route_function self rf w = Returns (u, w') ->
  route_functions w !! rf = Some r ->
  exists r' a' pv op,
    route_functions w' !! rf = Some r' /\
    controllers w' !! self = Some a' /\
    dict_get (rp_path (rf_route_params r)) (_path_operations a') = Some pv /\
    last (operations pv) = Some op /\
    op_view_func op = VAsView rf /\
    rp_operation_id (op_args op)
      = Some (String.substring 0 8 (uuid4 w (uuid_calls w))
                ++ "_controller_" ++ rf_view_func_name r) /\
    rp_operation_id (rf_route_params r') = rp_operation_id (op_args op) /\
    uuid_calls w' = S (uuid_calls w).
Proof.
  unfold add_operation_from_route_function. intros H Hr.
  apply bind_returns in H as (r0 & w0 & Hr0 & H).
  apply get_route_function_returns in Hr0 as [-> Hr0].
  rewrite Hr in Hr0. injection Hr0 as <-.
  apply bind_returns in H as (uu & w2 & Hu & H).
  unfold uuid_uuid4 in Hu. injection Hu as <- <-.
  apply bind_returns in H as (u2 & w3 & Hput & H).
  apply put_route_function_returns in Hput. subst w3.
  apply bind_returns in H as (op & w4 & Hadd & H).
  apply ret_returns in H as [_ ->].
  unfold APIController_add_api_operation in Hadd.
  apply bind_returns in Hadd as (a & w5 & Ha & Hadd).
  apply get_controller_returns in Ha as [-> Ha].
  rewrite add_api_operation_unfold in Hadd.
  apply bind_returns in Hadd as (u3 & w6 & Hput & Hadd).
  apply put_controller_returns in Hput. apply ret_returns in Hadd as [-> ->].
  subst w6. simpl in *.
  eexists. exists (snd (add_api_operation a (VAsView rf)
                          (with_operation_id
                             (Some (String.substring 0 8 (uuid4 w (uuid_calls w))
                                      ++ "_controller_" ++ rf_view_func_name r))
                             (rf_route_params r)))).
  rewrite add_api_operation_unfold. simpl. eexists. eexists.
  split; [apply list_lookup_insert_eq; eapply lookup_lt_Some; eassumption|].
  split; [apply list_lookup_insert_eq; eapply lookup_lt_Some; eassumption|].
  split; [apply dict_get_set_eq|].
  split; [apply last_snoc|]. repeat split.
Qed.

(** ** The bare decorator *)

Lemma wf_world_same_classes w w' :
  classes w' = classes w -> wf_world w -> wf_world w'.
Proof.
  intros Hcs [Hb Hh Hn Hbd Hs]. split; rewrite Hcs; assumption.
Qed.

Lemma get_api_controller_decorated self cls w R w' :
  wf_world w ->
  APIController___call__ self cls w = Returns (R, w') ->
  get_api_controller R w' = Returns (VController self, w').
Proof.
  intros Hwf Hcall.
  apply APIController___call___returns in Hcall
    as (a & kc & kR & a' & Ha & Hkc & HkR & _ & Hattr & Hfin & _).
  destruct (wf_mro_head w Hwf cls kc Hkc) as [tlc Htlc].
  assert (Hmro : exists tl, cls_mro kR = R :: tl).
  { destruct Hfin as [(_ & -> & -> & _)|(_ & _ & _ & _ & _ & _ & Hnew)].
    - simpl. eauto.
    - destruct Hnew as (kb & tl & _ & _ & ->). eauto. }
  destruct Hmro as (tl & Hmro).
  unfold get_api_controller, bind, class_getattr. rewrite HkR, Hmro. simpl.
  rewrite HkR. simpl. rewrite Hattr. reflexivity.
Qed.

(** ** What decoration leaves alone *)

Lemma for_each_preserves {A} (Inv : World -> Prop) (ok : A -> Prop)
    (body : A -> M unit) (xs : list A) :
  (forall x w u w', ok x -> Inv w -> body x w = Returns (u, w') -> Inv w') ->
  Forall ok xs ->
  forall w u w', Inv w -> for_each xs body w = Returns (u, w') -> Inv w'.
Proof.
  intros Hbody Hok. induction Hok as [|x xs Hx _ IH]; intros w u w' Hinv H;
    simpl in H.
  - apply ret_returns in H as [_ ->]. assumption.
  - apply bind_returns in H as (u1 & w1 & H1 & H). eauto.
Qed.

Lemma conversion_round_others self x w u w' :
  (do r <- get_route_function x;
   put_route_function x
     (mkRouteFunction (rf_view_func_name r) (rf_route_params r) (Some self)) ;;
   add_operation_from_route_function self x) w = Returns (u, w') ->
  classes w' = classes w /\
  (forall i, i <> self -> controllers w' !! i = controllers w !! i) /\
  (forall y, y <> x -> route_functions w' !! y = route_functions w !! y).
Proof.
  intros H.
  apply bind_returns in H as (r & w0 & Hr & H).
  apply get_route_function_returns in Hr as [-> Hr].
  apply bind_returns in H as (u1 & w1 & Hput & H).
  apply put_route_function_returns in Hput. subst w1.
  unfold add_operation_from_route_function in H.
  apply bind_returns in H as (r1 & w1 & Hr1 & H).
  apply get_route_function_returns in Hr1 as [-> Hr1].
  apply bind_returns in H as (uu & w2 & Hu & H).
  unfold uuid_uuid4 in Hu. injection Hu as <- <-.
  apply bind_returns in H as (u2 & w3 & Hput & H).
  apply put_route_function_returns in Hput. subst w3.
  apply bind_returns in H as (op & w4 & Hadd & H).
  apply ret_returns in H as [_ ->].
  unfold APIController_add_api_operation in Hadd.
  apply bind_returns in Hadd as (a & w5 & Ha & Hadd).
  apply get_controller_returns in Ha as [-> Ha].
  destruct (add_api_operation a _ _) as [operation a'].
  apply bind_returns in Hadd as (u3 & w6 & Hput & Hadd).
  apply put_controller_returns in Hput. apply ret_returns in Hadd as [_ ->].
  subst w6. simpl. split; [reflexivity|]. split.
  - intros i Hi. apply list_lookup_insert_ne. congruence.
  - intros y Hy. rewrite !list_lookup_insert_ne by congruence. reflexivity.
Qed.

Lemma compute_api_route_function_others self base_cls w u w' :
  compute_api_route_function base_cls self w = Returns (u, w') ->
  classes w' = classes w /\
  (forall i, i <> self -> controllers w' !! i = controllers w !! i) /\
  (forall y, y ∉ declared_at (classes w) base_cls ->
             route_functions w' !! y = route_functions w !! y).
Proof.
  unfold compute_api_route_function. intros H.
  apply bind_returns in H as (rfs & w1 & Hrfs & H).
  unfold get_route_functions in Hrfs.
  apply bind_returns in Hrfs as (k & w2 & Hk & Hrfs).
  apply get_class_returns in Hk as [-> Hk].
  apply ret_returns in Hrfs as [-> ->].
  unfold declared_at. rewrite Hk. fold (declared k).
  split; [|split].
  - eapply (for_each_preserves (fun w0 => classes w0 = classes w) (fun _ => True));
      [|apply Forall_forall; auto|reflexivity|exact H].
    intros x w0 u0 w0' _ Hinv Hx.
    apply conversion_round_others in Hx as (Hcs & _). congruence.
  - intros i Hi.
    eapply (for_each_preserves
              (fun w0 => controllers w0 !! i = controllers w !! i) (fun _ => True));
      [|apply Forall_forall; auto|reflexivity|exact H].
    intros x w0 u0 w0' _ Hinv Hx.
    apply conversion_round_others in Hx as (_ & Hc & _). rewrite Hc; assumption.
  - intros y Hy.
    eapply (for_each_preserves
              (fun w0 => route_functions w0 !! y = route_functions w !! y)
              (fun x => x <> y));
      [| |reflexivity|exact H].
    + intros x w0 u0 w0' Hxy Hinv Hx.
      apply conversion_round_others in Hx as (_ & _ & Hr).
      rewrite Hr; [assumption | congruence].
    + apply Forall_forall. intros x Hx ->. contradiction.
Qed.

Lemma conversion_loop_others self bases w u w' :
  conversion_loop self bases w = Returns (u, w') ->
  (forall i, i <> self -> controllers w' !! i = controllers w !! i) /\
  (forall y, (forall A, A ∈ bases -> skipped A = false ->
                        y ∉ declared_at (classes w) A) ->
             route_functions w' !! y = route_functions w !! y).
Proof.
  unfold conversion_loop. intros H.
  assert (Hstep : forall x w0 u0 w0',
            when (negb (bool_decide (x ∈ [ControllerBase; ABC; object_])))
              (compute_api_route_function x self) w0 = Returns (u0, w0') ->
            classes w0' = classes w0 /\
            (forall i, i <> self -> controllers w0' !! i = controllers w0 !! i) /\
            (forall y, (skipped x = false -> y ∉ declared_at (classes w0) x) ->
                       route_functions w0' !! y = route_functions w0 !! y)).
  { intros x w0 u0 w0' Hx.
    change (bool_decide (x ∈ [ControllerBase; ABC; object_])) with (skipped x) in Hx.
    destruct (skipped x); simpl in Hx.
    - apply ret_returns in Hx as [_ ->]. auto.
    - apply compute_api_route_function_others in Hx as (Hcs & Hc & Hr).
      split; [assumption|]. split; [assumption|]. intros y Hy. auto. }
  split.
  - intros i Hi.
    eapply (for_each_preserves
              (fun w0 => controllers w0 !! i = controllers w !! i) (fun _ => True));
      [|apply Forall_forall; auto|reflexivity|exact H].
    intros x w0 u0 w0' _ Hinv Hx. cbv beta in Hx.
    apply Hstep in Hx as (_ & Hc & _). rewrite Hc; assumption.
  - intros y Hy.
    eapply (for_each_preserves
              (fun w0 => classes w0 = classes w /\
                         route_functions w0 !! y = route_functions w !! y)
              (fun A => skipped A = false -> y ∉ declared_at (classes w) A));
      [| |split; reflexivity|exact H].
    + intros x w0 u0 w0' Hok [Hcs Hinv] Hx. cbv beta in Hx.
      apply Hstep in Hx as (Hcs' & _ & Hr). split; [congruence|].
      rewrite Hr; [assumption|]. rewrite Hcs. assumption.
    + apply Forall_forall. intros A HA. apply Hy. assumption.
Qed.

Lemma APIController___call___others self cls w R w' :
  APIController___call__ self cls w = Returns (R, w') ->
  forall i, i <> self -> controllers w' !! i = controllers w !! i.
Proof.
  intros Hcall i Hi.
  apply APIController___call___steps in Hcall
    as (a0 & ai & kR & w3 & a3 & w4 & a4 & _ & _ & _ & _ & _ & _
        & _ & _ & _ & _ & _ & _ & Hloop & _ & _ & _ & Ho3 & Ho' & _).
  apply conversion_loop_others in Hloop as [Hc _].
  rewrite (Ho' i Hi), (Hc i Hi). auto.
Qed.

(** The decorator changes no descriptor but its own, and no route
    function but those declared on the classes it walks: a route
    function that no class of the finalized class's method resolution
    order declares, the three skipped classes apart, is as it was. *)
Theorem decoration_frame self cls w R w' kR :
  APIController___call__ self cls w = Returns (R, w') ->
  classes w' !! R = Some kR ->
  (forall i, i <> self -> controllers w' !! i = controllers w !! i) /\
  (forall y, (forall A, A ∈ cls_mro kR -> skipped A = false ->
                        y ∉ declared_at (classes w') A) ->
             route_functions w' !! y = route_functions w !! y).
Proof.
  intros Hcall HkR. split.
  - eapply APIController___call___others. exact Hcall.
  - intros y Hy.
    apply APIController___call___steps in Hcall
      as (a0 & ai & kR0 & w3 & a3 & w4 & a4 & _ & _ & HkR0 & Hcs3 & Hrf3 & _
          & _ & _ & _ & _ & _ & _ & Hloop & _ & _ & Hrf' & _).
    rewrite HkR in HkR0. injection HkR0 as <-.
    apply conversion_loop_others in Hloop as [_ Hr].
    rewrite Hrf', Hr, Hrf3; [reflexivity|]. rewrite Hcs3. assumption.
Qed.

(** ** The bare decorator *)

(** Used bare on a class, [api_controller] makes a descriptor with the
    empty prefix and the given auth at the next free address, leaves the
    descriptors that existed alone, and returns the finalized class:
    that class's [get_api_controller] is the new descriptor and the new
    descriptor's class is that class. *)
Theorem api_controller_bare cls auth0 tags permissions auto_import w v w' :
  wf_world w ->
  api_controller (AsClass cls) auth0 tags permissions auto_import w
    = Returns (v, w') ->
  exists R a',
    v = VClass R /\
    get_api_controller R w' = Returns (VController (length (controllers w)), w') /\
    controllers w' !! length (controllers w) = Some a' /\
    prefix a' = "" /\ auth a' = auth0 /\
    controller_class a' = Some R /\
    forall i, i < length (controllers w) ->
      controllers w' !! i = controllers w !! i.
Proof.
  unfold api_controller. intros Hwf H.
  apply bind_returns in H as (self & w1 & Hnew & H).
  apply bind_returns in H as (R & w2 & Hcall & H).
  apply ret_returns in H as [-> ->].
  unfold APIController_new in Hnew. injection Hnew as <- <-.
  match type of Hcall with APIController___call__ _ _ ?w0 = _ => set (w1 := w0) in * end.
  assert (Hwf1 : wf_world w1) by (eapply wf_world_same_classes; [|exact Hwf]; reflexivity).
  assert (Ha : controllers w1 !! length (controllers w)
               = Some (APIController___init__ "" auth0 tags permissions auto_import))
    by (simpl; apply list_lookup_middle; reflexivity).
  destruct (APIController___call___config _ _ _ _ _ _ Hcall Ha)
    as (a' & Ha' & Hp & Hau & _ & _ & Hcc & _).
  exists R, a'. split; [reflexivity|].
  split; [eapply get_api_controller_decorated; eassumption|].
  split; [assumption|]. split; [assumption|]. split; [assumption|].
  split; [assumption|].
  intros i Hi.
  rewrite (APIController___call___others _ _ _ _ _ Hcall i) by lia.
  simpl. apply lookup_app_l. assumption.
Qed.

(** ** More on registration and binding *)

Lemma all_operations_dict_set (p : string) (op : Operation) (d : Dict PathView) :
  let old := default PathView_new (dict_get p d) in
  exists l1 l2,
    flat_map (fun kv => operations (snd kv)) d = (l1 ++ l2)%list /\
    flat_map (fun kv => operations (snd kv))
      (dict_set p (mkPathView (operations old ++ [op]) (pv_api old)) d)
      = (l1 ++ op :: l2)%list.
Proof.
  induction d as [|[k v] d IH]; simpl.
  - exists [], []. split; reflexivity.
  - destruct (String.eqb p k); simpl.
    + exists (operations v), (flat_map (fun kv => operations (snd kv)) d).
      split; [reflexivity|]. rewrite <- app_assoc. reflexivity.
    + destruct IH as (l1 & l2 & H1 & H2). simpl in H2.
      exists (operations v ++ l1)%list, l2.
      rewrite H1, H2, !app_assoc. split; reflexivity.
Qed.

(** [add_api_operation] puts the new operation among the operations of
    the controller without dropping, changing or reordering any of the
    others, so that the controller has one operation more, whether the
    path was new or not. *)
Theorem add_api_operation_inserts (self : APIController) view_func args :
  let operation := fst (add_api_operation self view_func args) in
  let self' := snd (add_api_operation self view_func args) in
  op_view_func operation = view_func /\
  (exists l1 l2, all_operations self = (l1 ++ l2)%list /\
                 all_operations self' = (l1 ++ operation :: l2)%list) /\
  length (all_operations self') = S (length (all_operations self)).
Proof.
  rewrite add_api_operation_unfold. simpl. split; [reflexivity|].
  unfold all_operations. simpl.
  destruct (all_operations_dict_set (rp_path args)
              (mkOperation view_func
                 (with_auth (py_or (rp_auth args) (auth self)) args) VNone)
              (_path_operations self)) as (l1 & l2 & H1 & H2).
  simpl in H2. split; [eauto|].
  rewrite H1, H2, !length_app. simpl. lia.
Qed.

Lemma dict_get_set_other {V} (k q : string) (v : V) (d : Dict V) :
  String.eqb q k = false -> dict_get q (dict_set k v d) = dict_get q d.
Proof. intros H. rewrite dict_get_set, H. reflexivity. Qed.

(** Whatever the framework resolves the arguments of an operation to,
    [set_api_instance] registers and removes nothing: the descriptor
    keeps its configuration and its paths, in their order, and its
    operations keep their view and their order, so the controller
    yields the same routes; no route function and no other descriptor
    changes, and no attribute of the controller class but [api], which
    is the application afterwards. *)
Theorem set_api_instance_frame resolve self api w u w' a mount :
  APIController_set_api_instance resolve self api w = Returns (u, w') ->
  controllers w !! self = Some a ->
  exists a' c,
    controllers w' !! self = Some a' /\ controller_class a = Some c /\
    same_config a a' /\
    dict_keys (_path_operations a') = dict_keys (_path_operations a) /\
    map op_view_func (all_operations a') = map op_view_func (all_operations a) /\
    map up_route (urls_paths a' mount) = map up_route (urls_paths a mount) /\
    route_functions w' = route_functions w /\
    (forall i, i <> self -> controllers w' !! i = controllers w !! i) /\
    class_attr w' c "api" = Some api /\
    (forall name, String.eqb name "api" = false ->
                  class_attr w' c name = class_attr w c name).
Proof.
  intros H Ha.
  apply set_api_instance_returns in H as (a0 & c & k & Ha0 & Hc & Hk & ->).
  rewrite Ha in Ha0. injection Ha0 as <-.
  pose proof (lookup_lt_Some _ _ _ Ha) as Hlt.
  pose proof (lookup_lt_Some _ _ _ Hk) as Hltc.
  eexists. exists c. simpl.
  split; [apply list_lookup_insert_eq; assumption|].
  split; [assumption|].
  split; [repeat split|].
  split; [|split; [|split; [|split; [reflexivity|split; [|split]]]]].
  - unfold dict_keys. simpl. rewrite map_map. reflexivity.
  - unfold all_operations. simpl.
    induction (_path_operations a) as [|[p pv] d IH]; simpl; [reflexivity|].
    rewrite !map_app, IH, map_map. reflexivity.
  - unfold urls_paths. simpl.
    induction (_path_operations a) as [|[p pv] d IH]; simpl; [reflexivity|].
    rewrite !map_app, IH, !map_map. reflexivity.
  - intros i Hi. apply list_lookup_insert_ne. congruence.
  - unfold class_attr. simpl.
    rewrite list_lookup_insert_eq by assumption. simpl.
    apply dict_get_set_eq.
  - intros name Hname. unfold class_attr. simpl.
    rewrite list_lookup_insert_eq by assumption. rewrite Hk. simpl.
    apply dict_get_set_other. assumption.
Qed.

(** [urls_paths] yields one pattern for each operation of the
    controller, in order, named by the operation's [url_name]; the view
    of a pattern is the PathView stored under a path of the controller,
    and its route is the route of that path. *)
Theorem urls_paths_patterns (self : APIController) (mount : string) :
  length (urls_paths self mount) = length (all_operations self) /\
  map up_name (urls_paths self mount)
    = map (fun op => rp_url_name (op_args op)) (all_operations self) /\
  Forall (fun pat => exists path,
            (path, up_view pat) ∈ _path_operations self /\
            up_route pat = url_route mount path)
    (urls_paths self mount).
Proof.
  unfold urls_paths, all_operations.
  induction (_path_operations self) as [|[p pv] d (IH1 & IH2 & IH3)]; simpl.
  - repeat split. constructor.
  - rewrite !length_app, length_map, !map_app, map_map, IH1, IH2.
    split; [reflexivity|]. split; [reflexivity|].
    apply Forall_app. split.
    + apply Forall_map, Forall_forall. intros op _. simpl.
      exists p. split; [apply list_elem_of_here | reflexivity].
    + eapply Forall_impl; [exact IH3|]. simpl.
      intros pat (path & Hin & Hr). exists path.
      split; [apply list_elem_of_further; assumption | assumption].
Qed.

(** ** More on routes and tags *)

Lemma string_app_assoc (a b c : string) : ((a ++ b) ++ c = a ++ (b ++ c))%string.
Proof. induction a as [|x a IH]; simpl; [reflexivity|]. rewrite IH. reflexivity. Qed.

Lemma startswith_slash_app (a b c : string) :
  PyStr.startswith "/" (a ++ String "/" b) = PyStr.startswith "/" (a ++ String "/" c).
Proof.
  destruct a as [|x a]; simpl String.append;
    rewrite !startswith_cons, !startswith_empty; reflexivity.
Qed.

Lemma collapse_app_double (a b : string) :
  collapse_separators (a ++ String "/" (String "/" b))
    = collapse_separators (a ++ String "/" b).
Proof.
  induction a as [|x a IH]; simpl String.append.
  - rewrite (collapse_separators_cons "/" (String "/" b)).
    rewrite startswith_cons, startswith_empty. reflexivity.
  - rewrite !(collapse_separators_cons x), IH.
    rewrite (startswith_slash_app a (String "/" b) b). reflexivity.
Qed.

Lemma strip_collapse_slash (t : string) :
  t <> EmptyString ->
  strip_leading_separator (collapse_separators (String "/" t))
    = strip_leading_separator (collapse_separators t).
Proof.
  intros Ht. destruct t as [|c t]; [contradiction|].
  rewrite (collapse_separators_cons "/"), startswith_cons, startswith_empty.
  rewrite andb_true_r. simpl andb.
  destruct (Ascii.eqb c "/") eqn:E; [reflexivity|].
  rewrite (collapse_separators_cons c), E. simpl. rewrite E. reflexivity.
Qed.

Lemma translate_params_nonempty (path : string) :
  path <> EmptyString -> translate_params path <> EmptyString.
Proof. destruct path; [contradiction | discriminate]. Qed.

(** For a path that is not empty, separators at the seam between prefix
    and path do not matter: a path written with or without a leading
    separator, under a prefix written with or without a trailing
    separator, gets the same route. *)
Theorem url_route_seam (prefix path : string) :
  path <> EmptyString ->
  url_route prefix (String "/" path) = url_route prefix path /\
  url_route (prefix ++ "/") path = url_route prefix path.
Proof.
  intros Hpath. rewrite !url_route_spec. unfold spec_route.
  pose proof (translate_params_nonempty path Hpath) as Ht.
  change (translate_params (String "/" path))
    with (String "/" (translate_params path)).
  destruct (translate_params path) as [|c t] eqn:Et; [contradiction|].
  split.
  - destruct prefix as [|x p].
    + change (join_prefix "" (String "/" (String c t)))
        with (String "/" (String c t)).
      change (join_prefix "" (String c t)) with (String c t).
      apply strip_collapse_slash. discriminate.
    + change (join_prefix (String x p) (String "/" (String c t)))
        with (String x p ++ String "/" (String "/" (String c t)))%string.
      change (join_prefix (String x p) (String c t))
        with (String x p ++ String "/" (String c t))%string.
      rewrite collapse_app_double. reflexivity.
  - destruct prefix as [|x p].
    + change (join_prefix ("" ++ "/") (String c t))
        with (String "/" (String "/" (String c t))).
      change (join_prefix "" (String c t)) with (String c t).
      rewrite (collapse_separators_cons "/" (String "/" (String c t))).
      rewrite startswith_cons, startswith_empty. simpl andb.
      apply strip_collapse_slash. discriminate.
    + change (join_prefix (String x p ++ "/") (String c t))
        with ((String x p ++ "/") ++ String "/" (String c t))%string.
      change (join_prefix (String x p) (String c t))
        with (String x p ++ String "/" (String c t))%string.
      rewrite string_app_assoc.
      change ("/" ++ String "/" (String c t))%string
        with (String "/" (String "/" (String c t))).
      rewrite collapse_app_double. reflexivity.
Qed.

Lemma replace_scan_absent (old new s : string) :
  PyStr.contains old s = false -> PyStr.replace_scan old new 0 s = s.
Proof.
  induction s as [|c s IH]; [reflexivity|].
  change (PyStr.contains old (String c s))
    with (PyStr.startswith old (String c s) || PyStr.contains old s).
  intros H. apply orb_false_elim in H as [H1 H2].
  rewrite replace_scan_cons, H1, IH by assumption. reflexivity.
Qed.

Lemma lower_char_idempotent (c : ascii) :
  PyStr.lower_char (PyStr.lower_char c) = PyStr.lower_char c.
Proof.
  unfold PyStr.lower_char.
  destruct ((65 <=? nat_of_ascii c)%nat && (nat_of_ascii c <=? 90)%nat) eqn:E;
    [|rewrite E; reflexivity].
  apply andb_prop in E as [E1 E2].
  apply Nat.leb_le in E1, E2.
  rewrite nat_ascii_embedding by lia.
  destruct ((65 <=? nat_of_ascii c + 32)%nat && (nat_of_ascii c + 32 <=? 90)%nat)
    eqn:E'; [|reflexivity].
  apply andb_prop in E' as [_ E']. apply Nat.leb_le in E'. lia.
Qed.

(** The default tag of a class whose lowercased name does not contain
    "controller" is the lowercased name itself, and lowercasing a
    lowercased name changes nothing. *)
Theorem default_tag_without_controller (name : string) :
  PyStr.lower (PyStr.lower name) = PyStr.lower name /\
  (PyStr.contains "controller" (PyStr.lower name) = false ->
   default_tag name = PyStr.lower name).
Proof.
  split.
  - induction name as [|c s IH]; simpl; [reflexivity|].
    rewrite lower_char_idempotent, IH. reflexivity.
  - intros H. unfold default_tag, PyStr.replace. apply replace_scan_absent.
    assumption.
Qed.

(** ** How many operations decoration registers *)

Lemma add_api_operation_length (a : APIController) view_func args :
  length (all_operations (snd (add_api_operation a view_func args)))
    = S (length (all_operations a)).
Proof.
  rewrite add_api_operation_unfold. unfold all_operations. simpl.
  match goal with |- context [dict_set ?p (mkPathView (_ ++ [?o]) _) ?d] =>
    destruct (all_operations_dict_set p o d) as (l1 & l2 & H1 & H2) end.
  simpl in H2. rewrite H1, H2, !length_app. simpl. lia.
Qed.

Lemma counts_refl self w : counts self 0 w w.
Proof.
  split; [reflexivity|]. split; [lia|]. intros a Ha. exists a. split; [assumption|lia].
Qed.

Lemma counts_trans self n m w1 w2 w3 :
  counts self n w1 w2 -> counts self m w2 w3 -> counts self (n + m) w1 w3.
Proof.
  intros (Hc1 & Hu1 & H1) (Hc2 & Hu2 & H2).
  split; [congruence|]. split; [lia|].
  intros a Ha. destruct (H1 a Ha) as (a' & Ha' & Hn).
  destruct (H2 a' Ha') as (a'' & Ha'' & Hm).
  exists a''. split; [assumption | lia].
Qed.

Lemma conversion_round_counts self x w u w' :
  (do r <- get_route_function x;
   put_route_function x
     (mkRouteFunction (rf_view_func_name r) (rf_route_params r) (Some self)) ;;
   add_operation_from_route_function self x) w = Returns (u, w') ->
  counts self 1 w w'.
Proof.
  intros H.
  apply bind_returns in H as (r & w0 & Hr & H).
  apply get_route_function_returns in Hr as [-> Hr].
  apply bind_returns in H as (u1 & w1 & Hput & H).
  apply put_route_function_returns in Hput. subst w1.
  unfold add_operation_from_route_function in H.
  apply bind_returns in H as (r1 & w1 & Hr1 & H).
  apply get_route_function_returns in Hr1 as [-> Hr1].
  apply bind_returns in H as (uu & w2 & Hu & H).
  unfold uuid_uuid4 in Hu. injection Hu as <- <-.
  apply bind_returns in H as (u2 & w3 & Hput & H).
  apply put_route_function_returns in Hput. subst w3.
  apply bind_returns in H as (op & w4 & Hadd & H).
  apply ret_returns in H as [_ ->].
  unfold APIController_add_api_operation in Hadd.
  apply bind_returns in Hadd as (a & w5 & Ha & Hadd).
  apply get_controller_returns in Ha as [-> Ha].
  match type of Hadd with context [add_api_operation a ?v ?g] =>
    pose proof (add_api_operation_length a v g) as Hlen end.
  destruct (add_api_operation a _ _) as [operation a'].
  apply bind_returns in Hadd as (u3 & w6 & Hput & Hadd).
  apply put_controller_returns in Hput. apply ret_returns in Hadd as [_ ->].
  subst w6. simpl in *. split; [reflexivity|]. split; [simpl; lia|].
  intros a0 Ha0. rewrite Ha in Ha0. injection Ha0 as <-.
  exists a'. split; [|lia].
  apply list_lookup_insert_eq. eapply lookup_lt_Some. eassumption.
Qed.

Lemma for_each_counts {A} self (cs : list PyClass) (g : A -> nat)
    (body : A -> M unit) (xs : list A) :
  (forall x w u w', classes w = cs -> body x w = Returns (u, w') ->
                    counts self (g x) w w') ->
  forall w u w', classes w = cs -> for_each xs body w = Returns (u, w') ->
                 counts self (list_sum (map g xs)) w w'.
Proof.
  intros Hbody. induction xs as [|x xs IH]; intros w u w' Hcs H; simpl in *.
  - apply ret_returns in H as [_ ->]. apply counts_refl.
  - apply bind_returns in H as (u1 & w1 & Hx & H).
    pose proof (Hbody _ _ _ _ Hcs Hx) as Hg.
    eapply counts_trans; [exact Hg|].
    eapply IH; [|exact H]. destruct Hg as [-> _]. assumption.
Qed.

Lemma list_sum_ones {A} (l : list A) : list_sum (map (fun _ => 1) l) = length l.
Proof. induction l; simpl; congruence. Qed.

Lemma list_sum_flat_map {A B} (f : A -> list B) (l : list A) :
  list_sum (map (fun x => length (f x)) l) = length (flat_map f l).
Proof.
  induction l as [|x l IH]; simpl; [reflexivity|].
  rewrite length_app, IH. reflexivity.
Qed.

Lemma compute_api_route_function_counts self base_cls w u w' :
  compute_api_route_function base_cls self w = Returns (u, w') ->
  counts self (length (declared_at (classes w) base_cls)) w w'.
Proof.
  unfold compute_api_route_function. intros H.
  apply bind_returns in H as (rfs & w1 & Hrfs & H).
  unfold get_route_functions in Hrfs.
  apply bind_returns in Hrfs as (k & w2 & Hk & Hrfs).
  apply get_class_returns in Hk as [-> Hk].
  apply ret_returns in Hrfs as [-> ->].
  unfold declared_at. rewrite Hk. fold (declared k).
  rewrite <- (list_sum_ones (declared k)).
  eapply (for_each_counts self (classes w) (fun _ => 1)); [|reflexivity|exact H].
  intros x w0 u0 w0' _ Hx. apply conversion_round_counts in Hx. assumption.
Qed.

Lemma conversion_loop_counts self bases w u w' :
  conversion_loop self bases w = Returns (u, w') ->
  counts self
    (length (flat_map (declared_at (classes w))
               (List.filter (fun c => negb (skipped c)) bases))) w w'.
Proof.
  unfold conversion_loop. intros H.
  rewrite <- flat_map_filter_skipped, <- list_sum_flat_map.
  eapply (for_each_counts self (classes w)); [|reflexivity|exact H].
  intros x w0 u0 w0' Hcs Hx. cbv beta in Hx.
  change (bool_decide (x ∈ [ControllerBase; ABC; object_])) with (skipped x) in Hx.
  destruct (skipped x); simpl in *.
  - apply ret_returns in Hx as [_ ->]. apply counts_refl.
  - rewrite <- Hcs. eapply compute_api_route_function_counts. exact Hx.
Qed.

(** The decorator registers exactly one operation, and draws exactly
    one uuid, for every route function slot of the classes it walks:
    with N slots on the finalized class's method resolution order, the
    three skipped classes apart, the controller has N operations more. *)
Theorem decoration_registers_one_operation_per_slot self cls w R w' a kR :
  APIController___call__ self cls w = Returns (R, w') ->
  controllers w !! self = Some a ->
  classes w' !! R = Some kR ->
  let slots :=
    flat_map (declared_at (classes w'))
      (List.filter (fun c => negb (skipped c)) (cls_mro kR)) in
  exists a',
    controllers w' !! self = Some a' /\
    length (all_operations a') = length (all_operations a) + length slots /\
    length (urls_paths a' "") = length (all_operations a) + length slots /\
    uuid_calls w' = uuid_calls w + length slots.
Proof.
  intros Hcall Ha HkR slots.
  apply APIController___call___steps in Hcall
    as (a0 & ai & kR0 & w3 & a3 & w4 & a4 & Ha0 & _ & HkR0 & Hcs3 & _ & Ha3
        & Hops3 & _ & _ & _ & _ & _ & Hloop & Ha4 & Ha' & _ & _ & _ & Hu3 & Hu' & _).
  rewrite Ha in Ha0. injection Ha0 as <-.
  rewrite HkR in HkR0. injection HkR0 as <-.
  apply conversion_loop_counts in Hloop as (_ & Hu & Hn).
  destruct (Hn a3 Ha3) as (a4' & Ha4' & Hlen).
  rewrite Ha4 in Ha4'. injection Ha4' as <-.
  rewrite Hcs3 in Hu, Hlen. fold slots in Hu, Hlen.
  assert (Hops : length (all_operations a3) = length (all_operations a))
    by (unfold all_operations; rewrite Hops3; reflexivity).
  exists (set_controller_class (Some R) a4).
  split; [assumption|].
  assert (Hall : length (all_operations (set_controller_class (Some R) a4))
                 = length (all_operations a) + length slots)
    by (change (all_operations (set_controller_class (Some R) a4))
          with (all_operations a4); lia).
  split; [assumption|]. split; [|lia].
  rewrite <- Hall. unfold urls_paths, all_operations. simpl.
  induction (_path_operations a4) as [|[p pv] d IH]; simpl; [reflexivity|].
  rewrite !length_app, length_map, IH. reflexivity.
Qed.

(** ** The further properties at work on the examples *)

Lemma check_permissions_stops_at_refusal_witness :
  Permissions.check_permissions
    (example_controller [example_allows; example_denies; example_allows])
  = ([Permissions.Instantiated example_allows;
      Permissions.HasPermission example_allows 7;
      Permissions.Instantiated example_denies;
      Permissions.HasPermission example_denies 7],
     Raises (PermissionDenied (Some "not allowed"))).
Proof.
  apply (check_permissions_stops_at_refusal
           (example_controller [example_allows; example_denies; example_allows])
           (example_context [example_allows; example_denies; example_allows])
           7 [example_allows] example_denies [example_allows]);
    try reflexivity.
  repeat constructor.
Defined.

Lemma check_object_permissions_stops_at_refusal_witness :
  Permissions.check_object_permissions
    (example_controller [example_allows; example_denies; example_allows]) 5
  = ([Permissions.Instantiated example_allows;
      Permissions.HasObjectPermission example_allows 7 5;
      Permissions.Instantiated example_denies;
      Permissions.HasObjectPermission example_denies 7 5],
     Raises (PermissionDenied (Some "not allowed"))).
Proof.
  apply (check_object_permissions_stops_at_refusal
           (example_controller [example_allows; example_denies; example_allows])
           (example_context [example_allows; example_denies; example_allows])
           7 5 [example_allows] example_denies [example_allows]);
    try reflexivity.
  repeat constructor.
Defined.

Lemma checks_pass_when_all_agree_witness :
  Permissions.check_permissions (example_controller [example_allows; example_allows])
  = ([Permissions.Instantiated example_allows;
      Permissions.HasPermission example_allows 7;
      Permissions.Instantiated example_allows;
      Permissions.HasPermission example_allows 7],
     Returns tt).
Proof.
  apply (proj1 (checks_pass_when_all_agree
                  (example_controller [example_allows; example_allows])
                  (example_context [example_allows; example_allows])
                  7 5 eq_refl eq_refl)).
  repeat constructor.
Defined.

Lemma get_object_or_exception_checks_found_object_witness :
  example_fetch 0 = Raises KeyError /\
  Permissions.get_object_or_exception example_fetch
    (example_controller [example_denies]) 0 = ([], Raises KeyError) /\
  example_fetch 5 = Returns 5 /\
  Permissions.get_object_or_exception example_fetch
    (example_controller [example_allows]) 5
    = ([Permissions.Instantiated example_allows;
        Permissions.HasObjectPermission example_allows 7 5],
       Returns 5).
Proof.
  split; [reflexivity|]. split.
  { apply (proj1 (get_object_or_exception_checks_found_object example_fetch
                    (example_controller [example_denies]) 0)).
    reflexivity. }
  split; [reflexivity|].
  apply (proj1 (proj2 (get_object_or_exception_checks_found_object example_fetch
                         (example_controller [example_allows]) 5)));
    reflexivity.
Defined.

Lemma decoration_keeps_configuration_witness :
  exists a',
    controllers (state_after (APIController___call__ 1 6) example_crowded) !! 1
      = Some a' /\
    prefix a' = "other" /\ auth a' = VObj 7 /\
    permission_classes a' = VList [AllowAny] /\
    registered a' = false /\
    (truthy (VList [VStr "misc"]) = true -> _tags a' = VList [VStr "misc"]) /\
    class_getattr_default 6 "auto_import" VNone example_crowded
      = Returns (auto_import a', example_crowded).
Proof.
  apply (decoration_keeps_configuration 1 6 example_crowded 6
           (state_after (APIController___call__ 1 6) example_crowded)
           (APIController___init__ "other" (VObj 7) (VStr "misc") VNone VNone)).
  - vm_compute. reflexivity.
  - vm_compute. reflexivity.
Defined.

Lemma build_routers_after_decoration_witness :
  build_routers 0 (example_decorated [ControllerBase] "WidgetController")
    = Returns ([("shop", 0)], example_decorated [ControllerBase] "WidgetController").
Proof.
  apply (build_routers_after_decoration 0 6
           (example_declared [ControllerBase] "WidgetController") 6
           (example_decorated [ControllerBase] "WidgetController")
           (APIController___init__ "shop" VNotSet VNone VNone (VBool true))).
  - vm_compute. reflexivity.
  - vm_compute. reflexivity.
Defined.

Lemma descriptor_prints_class_name_witness :
  APIController___str__ 0 (example_decorated [] "WidgetController")
    = Returns ("WidgetController", example_decorated [] "WidgetController").
Proof.
  apply (descriptor_prints_class_name 0 6
           (example_declared [] "WidgetController") 7
           (example_decorated [] "WidgetController")
           (mkPyClass "WidgetController" [4; 5] [6; 4; 5; 3; 0] [])).
  - vm_compute. reflexivity.
  - vm_compute. reflexivity.
Defined.

Lemma undecorated_descriptor_raises_witness :
  exists self,
    VController 1 = VController self /\
    APIController___str__ self
      (state_after (api_controller (AsPrefix "shop") VNotSet VNone VNone (VBool true))
         example_start) = Raises AttributeError /\
    APIController___repr__ self
      (state_after (api_controller (AsPrefix "shop") VNotSet VNone VNone (VBool true))
         example_start) = Raises AttributeError /\
    APIController_set_api_instance example_resolve self (VObj 100)
      (state_after (api_controller (AsPrefix "shop") VNotSet VNone VNone (VBool true))
         example_start) = Raises AttributeError /\
    build_routers self
      (state_after (api_controller (AsPrefix "shop") VNotSet VNone VNone (VBool true))
         example_start)
    = Returns ([("shop", self)],
               state_after (api_controller (AsPrefix "shop") VNotSet VNone VNone
                              (VBool true)) example_start).
Proof.
  apply (undecorated_descriptor_raises example_resolve "shop" VNotSet VNone VNone
           (VBool true)
           (VObj 100) example_start).
  vm_compute. reflexivity.
Defined.

Lemma tags_setter_normalises_witness :
  tags_setter (VStr "shop") = VList [VStr "shop"] /\
  is_str (VStr "") && truthy (VStr "") = false /\
  tags_setter (VStr "") = VStr "" /\
  tags_setter (tags_setter (VStr "")) = tags_setter (VStr "") /\
  _tags (APIController___init__ "shop" VNotSet (VStr "") VNone (VBool true))
    = tags_setter (VStr "").
Proof.
  destruct (tags_setter_normalises (VStr "") "s"%char "hop" "shop" VNotSet VNone
              (VBool true)) as (H1 & H2 & _ & H4 & H5).
  split; [exact H1|]. split; [reflexivity|].
  split; [apply H2; reflexivity|]. split; [exact H4|exact H5].
Defined.

Lemma subclass_needs_its_own_decorator_witness :
  get_api_controller 6 (example_decorated [ControllerBase] "WidgetController")
    = Returns (VController 0, example_decorated [ControllerBase] "WidgetController") /\
  get_api_controller 7 example_subclassed
    = Raises MissingAPIControllerDecoratorException.
Proof.
  split; [vm_compute; reflexivity|].
  unshelve eapply (subclass_needs_its_own_decorator "SpecialWidgetController" [6] []
           (example_decorated [ControllerBase] "WidgetController") 7
           example_subclassed 6 _).
  all: try (vm_compute; reflexivity).
  all: apply (bool_decide_unpack _); vm_compute; exact I.
Defined.

Lemma decoration_stamps_route_functions_witness :
  stamped 0 0 (example_declared [ControllerBase] "WidgetController")
    (example_decorated [ControllerBase] "WidgetController") /\
  stamped 0 1 (example_declared [ControllerBase] "WidgetController")
    (example_decorated [ControllerBase] "WidgetController") /\
  String.length
    (String.substring 0 8
       (uuid4 (example_declared [ControllerBase] "WidgetController") 0)) = 8.
Proof.
  split; [|split].
  - unshelve eapply (proj1 (decoration_stamps_route_functions 0 6
             (example_declared [ControllerBase] "WidgetController") 6
             (example_decorated [ControllerBase] "WidgetController") _ 3 _ 0
             _ _ _ _ _ _)).
    all: try (vm_compute; reflexivity).
    all: apply (bool_decide_unpack _); vm_compute; exact I.
  - unshelve eapply (proj1 (decoration_stamps_route_functions 0 6
             (example_declared [ControllerBase] "WidgetController") 6
             (example_decorated [ControllerBase] "WidgetController") _ 5 _ 1
             _ _ _ _ _ _)).
    all: try (vm_compute; reflexivity).
    all: apply (bool_decide_unpack _); vm_compute; exact I.
  - unshelve eapply (proj2 (decoration_stamps_route_functions 0 6
             (example_declared [ControllerBase] "WidgetController") 6
             (example_decorated [ControllerBase] "WidgetController") _ 3 _ 0
             _ _ _ _ _ _) 0 _).
    all: try (vm_compute; reflexivity).
    all: apply (bool_decide_unpack _); vm_compute; exact I.
Defined.

Lemma operation_id_shared_witness :
  exists r' a' pv op,
    route_functions
      (state_after (add_operation_from_route_function 0 1) example_start) !! 1
      = Some r' /\
    controllers
      (state_after (add_operation_from_route_function 0 1) example_start) !! 0
      = Some a' /\
    dict_get "/items/{item_id}" (_path_operations a') = Some pv /\
    last (operations pv) = Some op /\
    op_view_func op = VAsView 1 /\
    rp_operation_id (op_args op) = Some "01234567_controller_get_item" /\
    rp_operation_id (rf_route_params r') = rp_operation_id (op_args op) /\
    uuid_calls (state_after (add_operation_from_route_function 0 1) example_start)
      = 1.
Proof.
  apply (operation_id_shared 0 1 example_start tt
           (state_after (add_operation_from_route_function 0 1) example_start)
           (mkRouteFunction "get_item" (example_route "/items/{item_id}") None)).
  - vm_compute. reflexivity.
  - reflexivity.
Defined.

Lemma decoration_frame_witness :
  controllers (state_after (APIController___call__ 0 6) example_crowded) !! 1
    = controllers example_crowded !! 1 /\
  route_functions (state_after (APIController___call__ 0 6) example_crowded) !! 2
    = route_functions example_crowded !! 2.
Proof.
  split.
  - unshelve eapply (proj1 (decoration_frame 0 6 example_crowded 6
             (state_after (APIController___call__ 0 6) example_crowded) _ _ _) 1 _).
    all: try (vm_compute; reflexivity).
    discriminate.
  - unshelve eapply (proj2 (decoration_frame 0 6 example_crowded 6
             (state_after (APIController___call__ 0 6) example_crowded) _ _ _) 2 _).
    all: try (vm_compute; reflexivity).
    intros A HA _.
    vm_compute in HA.
    repeat (apply elem_of_cons in HA as [->|HA]);
      try (apply (bool_decide_unpack _); vm_compute; exact I).
    inversion HA.
Defined.

Lemma api_controller_bare_witness :
  exists R a',
    VClass 7 = VClass R /\
    get_api_controller R
      (state_after (api_controller (AsClass 6) (VObj 7) VNone VNone (VBool true))
         (example_declared [] "WidgetController"))
    = Returns (VController 1,
               state_after (api_controller (AsClass 6) (VObj 7) VNone VNone (VBool true))
                 (example_declared [] "WidgetController")) /\
    controllers
      (state_after (api_controller (AsClass 6) (VObj 7) VNone VNone (VBool true))
         (example_declared [] "WidgetController")) !! 1 = Some a' /\
    prefix a' = "" /\ auth a' = VObj 7 /\
    controller_class a' = Some R /\
    forall i, i < 1 ->
      controllers
        (state_after (api_controller (AsClass 6) (VObj 7) VNone VNone (VBool true))
           (example_declared [] "WidgetController")) !! i
      = controllers (example_declared [] "WidgetController") !! i.
Proof.
  apply (api_controller_bare 6 (VObj 7) VNone VNone (VBool true)
           (example_declared [] "WidgetController") (VClass 7)
           (state_after (api_controller (AsClass 6) (VObj 7) VNone VNone (VBool true))
              (example_declared [] "WidgetController"))).
  - apply example_declared_wf.
  - vm_compute. reflexivity.
Defined.

Lemma set_api_instance_frame_witness :
  exists a' c,
    controllers (example_bound (VObj 100)) !! 0 = Some a' /\
    Some 6 = Some c /\
    dict_keys (_path_operations a') = ["/items/{item_id}"; "/items"] /\
    length (all_operations a') = 2 /\
    route_functions (example_bound (VObj 100))
      = route_functions (example_decorated [ControllerBase] "WidgetController") /\
    class_attr (example_bound (VObj 100)) c "api" = Some (VObj 100).
Proof.
  destruct (set_api_instance_frame example_resolve 0 (VObj 100)
              (example_decorated [ControllerBase] "WidgetController") tt
              (example_bound (VObj 100))
              (default (APIController___init__ "" VNone VNone VNone VNone)
                 (controllers (example_decorated [ControllerBase] "WidgetController")
                    !! 0))
              "")
    as (a' & c & Ha' & Hc & _ & Hkeys & Hops & _ & Hrf & _ & Hapi & _).
  - vm_compute. reflexivity.
  - vm_compute. reflexivity.
  - exists a', c. split; [exact Ha'|]. split; [exact Hc|].
    split; [rewrite Hkeys; vm_compute; reflexivity|].
    split; [|split; [exact Hrf|exact Hapi]].
    rewrite <- (length_map op_view_func), Hops.
    vm_compute. reflexivity.
Defined.

Lemma url_route_seam_witness :
  "items/{item_id}" <> EmptyString /\
  url_route "shop" "/items/{item_id}" = url_route "shop" "items/{item_id}" /\
  url_route "shop/" "items/{item_id}" = url_route "shop" "items/{item_id}" /\
  url_route "shop" "items/{item_id}" = "shop/items/<item_id>".
Proof.
  split; [discriminate|]. split; [|split; [|reflexivity]].
  - refine (proj1 (url_route_seam "shop" "items/{item_id}" _)). discriminate.
  - refine (proj2 (url_route_seam "shop" "items/{item_id}" _)). discriminate.
Defined.

Lemma default_tag_without_controller_witness :
  PyStr.contains "controller" (PyStr.lower "HealthCheck") = false /\
  default_tag "HealthCheck" = "healthcheck".
Proof.
  split; [reflexivity|].
  apply (proj2 (default_tag_without_controller "HealthCheck")). reflexivity.
Defined.

Lemma decoration_registers_one_operation_per_slot_witness :
  exists a',
    controllers (example_decorated [ControllerBase] "WidgetController") !! 0
      = Some a' /\
    length (all_operations a') = 0 + 2 /\
    length (urls_paths a' "") = 0 + 2 /\
    uuid_calls (example_decorated [ControllerBase] "WidgetController") = 0 + 2.
Proof.
  apply (decoration_registers_one_operation_per_slot 0 6
           (example_declared [ControllerBase] "WidgetController") 6
           (example_decorated [ControllerBase] "WidgetController")
           (APIController___init__ "shop" VNotSet VNone VNone (VBool true))
           (mkPyClass "WidgetController" [4; 5] [6; 4; 5; 3; 2; 1; 0]
              [("_api_controller", VController 0)])).
  - vm_compute. reflexivity.
  - vm_compute. reflexivity.
  - vm_compute. reflexivity.
Defined.
